(** * puppeteer-paywall: the scrape-request lifecycle

    A shallow embedding of the Express handler [app.post("/scrape", ...)],
    of its helper [duplicateTabViaExtension] and of the message listener of
    the tab-duplicator extension ([duplicate-tab-extension/background.js]).

    The file models the last and most complete of the server variants, the
    one with the wsj.com side effect.

    The browser, the file system and the extension runtime are external: a
    [world] record fixes, for one request, how each awaited call settles
    (resolves with a value or rejects with an error object).  Every awaited
    call is taken to settle, except the identify evaluation, which the
    source races against a timer; where the page leaves the promise of the
    [duplicateTab] evaluation pending, puppeteer is taken to give the call
    up with an error ([gives_up]).  Sending a response is taken to succeed.
    The handler is written in a small monad that threads the handler's three
    mutable variables ([browser], [page], [userDataDir]), collects the
    externally visible calls as a trace of [event]s, and carries JavaScript
    completions (normal, [return], [throw]) so that
    [try]/[catch]/[finally] behave as in the source.

    Console logging ([logDebug], [console.error]) is left out except for
    what can change control flow: a template literal converts its
    substitutions to strings before anything is logged, and the conversion
    of a value that came with the request or from an extension can throw.
    Those conversions are in the model ([interpolate]) where they are made
    outside a [try] block or on a value that an extension sent.  The
    debug-only read of the process limits, which has a [try]/[catch] of its
    own, is left out. *)

From Stdlib Require Import List String Ascii Bool Arith NArith Lia.
From Stdlib Require Import DecimalString.
Import ListNotations.
Open Scope string_scope.
Set Warnings "-register-all".

(* ===================================================================== *)
(** ** JavaScript strings *)

Module Js.

(** [s.includes(sub)] *)
Fixpoint includes (s sub : string) : bool :=
  String.prefix sub s ||
  match s with
  | EmptyString => false
  | String _ rest => includes rest sub
  end.

(** [`${n}`] for a non-negative integer *)
Definition of_nat (n : nat) : string :=
  NilEmpty.string_of_uint (Nat.to_uint n).

(** [`${n}`] for a count of milliseconds *)
Definition of_N (n : N) : string :=
  NilEmpty.string_of_uint (N.to_uint n).

(** The double-quote character, as a string. *)
Definition quote : string := String (Ascii.ascii_of_nat 34) EmptyString.

(** [parts.join(sep)] *)
Definition join (sep : string) (parts : list string) : string :=
  String.concat sep parts.

(* ===================================================================== *)
(** ** JavaScript values

    The values that travel through the handler are those of parsed JSON
    bodies and of extension replies, plus [undefined].  A number is kept as
    its ECMAScript [Number::toString] rendering (["0"], ["1.5"], ["NaN"],
    ["Infinity"], ...): the handler never computes with numbers, it only
    tests their truthiness, interpolates them and passes them on.  An object
    is the ordered list of its own properties, each key once. *)

Record number := Number { num_text : string }.

Inductive value : Type :=
| JUndefined
| JNull
| JBool (b : bool)
| JNum (n : number)
| JStr (s : string)
| JArr (items : list value)
| JObj (props : list (string * value)).

(** ToBoolean *)
Definition truthy (v : value) : bool :=
  match v with
  | JUndefined | JNull => false
  | JBool b => b
  | JNum n => negb (String.eqb (num_text n) "0" || String.eqb (num_text n) "NaN")
  | JStr s => negb (String.eqb s EmptyString)
  | JArr _ | JObj _ => true
  end.

(** [v === "lit"] *)
Definition is_string (v : value) (lit : string) : bool :=
  match v with
  | JStr s => String.eqb s lit
  | _ => false
  end.

(** [x = default] in a destructuring pattern: the default applies only to
    [undefined]. *)
Definition or_default (v dflt : value) : value :=
  match v with
  | JUndefined => dflt
  | _ => v
  end.

Fixpoint lookup (k : string) (props : list (string * value)) : value :=
  match props with
  | [] => JUndefined
  | (k', v) :: rest => if String.eqb k k' then v else lookup k rest
  end.

(** [v.k] for a property name [k] that no prototype defines ([action],
    [identity], [success], ...): [None] is the TypeError of reading a
    property of [undefined] or [null]. *)
Definition get (v : value) (k : string) : option value :=
  match v with
  | JUndefined | JNull => None
  | JObj props => Some (lookup k props)
  | _ => Some JUndefined
  end.

(** ToString throws a TypeError on some values.  An object is converted
    through its [toString] method; in a value that came as JSON an own
    property of that name is not a function, it hides the inherited method,
    and the inherited [valueOf] hands back the object itself: no primitive
    comes out.  An array is converted element by element. *)
Fixpoint convertible (v : value) : bool :=
  match v with
  | JArr items =>
      (fix all (l : list value) : bool :=
         match l with
         | [] => true
         | x :: rest => convertible x && all rest
         end) items
  | JObj props =>
      negb (existsb (fun kv => String.eqb (fst kv) "toString") props)
  | _ => true
  end.

(** The string ToString gives for a value it converts ([convertible]); the
    operation itself, with its TypeError, is [ToString] below. *)
Fixpoint to_string (v : value) : string :=
  match v with
  | JUndefined => "undefined"
  | JNull => "null"
  | JBool true => "true"
  | JBool false => "false"
  | JNum n => num_text n
  | JStr s => s
  | JArr items =>
      join ","
        ((fix elements (l : list value) : list string :=
            match l with
            | [] => []
            | JUndefined :: rest | JNull :: rest => EmptyString :: elements rest
            | x :: rest => to_string x :: elements rest
            end) items)
  | JObj _ => "[object Object]"
  end.

(** What [JSON.stringify] keeps of a value nested in a document: [undefined]
    properties are dropped, [undefined] array slots and the non-finite
    numbers become [null]. *)
Definition json_number (n : number) : value :=
  if String.eqb (num_text n) "NaN" || String.eqb (num_text n) "Infinity"
     || String.eqb (num_text n) "-Infinity"
  then JNull else JNum n.

Fixpoint json (v : value) : value :=
  match v with
  | JNum n => json_number n
  | JArr items =>
      JArr ((fix slots (l : list value) : list value :=
               match l with
               | [] => []
               | JUndefined :: rest => JNull :: slots rest
               | x :: rest => json x :: slots rest
               end) items)
  | JObj props =>
      JObj ((fix fields (l : list (string * value)) : list (string * value) :=
               match l with
               | [] => []
               | (_, JUndefined) :: rest => fields rest
               | (k, x) :: rest => (k, json x) :: fields rest
               end) props)
  | _ => v
  end.

(** Does a serialised object carry the field [k]? *)
Definition has_field (k : string) (v : value) : bool :=
  match v with
  | JObj props => existsb (fun kv => String.eqb k (fst kv)) props
  | _ => false
  end.

(** [Error] objects, as far as the handler reads them. *)
Record error := MkError {
  name : string;             (* error.name *)
  message : string;          (* error.message *)
  constructor_name : string; (* error.constructor.name *)
  stack : string             (* error.stack *)
}.

(** [new Error(msg)] *)
Definition Error (msg : string) : error :=
  MkError "Error" msg "Error" ("Error: " ++ msg).

(** A TypeError raised by the engine. *)
Definition TypeError (msg : string) : error :=
  MkError "TypeError" msg "TypeError" ("TypeError: " ++ msg).

(** The TypeError of reading the property [what] of [undefined] or
    [null]. *)
Definition reading_of (v : value) (what : string) : error :=
  TypeError ("Cannot read properties of "
             ++ match v with JNull => "null" | _ => "undefined" end
             ++ " (reading '" ++ what ++ "')").

End Js.

Import Js.

(* ===================================================================== *)
(** ** The page: DOM nodes and XPath results *)

(** A DOM node, by the three properties [processNode] reads.  [nodeValue]
    is [null] ([None]) for the node kinds that have no value.  [position]
    is the place of the node in document order; no script reads it, it
    serves to say in which order nodes are listed. *)
Record Node := {
  nodeType : nat;
  outerHTML : string;
  nodeValue : option string;
  position : nat
}.

Definition ELEMENT_NODE := 1.
Definition ATTRIBUTE_NODE := 2.
Definition TEXT_NODE := 3.
Definition COMMENT_NODE := 8.

Definition node_value (node : Node) : value :=
  match nodeValue node with
  | Some s => JStr s
  | None => JNull
  end.

(** [processNode]; [None] is the [null] that [singleNodeValue] and
    [snapshotItem] give when there is no node. *)
Definition processNode (node : option Node) : value :=
  match node with
  | None => JNull
  | Some node =>
      if Nat.eqb (nodeType node) ELEMENT_NODE then JStr (outerHTML node)
      else if Nat.eqb (nodeType node) ATTRIBUTE_NODE
              || Nat.eqb (nodeType node) TEXT_NODE
      then node_value node
      else if Nat.eqb (nodeType node) COMMENT_NODE
      then JStr ("<!-- " ++ to_string (node_value node) ++ " -->")
      else JStr ("Unsupported node type: " ++ of_nat (nodeType node))
  end.

(** The [XPathResult] interface.  [matched] is the node sequence of a
    node-set result, in the order in which [iterateNext] and
    [snapshotItem] hand the nodes out: document order for the two ORDERED
    types, an order of the browser's choosing for the two UNORDERED types.
    [document.evaluate] is called with [XPathResult.ANY_TYPE], for which a
    node-set comes back as UNORDERED_NODE_ITERATOR_TYPE. *)
Record XPathResult := {
  resultType : nat;
  numberValue : number;
  stringValue : string;
  booleanValue : bool;
  matched : list Node;
  singleNodeValue : option Node
}.

Definition NUMBER_TYPE := 1.
Definition STRING_TYPE := 2.
Definition BOOLEAN_TYPE := 3.
Definition UNORDERED_NODE_ITERATOR_TYPE := 4.
Definition ORDERED_NODE_ITERATOR_TYPE := 5.
Definition UNORDERED_NODE_SNAPSHOT_TYPE := 6.
Definition ORDERED_NODE_SNAPSHOT_TYPE := 7.
Definition ANY_UNORDERED_NODE_TYPE := 8.
Definition FIRST_ORDERED_NODE_TYPE := 9.

Definition snapshotLength (result : XPathResult) : nat :=
  List.length (matched result).

Definition snapshotItem (result : XPathResult) (i : nat) : option Node :=
  nth_error (matched result) i.

(** [while ((node = result.iterateNext())) results.push(processNode(node))]:
    [pending] is what the iterator has not handed out yet. *)
Fixpoint iterate (pending : list Node) (results : list value) : list value :=
  match pending with
  | [] => results
  | node :: rest => iterate rest (results ++ [processNode (Some node)])%list
  end.

(** [for (let i = ...; i < result.snapshotLength; i++)
       results.push(processNode(result.snapshotItem(i)))],
    with [todo] = [snapshotLength - i] iterations left. *)
Fixpoint snapshot_loop (result : XPathResult) (todo i : nat)
    (results : list value) : list value :=
  match todo with
  | 0 => results
  | S todo' =>
      snapshot_loop result todo' (S i)
        (results ++ [processNode (snapshotItem result i)])%list
  end.

(** The [switch (result.resultType)] of the function evaluated in the page. *)
Definition xpath_switch (result : XPathResult) : list value :=
  let t := resultType result in
  if Nat.eqb t NUMBER_TYPE then [JNum (numberValue result)]
  else if Nat.eqb t STRING_TYPE then [JStr (stringValue result)]
  else if Nat.eqb t BOOLEAN_TYPE then [JBool (booleanValue result)]
  else if Nat.eqb t UNORDERED_NODE_ITERATOR_TYPE
          || Nat.eqb t ORDERED_NODE_ITERATOR_TYPE
  then iterate (matched result) []
  else if Nat.eqb t UNORDERED_NODE_SNAPSHOT_TYPE
          || Nat.eqb t ORDERED_NODE_SNAPSHOT_TYPE
  then snapshot_loop result (snapshotLength result) 0 []
  else if Nat.eqb t ANY_UNORDERED_NODE_TYPE
          || Nat.eqb t FIRST_ORDERED_NODE_TYPE
  then [processNode (singleNodeValue result)]
  else [JStr ("Unknown XPathResult type: " ++ of_nat t)].

(** How a call settles: a promise resolves or rejects, a synchronous call
    returns or throws. *)
Inductive settled (A : Type) : Type :=
| Resolve (a : A)
| Reject (e : error).
Arguments Resolve {A} a.
Arguments Reject {A} e.

(** ToString, as a template literal and the [Error] constructor apply it. *)
Definition ToString (v : value) : settled string :=
  if convertible v then Resolve (to_string v)
  else Reject (TypeError "Cannot convert object to primitive value").

(** The error the [catch] around [document.evaluate] throws. *)
Definition xpath_failure (thrown : error) : error :=
  Error ("XPath evaluation failed in browser: " ++ message thrown).

(** The whole function passed to [page.evaluate]: [document.evaluate]
    either returns a result or throws, and the [catch] wraps the message. *)
Definition xpath_in_page (doc_evaluate : settled XPathResult)
    : settled (list value) :=
  match doc_evaluate with
  | Resolve result => Resolve (xpath_switch result)
  | Reject error => Reject (xpath_failure error)
  end.

(* ===================================================================== *)
(** ** Handles, responses and the trace of external calls *)

Record Browser := { browser_id : nat }.
Record Page := { page_id : nat }.

(** An [ElementHandle] refers to one element of the page. *)
Record ElementHandle := { element : Node }.

Inductive payload : Type :=
| Text (markup : string)   (* res.send(string) *)
| Json (document : value). (* res.json(value): the serialised document *)

Record response := {
  status : nat;
  content_type : string;
  sent : payload
}.

Inductive event : Type :=
| MkdtempSync (prefix : string)
| Launch (dir : string) (timeout : N)
| Targets
| NewPage
| SetViewport (width height : nat)
| SetUserAgent (agent : string)
| Delay (ms : N)
| Goto (url : value) (timeout : N)
| Worker (worker_url : string)
| SendIdentify (worker_url : string) (timeout : N)
| SendDuplicateTab (worker_url : string)
| MouseMove (x y : nat)
| ScrollBy (x y : nat)
| EvaluateXPath (expression : value)
| WaitForSelector (selector : value) (timeout : N)
| ReadOuterHTML (handle : ElementHandle)
| Dispose (handle : ElementHandle)
| PageClose (p : Page)
| BrowserClose (b : Browser)
| RemoveDir (dir : string)
| Respond (r : response).

(* ===================================================================== *)
(** ** The handler monad *)

Inductive completion (A : Type) : Type :=
| Normal (a : A)
| Return
| Throw (e : error).
Arguments Normal {A} a.
Arguments Return {A}.
Arguments Throw {A} e.

(** The variables declared before the [try] and read by the [finally]. *)
Record vars := {
  browser : option Browser;
  page : option Page;
  userDataDir : option string
}.

Record run (A : Type) : Type := Run {
  outcome : completion A;
  final : vars;
  emitted : list event
}.
Arguments Run {A} outcome final emitted.
Arguments outcome {A} r.
Arguments final {A} r.
Arguments emitted {A} r.

Definition M (A : Type) : Type := vars -> run A.

Definition ret {A} (a : A) : M A := fun v => Run (Normal a) v [].

Definition bind {A B} (m : M A) (k : A -> M B) : M B := fun v =>
  match m v with
  | Run (Normal a) v' l =>
      match k a v' with
      | Run o v'' l' => Run o v'' (l ++ l')%list
      end
  | Run Return v' l => Run Return v' l
  | Run (Throw e) v' l => Run (Throw e) v' l
  end.

Declare Scope js_scope.
Delimit Scope js_scope with js.
Notation "x <- m ;; k" := (bind m (fun x => k))
  (at level 100, m at next level, right associativity) : js_scope.
Notation "m ;; k" := (bind m (fun _ => k))
  (at level 100, right associativity) : js_scope.
Open Scope js_scope.

Definition throw {A} (e : error) : M A := fun v => Run (Throw e) v [].
Definition return_ {A} : M A := fun v => Run Return v [].
Definition emit (e : event) : M unit := fun v => Run (Normal tt) v [e].

(** An external call: it is recorded, then it settles. *)
Definition call {A} (e : event) (s : settled A) : M A := fun v =>
  match s with
  | Resolve a => Run (Normal a) v [e]
  | Reject err => Run (Throw err) v [e]
  end.

(** [try { body } catch (e) { handler }] *)
Definition try_catch {A} (body : M A) (handler : error -> M A) : M A := fun v =>
  match body v with
  | Run (Throw e) v' l =>
      match handler e v' with
      | Run o v'' l' => Run o v'' (l ++ l')%list
      end
  | r => r
  end.

(** [try { body } catch (e) { handler } finally { finalizer }]: the
    finalizer runs on every completion of the first two blocks and
    overrides it only by an abrupt completion of its own. *)
Definition try_catch_finally {A} (body : M A) (handler : error -> M A)
    (finalizer : M unit) : M A := fun v =>
  match try_catch body handler v with
  | Run o v' l =>
      match finalizer v' with
      | Run (Normal _) v'' l' => Run o v'' (l ++ l')%list
      | Run Return v'' l' => Run Return v'' (l ++ l')%list
      | Run (Throw e) v'' l' => Run (Throw e) v'' (l ++ l')%list
      end
  end.

Definition set_browser (b : Browser) : M unit := fun v =>
  Run (Normal tt) {| browser := Some b; page := page v;
                     userDataDir := userDataDir v |} [].
Definition set_page (p : Page) : M unit := fun v =>
  Run (Normal tt) {| browser := browser v; page := Some p;
                     userDataDir := userDataDir v |} [].
Definition set_userDataDir (d : string) : M unit := fun v =>
  Run (Normal tt) {| browser := browser v; page := page v;
                     userDataDir := Some d |} [].
Definition read {A} (f : vars -> A) : M A := fun v => Run (Normal (f v)) v [].

(** A template literal with these substitutions, evaluated for a log line:
    the substitutions are converted from left to right, and nothing else
    of the line is visible. *)
Fixpoint interpolate (substitutions : list value) : M unit :=
  match substitutions with
  | [] => ret tt
  | v :: rest =>
      match ToString v with
      | Resolve _ => interpolate rest
      | Reject e => throw e
      end
  end.

(** [res.status(code).json(v)], [res.json(v)] and [res.type(t).send(s)] *)
Definition res_status_json (code : nat) (v : value) : M unit :=
  emit (Respond {| status := code; content_type := "application/json";
                   sent := Json (json v) |}).
Definition res_json (v : value) : M unit := res_status_json 200 v.
Definition res_type_send (type : string) (s : string) : M unit :=
  emit (Respond {| status := 200; content_type := type; sent := Text s |}).

(* ===================================================================== *)
(** ** puppeteer-core, as the handler relies on it *)

Module Puppeteer.

(** puppeteer's [TimeoutError] class: [name] is the class name. *)
Definition TimeoutError (msg : string) : error :=
  MkError "TimeoutError" msg "TimeoutError" ("TimeoutError: " ++ msg).

(** [page.goto(url, { waitUntil: "networkidle2", timeout })] *)
Inductive navigation : Type :=
| Loaded                        (* the network went idle in time *)
| NeverSettles                  (* it did not: TimeoutError *)
| NetworkError (code : string)  (* Chromium's net error, e.g. ERR_NAME_NOT_RESOLVED *)
| NavigationRejects (e : error).

Definition navigation_timeout (timeout : N) : error :=
  TimeoutError ("Navigation timeout of " ++ of_N timeout ++ " ms exceeded").

Definition net_error (code : string) (url : value) : error :=
  Error ("net::" ++ code ++ " at " ++ to_string url).

Definition goto (n : navigation) (url : value) (timeout : N) : settled unit :=
  match n with
  | Loaded => Resolve tt
  | NeverSettles => Reject (navigation_timeout timeout)
  | NetworkError code => Reject (net_error code url)
  | NavigationRejects e => Reject e
  end.

(** [page.waitForSelector(selector, { timeout })]: the handle of the first
    element that matches, in document order, once one does. *)
Inductive selector_wait : Type :=
| Appears (first : Node) (others : list Node)
| NeverAppears
| ResolvesNull
| WaitRejects (e : error).

Definition selector_timeout (selector : value) (timeout : N) : error :=
  TimeoutError ("Waiting for selector `" ++ to_string selector
                ++ "` failed: Waiting failed: " ++ of_N timeout ++ "ms exceeded").

Definition waitForSelector (s : selector_wait) (selector : value) (timeout : N)
    : settled (option ElementHandle) :=
  match s with
  | Appears first _ => Resolve (Some {| element := first |})
  | NeverAppears => Reject (selector_timeout selector timeout)
  | ResolvesNull => Resolve None
  | WaitRejects e => Reject e
  end.

(** [context.evaluate(fn)]: the outer [Reject] is a call that never ran the
    function (closed target, destroyed context); otherwise the promise
    settles as the function did, an error thrown in the page keeping its
    message. *)
Definition evaluate {A} (r : settled (settled A)) : settled A :=
  match r with
  | Resolve s => s
  | Reject e => Reject e
  end.

(** A promise that may stay pending; [ms] is when it settles. *)
Inductive promise (A : Type) : Type :=
| SettlesAfter (ms : N) (s : settled A)
| Pending.
Arguments SettlesAfter {A} ms s.
Arguments Pending {A}.

(** [Promise.race([p, new Promise((_, reject) =>
       setTimeout(() => reject(new Error("timeout")), ms))])] *)
Definition race_timeout {A} (p : promise A) (ms : N) : settled A :=
  match p with
  | SettlesAfter t s => if (t <? ms)%N then s else Reject (Error "timeout")
  | Pending => Reject (Error "timeout")
  end.

End Puppeteer.

(* ===================================================================== *)
(** ** The world of one request *)

(** What the callback of [chrome.runtime.sendMessage] receives. *)
Record reply := {
  responded : value;          (* the callback's [response] argument *)
  lastError : option string   (* chrome.runtime.lastError.message *)
}.

(** A browser target, with how the calls made on it settle.  A worker
    context that comes back as [null] makes the next line throw inside the
    same [try]; it counts as a rejected [worker()]. *)
Record Target := {
  target_type : string;                       (* t.type() *)
  target_url : string;                        (* t.url() *)
  worker : settled unit;                      (* worker.worker(), in the loop *)
  identify : Puppeteer.promise value;         (* the identify evaluate *)
  worker_again : settled unit;                (* worker.worker(), for the command *)
  duplicateTab : settled reply;               (* the duplicateTab evaluate *)
  gives_up : error
    (* what that evaluate rejects with when the page leaves its promise
       pending for good *)
}.

Record world := {
  NODE_ENV : option string;              (* process.env.NODE_ENV *)
  tmpdir : string;                       (* os.tmpdir() *)
  mkdtemp : settled string;              (* the suffix fs.mkdtempSync appends *)
  launched : settled Browser;            (* puppeteer.launch *)
  opened : settled Page;                 (* browser.newPage *)
  viewport : settled unit;               (* page.setViewport *)
  user_agent : settled unit;             (* page.setUserAgent *)
  navigation : Puppeteer.navigation;     (* page.goto *)
  targets : list Target;                 (* browser.targets(), in the helper *)
  mouse : settled unit;                  (* page.mouse.move *)
  scroll : settled unit;                 (* page.evaluate(scrollBy) *)
  document_evaluate : settled (settled XPathResult);
  selector_wait : Puppeteer.selector_wait;
  outer_html : settled unit;             (* elementHandle.evaluate *)
  disposed : settled unit;               (* elementHandle.dispose *)
  page_closed : settled unit;            (* page.close *)
  browser_closed : settled unit;         (* browser.close *)
  dir_removed : settled unit             (* fs.promises.rm / fs.rmdirSync *)
}.

(* ===================================================================== *)
(** ** [duplicateTabViaExtension] *)

(** The filter that selects the extension service workers. *)
Definition is_extension_service_worker (t : Target) : bool :=
  String.eqb (target_type t) "service_worker"
  && includes (target_url t) "chrome-extension://".

(** [identity && identity.identity === "tab-duplicator"] *)
Definition is_tab_duplicator (identity : value) : bool :=
  truthy identity &&
  match get identity "identity" with
  | Some id => is_string id "tab-duplicator"
  | None => false
  end.

(** [Promise.race([...]).catch((e) => null)] *)
Definition catch_null (s : settled value) : value :=
  match s with
  | Resolve v => v
  | Reject _ => JNull
  end.

(** [identity?.identity || "unknown"], the substitution of the log line
    between the reply and the test. *)
Definition shown_identity (identity : value) : value :=
  match get identity "identity" with
  | Some id => if truthy id then id else JStr "unknown"
  | None => JStr "unknown"
  end.

(** The body of one iteration of [for (const worker of serviceWorkers)]:
    [true] is the [break] after a match; an exception inside the [try] is
    the [continue]. *)
Definition check_identity (worker_ : Target) : M bool :=
  try_catch
    (call (Worker (target_url worker_)) (worker worker_) ;;
     emit (SendIdentify (target_url worker_) 1000) ;;
     let identity :=
       catch_null
         (Puppeteer.race_timeout (identify worker_) 1000) in
     interpolate [shown_identity identity] ;;
     ret (is_tab_duplicator identity))
    (fun e => ret false).

Fixpoint identity_loop (serviceWorkers : list Target) : M (option Target) :=
  match serviceWorkers with
  | [] => ret None
  | worker_ :: rest =>
      found <- check_identity worker_ ;;
      if found then ret (Some worker_) else identity_loop rest
  end.

Definition not_found_message (serviceWorkers : list Target) : string :=
  "Tab-duplicator extension not found among "
  ++ of_nat (List.length serviceWorkers) ++ " service workers. "
  ++ "Checked: " ++ join ", " (map target_url serviceWorkers).

(** The callback of the [duplicateTab] message, run in the worker: how it
    settles the promise, or [None] when it throws before it does and
    leaves the promise pending ([new Error(x)] converts [x] to a string).
    A [response] without properties is [undefined] or [null], hence
    falsy. *)
Definition duplicate_callback (r : reply) : option (settled value) :=
  match lastError r with
  | Some msg => Some (Reject (Error msg))
  | None =>
      match get (responded r) "success", get (responded r) "error" with
      | Some success, Some err =>
          if truthy (responded r) && truthy success
          then Some (Resolve (responded r))
          else if negb (truthy (responded r))
          then Some (Reject (Error "No response from extension"))
          else match ToString (if truthy err then err
                               else JStr "Unknown error") with
               | Resolve text => Some (Reject (Error text))
               | Reject _ => None
               end
      | _, _ => Some (Reject (Error "No response from extension"))
      end
  end.

(** The [duplicateTab] evaluate on a worker. *)
Definition send_duplicateTab (found : Target) : settled value :=
  match duplicateTab found with
  | Resolve cb =>
      match duplicate_callback cb with
      | Some s => s
      | None => Reject (gives_up found)
      end
  | Reject e => Reject e
  end.

Definition duplicateTabViaExtension (w : world) : M value :=
  try_catch
    (emit Targets ;;
     let serviceWorkers := filter is_extension_service_worker (targets w) in
     tabDuplicatorWorker <- identity_loop serviceWorkers ;;
     match tabDuplicatorWorker with
     | None => throw (Error (not_found_message serviceWorkers))
     | Some found =>
         call (Worker (target_url found)) (worker_again found) ;;
         result <- call (SendDuplicateTab (target_url found))
                        (send_duplicateTab found) ;;
         match get result "newTabId" with
         | Some newTabId => interpolate [newTabId] ;; ret result
         | None => throw (reading_of result "newTabId")
         end
     end)
    (fun error => throw error).

(* ===================================================================== *)
(** ** The [/scrape] handler *)

(** The parsed JSON body: [express.json()] hands the handler an object. *)
Record request := { body : list (string * value) }.

(** [url.includes("wsj.com/")]: strings and arrays have the method, on any
    other value the call is a TypeError ([None]). *)
Definition url_includes (url : value) (part : string) : option bool :=
  match url with
  | JStr s => Some (includes s part)
  | JArr items => Some (existsb (fun x => is_string x part) items)
  | _ => None
  end.

(** The status classification of the [catch] block. *)
Definition statusCode (error : error) : nat :=
  if String.eqb (name error) "TimeoutError"
     || includes (message error) "timeout"
     || includes (message error) "exceeded"
  then 504
  else if includes (message error) "selector"
          && (includes (message error) "not found"
              || includes (message error) "failed to find element")
  then 404
  else if includes (message error) "Navigation failed"
          || includes (message error) "net::ERR_"
  then 502
  else if includes (message error) "XPath evaluation failed"
  then 400
  else 500.

(** [debug || process.env.NODE_ENV === "development"] *)
Definition verbose (w : world) (debug : value) : bool :=
  truthy debug ||
  match NODE_ENV w with
  | Some env => String.eqb env "development"
  | None => false
  end.

Definition error_document (w : world) (debug : value) (error : error) : value :=
  JObj [("error", JStr "Scraping failed");
        ("details", JStr (message error));
        ("type", JStr (constructor_name error));
        ("stack", if verbose w debug then JStr (stack error) else JUndefined)].

Definition user_agent_string : string :=
  "Mozilla/5.0 (Windows NT 10.0; Win64; x64) AppleWebKit/537.36 (KHTML, like Gecko) Chrome/135.0.0.0 Safari/537.36".

(** Node's [path] module, POSIX flavour. *)
Module Path.

Definition slash : ascii := Ascii.ascii_of_nat 47.

(** The pieces of a path between its slashes. *)
Fixpoint segments (path : string) : list string :=
  match path with
  | EmptyString => [EmptyString]
  | String c rest =>
      if Ascii.eqb c slash then EmptyString :: segments rest
      else match segments rest with
           | [] => [String c EmptyString]
           | piece :: pieces => String c piece :: pieces
           end
  end.

(** [normalizeString]: empty and [.] segments go, [..] drops the segment
    before it, or stays when there is none to drop and the path is
    relative.  [kept] holds the segments kept so far, last first. *)
Fixpoint normalizeString (todo : list string) (allowAboveRoot : bool)
    (kept : list string) : list string :=
  match todo with
  | [] => rev kept
  | segment :: rest =>
      if String.eqb segment EmptyString || String.eqb segment "."
      then normalizeString rest allowAboveRoot kept
      else if String.eqb segment ".." then
        match kept with
        | last :: before =>
            if String.eqb last ".."
            then normalizeString rest allowAboveRoot
                   (if allowAboveRoot then ".." :: kept else kept)
            else normalizeString rest allowAboveRoot before
        | [] =>
            normalizeString rest allowAboveRoot
              (if allowAboveRoot then [".."] else [])
        end
      else normalizeString rest allowAboveRoot (segment :: kept)
  end.

Fixpoint ends_with_slash (path : string) : bool :=
  match path with
  | EmptyString => false
  | String c EmptyString => Ascii.eqb c slash
  | String _ rest => ends_with_slash rest
  end.

(** [path.normalize] *)
Definition normalize (path : string) : string :=
  if String.eqb path EmptyString then "."
  else
    let isAbsolute := String.prefix "/" path in
    let trailingSeparator := ends_with_slash path in
    let inner :=
      join "/" (normalizeString (segments path) (negb isAbsolute) []) in
    if String.eqb inner EmptyString
    then if isAbsolute then "/" else if trailingSeparator then "./" else "."
    else (if isAbsolute then "/" else EmptyString)
         ++ inner ++ (if trailingSeparator then "/" else EmptyString).

(** [path.join(...paths)] *)
Definition join (paths : list string) : string :=
  let joined :=
    Js.join "/" (filter (fun p => negb (String.eqb p EmptyString)) paths) in
  if String.eqb joined EmptyString then "." else normalize joined.

End Path.

(** [path.join(os.tmpdir(), "puppeteer-user-data-")] *)
Definition tmp_prefix (w : world) : string :=
  Path.join [tmpdir w; "puppeteer-user-data-"].

(** The [try] block, in the order of the source: launch, page and
    navigation, the wsj.com side effect, the settle delay, extraction. *)
Definition launch_browser (w : world) : M unit :=
  suffix <- call (MkdtempSync (tmp_prefix w)) (mkdtemp w) ;;
  set_userDataDir (tmp_prefix w ++ suffix) ;;
  b <- call (Launch (tmp_prefix w ++ suffix) 60000) (launched w) ;;
  set_browser b ;;
  emit Targets.

Definition navigate (w : world) (url : value) : M unit :=
  p <- call NewPage (opened w) ;;
  set_page p ;;
  call (SetViewport 1280 720) (viewport w) ;;
  call (SetUserAgent user_agent_string) (user_agent w) ;;
  emit (Delay 3000) ;;
  call (Goto url 45000) (Puppeteer.goto (navigation w) url 45000).

(** [if (url.includes("wsj.com/")) { try { await duplicateTabViaExtension(...) }
    catch (dupError) { } }] *)
Definition maybe_duplicate_tab (w : world) (url : value) : M unit :=
  match url_includes url "wsj.com/" with
  | None => throw (TypeError "url.includes is not a function")
  | Some true =>
      try_catch (duplicateTabViaExtension w ;; ret tt) (fun dupError => ret tt)
  | Some false => ret tt
  end.

Definition settle (w : world) (method : value) : M unit :=
  call (MouseMove 100 100) (mouse w) ;;
  call (ScrollBy 0 200) (scroll w) ;;
  let postNavDelay := if is_string method "xpath" then 5000%N else 2000%N in
  emit (Delay postNavDelay).

Definition extract_xpath (w : world) (selector : value) : M unit :=
  extractedData <-
    call (EvaluateXPath selector)
         (Puppeteer.evaluate
            match document_evaluate w with
            | Resolve in_page => Resolve (xpath_in_page in_page)
            | Reject e => Reject e
            end) ;;
  res_json (JArr extractedData).

Definition null_handle_message (selector : value) : string :=
  "CSS selector " ++ quote ++ to_string selector ++ quote
  ++ " was found by waitForSelector, but handle is unexpectedly null.".

Definition extract_css (w : world) (selector : value) : M unit :=
  elementHandle <-
    call (WaitForSelector selector 15000)
         (Puppeteer.waitForSelector (selector_wait w) selector 15000) ;;
  match elementHandle with
  | None => throw (Error (null_handle_message selector))
  | Some handle =>
      call (ReadOuterHTML handle) (outer_html w) ;;
      let extractedData := outerHTML (element handle) in
      call (Dispose handle) (disposed w) ;;
      res_type_send "text/html" extractedData ;;
      return_
  end.

Definition extract (w : world) (selector method : value) : M unit :=
  if is_string method "xpath" then extract_xpath w selector
  else extract_css w selector.

Definition scrape_try (w : world) (url selector method : value) : M unit :=
  launch_browser w ;;
  navigate w url ;;
  maybe_duplicate_tab w url ;;
  settle w method ;;
  extract w selector method.

(** The [catch] block. *)
Definition scrape_catch (w : world) (debug : value) (error : error) : M unit :=
  res_status_json (statusCode error) (error_document w debug error).

(** The [finally] block. *)
Definition scrape_finally (w : world) : M unit :=
  p <- read page ;;
  match p with
  | Some p => try_catch (call (PageClose p) (page_closed w)) (fun e => ret tt)
  | None => ret tt
  end ;;
  b <- read browser ;;
  match b with
  | Some b => try_catch (call (BrowserClose b) (browser_closed w)) (fun e => ret tt)
  | None => ret tt
  end ;;
  d <- read userDataDir ;;
  match d with
  | Some dir =>
      if negb (String.eqb dir EmptyString)
      then try_catch (call (RemoveDir dir) (dir_removed w)) (fun err => ret tt)
      else ret tt
  | None => ret tt
  end.

Definition scrape (w : world) (req : request) : M unit :=
  let url := lookup "url" (body req) in
  let selector := lookup "selector" (body req) in
  let method := or_default (lookup "method" (body req)) (JStr "css") in
  let debug := or_default (lookup "debug" (body req)) (JBool false) in
  interpolate [url; selector; method; debug] ;;
  if negb (truthy url) || negb (truthy selector) then
    res_status_json 400
      (JObj [("error", JStr "Missing required fields: url and selector")]) ;;
    return_
  else
    try_catch_finally
      (scrape_try w url selector method)
      (scrape_catch w debug)
      (scrape_finally w).

(** One request: the three variables start as [null]. *)
Definition null_vars : vars :=
  {| browser := None; page := None; userDataDir := None |}.

Definition handle (w : world) (req : request) : run unit :=
  scrape w req null_vars.

Definition trace (w : world) (req : request) : list event :=
  emitted (handle w req).

Fixpoint responses (l : list event) : list response :=
  match l with
  | [] => []
  | Respond r :: rest => r :: responses rest
  | _ :: rest => responses rest
  end.

(* ===================================================================== *)
(** ** The tab-duplicator extension: [background.js] *)

Module Background.

(** The extension API, as the listener uses it: the tabs that
    [chrome.tabs.query] finds, each a Tab object given by its properties,
    and the tab that [chrome.tabs.duplicate] hands to its callback for a
    given tab id ([undefined] when duplication fails). *)
Record chrome := {
  active_tabs : list (list (string * value));
  duplicate : value -> value
}.

(** The array [chrome.tabs.query] hands to its callback. *)
Definition query (c : chrome) : list value := map JObj (active_tabs c).

(** One run of the listener with the callbacks it scheduled: the value the
    listener returned, the calls of [sendResponse], and the TypeError that
    ended the listener or one of its callbacks, if any. *)
Record listened := {
  returned : value;
  sendResponse : list value;
  uncaught : option error
}.

(** The TypeError of reading a property of [undefined]. *)
Definition reading (what : string) : error := reading_of JUndefined what.

Definition onMessage (c : chrome) (request : value) : listened :=
  match get request "action" with
  | None =>
      {| returned := JUndefined; sendResponse := [];
         uncaught := Some (reading_of request "action") |}
  | Some action =>
      if is_string action "duplicateTab" then
        let currentTab := nth 0 (query c) JUndefined in
        match get currentTab "id" with
        | None =>
            {| returned := JBool true; sendResponse := [];
               uncaught := Some (reading_of currentTab "id") |}
        | Some id =>
            let newTab := duplicate c id in
            match get newTab "id" with
            | None =>
                {| returned := JBool true; sendResponse := [];
                   uncaught := Some (reading_of newTab "id") |}
            | Some newTabId =>
                {| returned := JBool true;
                   sendResponse :=
                     [JObj [("success", JBool true); ("newTabId", newTabId)]];
                   uncaught := None |}
            end
        end
      else
        {| returned := JUndefined; sendResponse := []; uncaught := None |}
  end.

End Background.

(* ===================================================================== *)
(** ** Observations on a trace *)

(** The three cleanup calls of the [finally] block. *)
Definition is_teardown (e : event) : bool :=
  match e with
  | PageClose _ | BrowserClose _ | RemoveDir _ => true
  | _ => false
  end.

Definition teardown (l : list event) : list event := filter is_teardown l.

Definition is_wait (e : event) : bool :=
  match e with
  | WaitForSelector _ _ => true
  | _ => false
  end.

(** The calls made by [duplicateTabViaExtension]. *)
Definition is_side_effect (e : event) : bool :=
  match e with
  | Targets | Worker _ | SendIdentify _ _ | SendDuplicateTab _ => true
  | _ => false
  end.

(** A trace without the calls of the side effect. *)
Definition main_path (l : list event) : list event :=
  filter (fun e => negb (is_side_effect e)) l.

(** What the [try] block may emit, by extraction method: no cleanup call,
    and as a response only the success payload of the method. *)
Definition try_event (method : value) (e : event) : bool :=
  match e with
  | PageClose _ | BrowserClose _ | RemoveDir _ => false
  | EvaluateXPath _ => is_string method "xpath"
  | WaitForSelector _ _ | ReadOuterHTML _ | Dispose _ =>
      negb (is_string method "xpath")
  | Respond r =>
      Nat.eqb (status r) 200 &&
      match sent r with
      | Json (JArr _) => is_string method "xpath"
      | Json _ => false
      | Text _ =>
          negb (is_string method "xpath")
          && String.eqb (content_type r) "text/html"
      end
  | _ => true
  end.

(** The fields of a request, as the handler destructures them. *)
Definition url_of (req : request) : value := lookup "url" (body req).
Definition selector_of (req : request) : value := lookup "selector" (body req).
Definition method_of (req : request) : value :=
  or_default (lookup "method" (body req)) (JStr "css").
Definition debug_of (req : request) : value :=
  or_default (lookup "debug" (body req)) (JBool false).

(** A field that is absent ([undefined]), [null] or the empty string. *)
Definition missing_or_empty (v : value) : Prop :=
  v = JUndefined \/ v = JNull \/ v = JStr EmptyString.

(** The four fields can be converted to strings: the request gets past
    the handler's first log line. *)
Definition loggable (req : request) : bool :=
  convertible (url_of req) && convertible (selector_of req)
  && convertible (method_of req) && convertible (debug_of req).

(** A request that reaches the [try] block: it gets past the log line and
    passes validation. *)
Definition valid (req : request) : Prop :=
  loggable req = true /\
  truthy (url_of req) = true /\ truthy (selector_of req) = true.

(** The request created its browser session: the profile directory was
    created and the browser launched. *)
Definition session_created (w : world) (req : request) : Prop :=
  valid req /\
  (exists suffix, mkdtemp w = Resolve suffix) /\
  (exists b, launched w = Resolve b).

(** Everything up to and including navigation went well, and the url is one
    on which [includes] can be called. *)
Definition navigated (w : world) (req : request) : Prop :=
  session_created w req /\
  (exists p, opened w = Resolve p) /\
  viewport w = Resolve tt /\
  user_agent w = Resolve tt /\
  navigation w = Puppeteer.Loaded /\
  url_includes (url_of req) "wsj.com/" <> None.

(** ... and so did the mouse move and the scroll before extraction. *)
Definition ready_to_extract (w : world) (req : request) : Prop :=
  navigated w req /\ mouse w = Resolve tt /\ scroll w = Resolve tt.

(** The same world with other browser targets. *)
Definition with_targets (w : world) (ts : list Target) : world :=
  {| NODE_ENV := NODE_ENV w; tmpdir := tmpdir w; mkdtemp := mkdtemp w;
     launched := launched w; opened := opened w; viewport := viewport w;
     user_agent := user_agent w; navigation := navigation w;
     targets := ts;
     mouse := mouse w; scroll := scroll w;
     document_evaluate := document_evaluate w;
     selector_wait := selector_wait w; outer_html := outer_html w;
     disposed := disposed w; page_closed := page_closed w;
     browser_closed := browser_closed w; dir_removed := dir_removed w |}.

(** A candidate confirms the wanted identity: its worker context attaches
    and its reply, arriving before the timer fires, names the
    tab-duplicator. *)
Definition confirms (t : Target) : bool :=
  match worker t with
  | Resolve _ =>
      is_tab_duplicator (catch_null (Puppeteer.race_timeout (identify t) 1000))
  | Reject _ => false
  end.

(** The calls one iteration of the identity loop makes on a candidate. *)
Definition probe (t : Target) : list event :=
  match worker t with
  | Resolve _ => [Worker (target_url t); SendIdentify (target_url t) 1000]
  | Reject _ => [Worker (target_url t)]
  end.

(** The candidates the loop gets to: all of them up to and including the
    first that confirms. *)
Fixpoint visited (l : list Target) : list Target :=
  match l with
  | [] => []
  | t :: rest => if confirms t then [t] else t :: visited rest
  end.

(* ===================================================================== *)
(** ** Invariants of programs, and the shape of a run *)

(** Every event a program emits satisfies [P]. *)
Definition emits {A} (P : event -> bool) (m : M A) : Prop :=
  forall v, forallb P (emitted (m v)) = true.

(** A program leaves the handler's variables as it found them. *)
Definition keeps {A} (m : M A) : Prop :=
  forall v, final (m v) = v.

(** Two runs that differ at most in the calls of the side effect. *)
Definition alike {A} (r r' : run A) : Prop :=
  outcome r = outcome r' /\ final r = final r' /\
  main_path (emitted r) = main_path (emitted r').

(** The variables at the end of the [try] block, once the session exists:
    [browser] and [userDataDir] are set, [page] is set if [newPage]
    resolved. *)
Definition session_vars (w : world) (suffix : string) (b : Browser) : vars :=
  {| browser := Some b;
     page := match opened w with Resolve p => Some p | Reject _ => None end;
     userDataDir := Some (tmp_prefix w ++ suffix) |}.

(** What the [finally] block attempts, by the three variables. *)
Definition cleanup_calls (v : vars) : list event :=
  (match page v with Some p => [PageClose p] | None => [] end)
  ++ (match browser v with Some b => [BrowserClose b] | None => [] end)
  ++ (match userDataDir v with
      | Some dir => if String.eqb dir EmptyString then [] else [RemoveDir dir]
      | None => []
      end).

(** The response to a request that fails validation. *)
Definition validation_response : response :=
  {| status := 400; content_type := "application/json";
     sent := Json (JObj [("error",
                          JStr "Missing required fields: url and selector")]) |}.

(** The response of the [catch] block to the error [err]. *)
Definition failure_response (w : world) (req : request) (err : error)
    : response :=
  {| status := statusCode err; content_type := "application/json";
     sent := Json (json (error_document w (debug_of req) err)) |}.

(** The calls of a request from launch to the settle delay, when all of
    them resolve; [v] holds the variables after [newPage]. *)
Definition lead_up (w : world) (req : request) (v : vars) : list event :=
  [MkdtempSync (tmp_prefix w);
   Launch (match userDataDir v with Some d => d | None => EmptyString end) 60000;
   Targets; NewPage; SetViewport 1280 720; SetUserAgent user_agent_string;
   Delay 3000; Goto (url_of req) 45000]
  ++ emitted (maybe_duplicate_tab w (url_of req) v)
  ++ [MouseMove 100 100; ScrollBy 0 200;
      Delay (if is_string (method_of req) "xpath" then 5000%N else 2000%N)].

(** The calls of the side effect in a world; they do not depend on the
    handler's variables. *)
Definition side_effect_calls (w : world) : list event :=
  emitted (duplicateTabViaExtension w null_vars).

(* ===================================================================== *)
(** ** The classifier's tests *)

Definition timeout_like (e : error) : bool :=
  String.eqb (name e) "TimeoutError"
  || includes (message e) "timeout" || includes (message e) "exceeded".

Definition selector_like (e : error) : bool :=
  includes (message e) "selector"
  && (includes (message e) "not found"
      || includes (message e) "failed to find element").

Definition navigation_like (e : error) : bool :=
  includes (message e) "Navigation failed" || includes (message e) "net::ERR_".

Definition xpath_like (e : error) : bool :=
  includes (message e) "XPath evaluation failed".

(* ===================================================================== *)
(** ** Document order *)

Fixpoint insert_by_position (node : Node) (sorted : list Node) : list Node :=
  match sorted with
  | [] => [node]
  | x :: rest =>
      if Nat.leb (position node) (position x) then node :: x :: rest
      else x :: insert_by_position node rest
  end.

(** The nodes of a list, listed in document order. *)
Fixpoint document_order (nodes : list Node) : list Node :=
  match nodes with
  | [] => []
  | node :: rest => insert_by_position node (document_order rest)
  end.

(** A list that is in document order already. *)
Fixpoint ascending (nodes : list Node) : bool :=
  match nodes with
  | [] => true
  | x :: rest =>
      match rest with
      | [] => true
      | y :: _ => Nat.leb (position x) (position y) && ascending rest
      end
  end.

(* ===================================================================== *)
(** ** Three statements that the handler does not satisfy as they stand *)

(** The payload of a node-set result lists the matched nodes in document
    order. *)
Definition payload_in_document_order (result : XPathResult) : Prop :=
  xpath_switch result =
  map (fun node => processNode (Some node)) (document_order (matched result)).

(** Every session gets all three cleanup calls. *)
Definition cleans_page_browser_dir (w : world) (req : request) : Prop :=
  exists p b dir,
    teardown (trace w req) = [PageClose p; BrowserClose b; RemoveDir dir].

(** The failure response carries a stack exactly when the request set
    [debug]. *)
Definition stack_iff_debug (w : world) (req : request) : Prop :=
  forall r, In r (responses (trace w req)) -> status r <> 200 ->
  exists doc, sent r = Json doc /\
              (has_field "stack" doc = true <-> truthy (debug_of req) = true).

(* ===================================================================== *)
(** ** Sample worlds and requests *)

Module Sample.

Definition h1 : Node :=
  {| nodeType := 1; outerHTML := "<h1>Example Domain</h1>"; nodeValue := None;
     position := 7 |}.

Definition text (at_ : nat) (s : string) : Node :=
  {| nodeType := 3; outerHTML := EmptyString; nodeValue := Some s;
     position := at_ |}.

Definition node_set (nodes : list Node) : XPathResult :=
  {| resultType := UNORDERED_NODE_ITERATOR_TYPE;
     numberValue := Number "NaN"; stringValue := EmptyString;
     booleanValue := false; matched := nodes; singleNodeValue := None |}.

(** A world in which every call resolves, except as the arguments say. *)
Definition world_of (env : option string) (newPage : settled Page)
    (nav : Puppeteer.navigation) (ts : list Target)
    (xpath : settled XPathResult) (css : Puppeteer.selector_wait) : world :=
  {| NODE_ENV := env; tmpdir := "/tmp"; mkdtemp := Resolve "Xk3p9Q";
     launched := Resolve {| browser_id := 1 |}; opened := newPage;
     viewport := Resolve tt; user_agent := Resolve tt; navigation := nav;
     targets := ts; mouse := Resolve tt; scroll := Resolve tt;
     document_evaluate := Resolve xpath; selector_wait := css;
     outer_html := Resolve tt; disposed := Resolve tt;
     page_closed := Resolve tt; browser_closed := Resolve tt;
     dir_removed := Resolve tt |}.

(** Two text nodes that an unordered iterator hands out last-first, as a
    reverse axis makes it do. *)
Definition last_first : XPathResult :=
  node_set [text 2 "second"; text 1 "first"].

Definition calm : world :=
  world_of None (Resolve {| page_id := 1 |}) Puppeteer.Loaded []
    (Resolve (node_set [])) (Puppeteer.Appears h1 []).

(** The browser dies right after launch: [newPage] rejects. *)
Definition no_page : world :=
  world_of None (Reject (Error "Protocol error (Target.createTarget): Target closed"))
    Puppeteer.Loaded [] (Resolve (node_set [])) (Puppeteer.Appears h1 []).

(** The selector never shows up. *)
Definition absent : world :=
  world_of None (Resolve {| page_id := 1 |}) Puppeteer.Loaded []
    (Resolve (node_set [])) Puppeteer.NeverAppears.

(** A development deployment in which name resolution fails. *)
Definition development : world :=
  world_of (Some "development") (Resolve {| page_id := 1 |})
    (Puppeteer.NetworkError "ERR_NAME_NOT_RESOLVED") []
    (Resolve (node_set [])) (Puppeteer.Appears h1 []).

Definition service_worker (url : string) (reply : Puppeteer.promise value)
    : Target :=
  {| target_type := "service_worker"; target_url := url;
     worker := Resolve tt; identify := reply; worker_again := Resolve tt;
     duplicateTab :=
       Resolve {| responded := JObj [("success", JBool true);
                                     ("newTabId", JNum (Number "7"))];
                  lastError := None |};
     gives_up := Error "Runtime.callFunctionOn timed out." |}.

Definition identity (id : string) : Puppeteer.promise value :=
  Puppeteer.SettlesAfter 20 (Resolve (JObj [("identity", JStr id)])).

Definition other_extension : Target :=
  service_worker "chrome-extension://aaaa/background.js" (identity "a").
Definition silent_extension : Target :=
  service_worker "chrome-extension://bbbb/sw.js" Puppeteer.Pending.
Definition tab_duplicator : Target :=
  service_worker "chrome-extension://cccc/background.js"
    (identity "tab-duplicator").
Definition web_page : Target :=
  {| target_type := "page"; target_url := "https://www.wsj.com/";
     worker := Reject (Error "not a worker"); identify := Puppeteer.Pending;
     worker_again := Reject (Error "not a worker");
     duplicateTab := Reject (Error "not a worker");
     gives_up := Error "Runtime.callFunctionOn timed out." |}.

(** wsj.com with no extension loaded. *)
Definition wsj_bare : world := calm.
(** wsj.com with two extensions, the second being the tab-duplicator. *)
Definition wsj_two : world :=
  with_targets calm [web_page; other_extension; tab_duplicator].

Definition css_request : request :=
  {| body := [("url", JStr "https://example.com"); ("selector", JStr "h1");
              ("method", JStr "css")] |}.
Definition xpath_request : request :=
  {| body := [("url", JStr "https://example.com");
              ("selector", JStr "//p/text()"); ("method", JStr "xpath")] |}.
Definition wsj_request : request :=
  {| body := [("url", JStr "https://www.wsj.com/articles/a");
              ("selector", JStr "h1")] |}.
Definition no_selector : request :=
  {| body := [("url", JStr "https://example.com")] |}.
(** No url, and a selector that is an object with a property [toString]:
    the body [{"selector": {"toString": 1}}]. *)
Definition unprintable : request :=
  {| body := [("selector", JObj [("toString", JNum (Number "1"))])] |}.

Definition tabs : Background.chrome :=
  {| Background.active_tabs := [[("id", JNum (Number "3"))]];
     Background.duplicate := fun _ => JObj [("id", JNum (Number "4"))] |}.

End Sample.

(* ===================================================================== *)
(** ** More observations on a run and its trace *)

(** A program that sends no response and does not [return]. *)
Definition silent {A} (m : M A) : Prop :=
  forall v, responses (emitted (m v)) = [] /\ outcome (m v) <> Return.

(** A run that has answered: unless it threw, its last event is its one
    response. *)
Definition answered {A} (r : run A) : Prop :=
  match outcome r with
  | Throw _ => responses (emitted r) = []
  | _ => exists calls resp,
           emitted r = (calls ++ [Respond resp])%list /\ responses calls = []
  end.

Definition is_dispose (e : event) : bool :=
  match e with
  | Dispose _ => true
  | _ => false
  end.

Definition is_delay (e : event) : bool :=
  match e with
  | Delay _ => true
  | _ => false
  end.

(** The fixed delays of a trace, in milliseconds. *)
Fixpoint total_delay (l : list event) : N :=
  match l with
  | [] => 0%N
  | Delay ms :: rest => (ms + total_delay rest)%N
  | _ :: rest => total_delay rest
  end.

(** The url a call of the helper is made on. *)
Definition helper_call_url (e : event) : option string :=
  match e with
  | Worker u | SendIdentify u _ | SendDuplicateTab u => Some u
  | _ => None
  end.

Definition is_command (e : event) : bool :=
  match e with
  | SendDuplicateTab _ => true
  | _ => false
  end.

(* ===================================================================== *)
(** ** The extension's popup: [popup.js] *)

Module Popup.

(** The message the button sends. *)
Definition message : value := JObj [("action", JStr "duplicateTab")].

(** The callback of that message: what it logs, or the TypeError of reading
    [success] of a response that is [undefined] or [null]. *)
Definition callback (response : value) : settled (list value) :=
  match get response "success", get response "newTabId" with
  | Some success, Some newTabId =>
      if truthy success then Resolve [JStr "Duplicated tab ID:"; newTabId]
      else Resolve []
  | _, _ => Reject (reading_of response "success")
  end.

End Popup.

(* ===================================================================== *)
(** ** More sample worlds *)

Module Scenario.

(** The browser does not start. *)
Definition no_browser : world :=
  {| NODE_ENV := None; tmpdir := "/tmp"; mkdtemp := Resolve "Xk3p9Q";
     launched := Reject (Error "Failed to launch the browser process!");
     opened := Resolve {| page_id := 1 |};
     viewport := Resolve tt; user_agent := Resolve tt;
     navigation := Puppeteer.Loaded;
     targets := []; mouse := Resolve tt; scroll := Resolve tt;
     document_evaluate := Resolve (Resolve (Sample.node_set []));
     selector_wait := Puppeteer.Appears Sample.h1 [];
     outer_html := Resolve tt; disposed := Resolve tt;
     page_closed := Resolve tt; browser_closed := Resolve tt;
     dir_removed := Resolve tt |}.

(** The element goes away between the wait and the read. *)
Definition detached : world :=
  {| NODE_ENV := None; tmpdir := "/tmp"; mkdtemp := Resolve "Xk3p9Q";
     launched := Resolve {| browser_id := 1 |};
     opened := Resolve {| page_id := 1 |};
     viewport := Resolve tt; user_agent := Resolve tt;
     navigation := Puppeteer.Loaded;
     targets := []; mouse := Resolve tt; scroll := Resolve tt;
     document_evaluate := Resolve (Resolve (Sample.node_set []));
     selector_wait := Puppeteer.Appears Sample.h1 [];
     outer_html := Reject (Error "Node is detached from document");
     disposed := Resolve tt;
     page_closed := Resolve tt; browser_closed := Resolve tt;
     dir_removed := Resolve tt |}.

(** The expression is not valid XPath. *)
Definition bad_expression : world :=
  {| NODE_ENV := None; tmpdir := "/tmp"; mkdtemp := Resolve "Xk3p9Q";
     launched := Resolve {| browser_id := 1 |};
     opened := Resolve {| page_id := 1 |};
     viewport := Resolve tt; user_agent := Resolve tt;
     navigation := Puppeteer.Loaded;
     targets := []; mouse := Resolve tt; scroll := Resolve tt;
     document_evaluate :=
       Resolve (Reject (MkError "SyntaxError"
                          "The string '//p[' is not a valid XPath expression."
                          "DOMException" "SyntaxError"));
     selector_wait := Puppeteer.Appears Sample.h1 [];
     outer_html := Resolve tt; disposed := Resolve tt;
     page_closed := Resolve tt; browser_closed := Resolve tt;
     dir_removed := Resolve tt |}.

(** A request whose method is spelled in capitals. *)
Definition capitals : request :=
  {| body := [("url", JStr "https://example.com"); ("selector", JStr "h1");
              ("method", JStr "XPATH")] |}.

(** A reply to the [duplicateTab] command. *)
Definition refused : reply :=
  {| responded := JObj [("success", JBool false);
                        ("error", JStr "No active tab")];
     lastError := None |}.

(** A refusal whose reason is an object with a property [toString]. *)
Definition refused_unprintable : reply :=
  {| responded := JObj [("success", JBool false);
                        ("error", JObj [("toString", JNum (Number "1"))])];
     lastError := None |}.

(** [count(//p)] on a page with three paragraphs. *)
Definition three : XPathResult :=
  {| resultType := NUMBER_TYPE; numberValue := Number "3";
     stringValue := EmptyString; booleanValue := false; matched := [];
     singleNodeValue := None |}.

Definition counting : world :=
  Sample.world_of None (Resolve {| page_id := 1 |}) Puppeteer.Loaded []
    (Resolve three) (Puppeteer.Appears Sample.h1 []).

Definition count_request : request :=
  {| body := [("url", JStr "https://example.com");
              ("selector", JStr "count(//p)"); ("method", JStr "xpath")] |}.

End Scenario.

(* ===================================================================== *)
(** ** The extension arguments of the launch

    [process.env.EXTENSION_PATHS.split(",").map((p) => p.trim())
       .filter((p) => p.length > 0)], joined again with commas into the two
    extension flags.  A string is the sequence of its code units, all below
    256; the white space of [trim] in that range is TAB, LF, VT, FF, CR,
    SPACE and NBSP. *)

Module Args.

Definition is_white_space (c : ascii) : bool :=
  let n := nat_of_ascii c in
  (Nat.leb 9 n && Nat.leb n 13) || Nat.eqb n 32 || Nat.eqb n 160.

(** [s.split(sep)] for a one-character separator: never empty. *)
Fixpoint split (sep : ascii) (s : string) : list string :=
  match s with
  | EmptyString => [EmptyString]
  | String c rest =>
      if Ascii.eqb c sep then EmptyString :: split sep rest
      else match split sep rest with
           | [] => [String c EmptyString]
           | piece :: pieces => String c piece :: pieces
           end
  end.

Fixpoint trimStart (s : string) : string :=
  match s with
  | EmptyString => EmptyString
  | String c rest => if is_white_space c then trimStart rest else s
  end.

Fixpoint trimEnd (s : string) : string :=
  match s with
  | EmptyString => EmptyString
  | String c rest =>
      match trimEnd rest with
      | EmptyString => if is_white_space c then EmptyString
                       else String c EmptyString
      | kept => String c kept
      end
  end.

(** [p.trim()] *)
Definition trim (s : string) : string := trimEnd (trimStart s).

Definition comma : ascii := Ascii.ascii_of_nat 44.

Definition extensionPaths (env : string) : list string :=
  filter (fun p => negb (Nat.eqb (String.length p) 0))
         (map trim (split comma env)).

(** [extensionArgs]: empty unless the variable is set to a non-empty
    string. *)
Definition extensionArgs (EXTENSION_PATHS : option string) : list string :=
  match EXTENSION_PATHS with
  | None => []
  | Some env =>
      if String.eqb env EmptyString then []
      else
        let disableExcept := join "," (extensionPaths env) in
        let loadExt := join "," (extensionPaths env) in
        ["--disable-extensions-except=" ++ disableExcept;
         "--load-extension=" ++ loadExt]
  end.

Definition launchArgs (EXTENSION_PATHS : option string) : list string :=
  (["--no-sandbox"; "--disable-setuid-sandbox"; "--disable-dev-shm-usage";
    "--disable-accelerated-2d-canvas"; "--disable-gpu"; "--use-gl=swiftshader";
    "--window-size=1280,720"; "--font-render-hinting=none";
    "--enable-extensions"; "--enable-extension-assets";
    "--disable-background-networking"; "--disable-default-apps";
    "--disable-sync"; "--disable-translate"; "--disable-notifications";
    "--no-first-run"; "--no-default-browser-check"; "--disable-web-security"]
   ++ extensionArgs EXTENSION_PATHS)%list.

(** Does the character occur in the string? *)
Fixpoint has_char (c : ascii) (s : string) : bool :=
  match s with
  | EmptyString => false
  | String x rest => Ascii.eqb x c || has_char c rest
  end.

Definition starts_clean (s : string) : bool :=
  match s with
  | EmptyString => true
  | String c _ => negb (is_white_space c)
  end.

Fixpoint ends_clean (s : string) : bool :=
  match s with
  | EmptyString => true
  | String c rest =>
      match rest with
      | EmptyString => negb (is_white_space c)
      | _ => ends_clean rest
      end
  end.

(** A path as the flags carry it: not empty, no comma, no white space at
    either end. *)
Definition clean (p : string) : bool :=
  negb (Nat.eqb (String.length p) 0) && negb (has_char comma p)
  && starts_clean p && ends_clean p.

(** Every character of the string satisfies the test. *)
Fixpoint only (test : ascii -> bool) (s : string) : bool :=
  match s with
  | EmptyString => true
  | String c rest => test c && only test rest
  end.

(** Commas and white space, nothing else. *)
Definition blank (env : string) : bool :=
  only (fun c => Ascii.eqb c comma || is_white_space c) env.

End Args.

(* ===================================================================== *)
(** ** The earlier [/scrape] handler

    The server before the extension side effect: the same validation,
    [catch] and [finally], a plain launch, no pause for interaction, and one
    [res.json(extractedData)] for both extraction methods. *)

Module Legacy.

Definition user_agent_string : string :=
  "Mozilla/5.0 (Windows NT 10.0; Win64; x64) AppleWebKit/537.36 (KHTML, like Gecko) Chrome/90.0.4430.212 Safari/537.36".

(** The variable goes into the two flags as it is. *)
Definition extensionArgs (EXTENSION_PATHS : option string) : list string :=
  match EXTENSION_PATHS with
  | None => []
  | Some env =>
      if String.eqb env EmptyString then []
      else ["--disable-extensions-except=" ++ env;
            "--load-extension=" ++ env]
  end.

Definition launch_browser (w : world) : M unit :=
  suffix <- call (MkdtempSync (tmp_prefix w)) (mkdtemp w) ;;
  set_userDataDir (tmp_prefix w ++ suffix) ;;
  b <- call (Launch (tmp_prefix w ++ suffix) 60000) (launched w) ;;
  set_browser b.

Definition navigate (w : world) (url : value) : M unit :=
  p <- call NewPage (opened w) ;;
  set_page p ;;
  call (SetViewport 1280 720) (viewport w) ;;
  call (SetUserAgent user_agent_string) (user_agent w) ;;
  emit (Delay 3000) ;;
  call (Goto url 45000) (Puppeteer.goto (navigation w) url 45000).

(** The [switch (result.resultType)] of the function evaluated in the page:
    a scalar result is returned as it is, a node set as an array. *)
Definition xpath_switch (result : XPathResult) : value :=
  let t := resultType result in
  if Nat.eqb t NUMBER_TYPE then JNum (numberValue result)
  else if Nat.eqb t STRING_TYPE then JStr (stringValue result)
  else if Nat.eqb t BOOLEAN_TYPE then JBool (booleanValue result)
  else if Nat.eqb t UNORDERED_NODE_ITERATOR_TYPE
          || Nat.eqb t ORDERED_NODE_ITERATOR_TYPE
  then JArr (iterate (matched result) [])
  else if Nat.eqb t UNORDERED_NODE_SNAPSHOT_TYPE
          || Nat.eqb t ORDERED_NODE_SNAPSHOT_TYPE
  then JArr (snapshot_loop result (snapshotLength result) 0 [])
  else if Nat.eqb t ANY_UNORDERED_NODE_TYPE
          || Nat.eqb t FIRST_ORDERED_NODE_TYPE
  then processNode (singleNodeValue result)
  else JStr ("Unknown XPathResult type: " ++ of_nat t).

Definition xpath_in_page (doc_evaluate : settled XPathResult)
    : settled value :=
  match doc_evaluate with
  | Resolve result => Resolve (xpath_switch result)
  | Reject error => Reject (xpath_failure error)
  end.

Definition extract_xpath (w : world) (selector : value) : M value :=
  call (EvaluateXPath selector)
       (Puppeteer.evaluate
          match document_evaluate w with
          | Resolve in_page => Resolve (xpath_in_page in_page)
          | Reject e => Reject e
          end).

Definition extract_css (w : world) (selector : value) : M value :=
  elementHandle <-
    call (WaitForSelector selector 15000)
         (Puppeteer.waitForSelector (selector_wait w) selector 15000) ;;
  match elementHandle with
  | None => throw (Error (null_handle_message selector))
  | Some handle =>
      call (ReadOuterHTML handle) (outer_html w) ;;
      let extractedData := JStr (outerHTML (element handle)) in
      call (Dispose handle) (disposed w) ;;
      ret extractedData
  end.

Definition extract (w : world) (selector method : value) : M value :=
  if is_string method "xpath" then extract_xpath w selector
  else extract_css w selector.

Definition scrape_try (w : world) (url selector method : value) : M unit :=
  launch_browser w ;;
  navigate w url ;;
  extractedData <- extract w selector method ;;
  res_json extractedData.

Definition scrape (w : world) (req : request) : M unit :=
  let url := lookup "url" (body req) in
  let selector := lookup "selector" (body req) in
  let method := or_default (lookup "method" (body req)) (JStr "css") in
  let debug := or_default (lookup "debug" (body req)) (JBool false) in
  interpolate [url; selector; method; debug] ;;
  if negb (truthy url) || negb (truthy selector) then
    res_status_json 400
      (JObj [("error", JStr "Missing required fields: url and selector")]) ;;
    return_
  else
    try_catch_finally
      (scrape_try w url selector method)
      (scrape_catch w debug)
      (scrape_finally w).

Definition handle (w : world) (req : request) : run unit :=
  scrape w req null_vars.

Definition trace (w : world) (req : request) : list event :=
  emitted (handle w req).

(** Everything up to and including navigation went well. *)
Definition loaded (w : world) (req : request) : Prop :=
  session_created w req /\
  (exists p, opened w = Resolve p) /\
  viewport w = Resolve tt /\
  user_agent w = Resolve tt /\
  navigation w = Puppeteer.Loaded.

(** The calls up to extraction, when all of them resolve. *)
Definition lead_up (w : world) (req : request) (v : vars) : list event :=
  [MkdtempSync (tmp_prefix w);
   Launch (match userDataDir v with Some d => d | None => EmptyString end) 60000;
   NewPage; SetViewport 1280 720; SetUserAgent user_agent_string;
   Delay 3000; Goto (url_of req) 45000].

End Legacy.

(** The calls on the page that imitate a reader. *)
Definition is_interaction (e : event) : bool :=
  match e with
  | MouseMove _ _ | ScrollBy _ _ => true
  | _ => false
  end.

(** An [extractedData] of the earlier handler, as the array the current
    handler sends in its place. *)
Definition as_array (extractedData : value) : list value :=
  match extractedData with
  | JArr items => items
  | scalar => [scalar]
  end.

(** The responses that report a failure. *)
Definition failures (l : list response) : list response :=
  filter (fun r => negb (Nat.eqb (status r) 200)) l.

(** What the earlier [try] block may emit: no cleanup call, nothing of the
    extension side effect, no interaction with the page, and as a response
    only a 200. *)
Definition legacy_try_event (e : event) : bool :=
  match e with
  | Respond r => Nat.eqb (status r) 200
  | _ => negb (is_teardown e || is_side_effect e || is_interaction e)
  end.


(* ===================================================================== *)
(** ** The first two servers

    Before the handler with the debug flag there were two simpler ones: a
    server that keeps one browser for all requests and answers with
    [page.$eval], and a server that launches a browser per request, has no
    validation and answers every failure with a 500.  They make calls the
    later handlers do not make, so they have a trace type of their own; the
    handler monad is the same, over that type. *)

Module Proc.

Record run (E A : Type) : Type := Run {
  outcome : completion A;
  final : vars;
  emitted : list E
}.
Arguments Run {E A} outcome final emitted.
Arguments outcome {E A} r.
Arguments final {E A} r.
Arguments emitted {E A} r.

Definition M (E A : Type) : Type := vars -> run E A.

Definition ret {E A} (a : A) : M E A := fun v => Run (Normal a) v [].

Definition bind {E A B} (m : M E A) (k : A -> M E B) : M E B := fun v =>
  match m v with
  | Run (Normal a) v' l =>
      match k a v' with
      | Run o v'' l' => Run o v'' (l ++ l')%list
      end
  | Run Return v' l => Run Return v' l
  | Run (Throw e) v' l => Run (Throw e) v' l
  end.

Definition throw {E A} (e : error) : M E A := fun v => Run (Throw e) v [].
Definition return_ {E A} : M E A := fun v => Run Return v [].
Definition emit {E} (e : E) : M E unit := fun v => Run (Normal tt) v [e].

Definition call {E A} (e : E) (s : settled A) : M E A := fun v =>
  match s with
  | Resolve a => Run (Normal a) v [e]
  | Reject err => Run (Throw err) v [e]
  end.

Definition try_catch {E A} (body : M E A) (handler : error -> M E A)
    : M E A := fun v =>
  match body v with
  | Run (Throw e) v' l =>
      match handler e v' with
      | Run o v'' l' => Run o v'' (l ++ l')%list
      end
  | r => r
  end.

Definition try_catch_finally {E A} (body : M E A) (handler : error -> M E A)
    (finalizer : M E unit) : M E A := fun v =>
  match try_catch body handler v with
  | Run o v' l =>
      match finalizer v' with
      | Run (Normal _) v'' l' => Run o v'' (l ++ l')%list
      | Run Return v'' l' => Run Return v'' (l ++ l')%list
      | Run (Throw e) v'' l' => Run (Throw e) v'' (l ++ l')%list
      end
  end.

Definition set_browser {E} (b : Browser) : M E unit := fun v =>
  Run (Normal tt) {| browser := Some b; page := page v;
                     userDataDir := userDataDir v |} [].
Definition set_page {E} (p : Page) : M E unit := fun v =>
  Run (Normal tt) {| browser := browser v; page := Some p;
                     userDataDir := userDataDir v |} [].
Definition set_userDataDir {E} (d : string) : M E unit := fun v =>
  Run (Normal tt) {| browser := browser v; page := page v;
                     userDataDir := Some d |} [].
Definition read {E A} (f : vars -> A) : M E A := fun v =>
  Run (Normal (f v)) v [].

(** A template literal with these substitutions, evaluated for a log
    line. *)
Fixpoint interpolate {E} (substitutions : list value) : M E unit :=
  match substitutions with
  | [] => ret tt
  | v :: rest =>
      match ToString v with
      | Resolve _ => interpolate rest
      | Reject e => throw e
      end
  end.

End Proc.

Declare Scope proc_scope.
Delimit Scope proc_scope with proc.
Notation "x <- m ;; k" := (Proc.bind m (fun x => k))
  (at level 100, m at next level, right associativity) : proc_scope.
Notation "m ;; k" := (Proc.bind m (fun _ => k))
  (at level 100, right associativity) : proc_scope.

Module Early.

Inductive event : Type :=
| MkdtempSync (prefix : string)
| Launch (dir : string) (timeout : N)
| NewPage
| SetViewport (width height : nat)
| Delay (ms : N)
| Goto (url : value) (timeout : N)
| WaitForXPath (expression : value) (timeout : N)
| QueryXPath (expression : value)          (* page.$x *)
| WaitForSelector (selector : value) (timeout : N)
| ReadOuterHTML (handle : ElementHandle)   (* element.evaluate *)
| EvalOuterHTML (selector : value)         (* page.$eval *)
| PageClose (p : Page)
| BrowserClose (b : Browser)
| RmSync (dir : string)
| Respond (r : response).

(** How the calls settle: those the later handlers make too, and the rest. *)
Record oracle := {
  common : world;
  xpath_wait : settled unit;                  (* page.waitForXPath *)
  xpath_query : settled (list ElementHandle); (* page.$x *)
  eval_outer : settled Node;    (* the element page.$eval finds *)
  shared_browser : option Browser
    (* the module's [browser] variable: unset until initBrowser is done *)
}.

Definition M := Proc.M event.

Definition res_status_json (code : nat) (v : value) : M unit :=
  Proc.emit (Respond {| status := code; content_type := "application/json";
                        sent := Json (json v) |}).

(** [res.status(code).send(s)] and [res.type("html").send(s)]: a string is
    sent as text/html. *)
Definition res_status_send (code : nat) (s : string) : M unit :=
  Proc.emit (Respond {| status := code; content_type := "text/html";
                        sent := Text s |}).

Fixpoint responses (l : list event) : list response :=
  match l with
  | [] => []
  | Respond r :: rest => r :: responses rest
  | _ :: rest => responses rest
  end.

Definition is_teardown (e : event) : bool :=
  match e with
  | PageClose _ | BrowserClose _ | RmSync _ => true
  | _ => false
  end.

Definition teardown (l : list event) : list event := filter is_teardown l.

(** The calls that start or end a browser or its profile directory. *)
Definition is_browser_lifetime (e : event) : bool :=
  match e with
  | MkdtempSync _ | Launch _ _ | BrowserClose _ | RmSync _ => true
  | _ => false
  end.

(** What the [finally] block of the per-request server attempts. *)
Definition cleanup_calls (v : vars) : list event :=
  (match page v with Some p => [PageClose p] | None => [] end)
  ++ (match browser v with Some b => [BrowserClose b] | None => [] end)
  ++ (match userDataDir v with
      | Some dir => if String.eqb dir EmptyString then [] else [RmSync dir]
      | None => []
      end).

End Early.

(** *** The server with a browser per request and no validation

    The log lines of this server that show [url] and [selector] are inside
    its [try] block and are left out: a request with a field that cannot
    be converted to a string fails there and is answered by the [catch]
    block like any other failure.  The runs below are those of requests
    whose [url] and [selector] can be logged. *)

Module Plain.
Import Early.
Local Open Scope proc_scope.

Definition find_element (x : oracle) (selector method : value)
    : M ElementHandle :=
  if is_string method "xpath" then
    Proc.call (WaitForXPath selector 15000) (xpath_wait x) ;;
    found <- Proc.call (QueryXPath selector) (xpath_query x) ;;
    match found with
    | element :: _ => Proc.ret element
    | [] => Proc.throw (Error "XPath selector not found")
    end
  else
    element <-
      Proc.call (WaitForSelector selector 15000)
        (Puppeteer.waitForSelector (selector_wait (common x)) selector 15000) ;;
    match element with
    | Some element => Proc.ret element
    | None => Proc.throw (Error "CSS selector not found")
    end.

Definition scrape_try (x : oracle) (url selector method : value) : M unit :=
  let w := common x in
  suffix <- Proc.call (MkdtempSync (tmp_prefix w)) (mkdtemp w) ;;
  Proc.set_userDataDir (tmp_prefix w ++ suffix) ;;
  b <- Proc.call (Launch (tmp_prefix w ++ suffix) 60000) (launched w) ;;
  Proc.set_browser b ;;
  p <- Proc.call NewPage (opened w) ;;
  Proc.set_page p ;;
  Proc.call (SetViewport 1280 720) (viewport w) ;;
  Proc.emit (Delay 3000) ;;
  Proc.call (Goto url 45000) (Puppeteer.goto (navigation w) url 45000) ;;
  el <- find_element x selector method ;;
  Proc.call (ReadOuterHTML el) (outer_html w) ;;
  let html := outerHTML (element el) in
  res_status_send 200 html.

(** The [catch] block: always a 500, the stack in development only. *)
Definition error_document (x : oracle) (error : error) : value :=
  JObj [("error", JStr "Scraping failed");
        ("details", JStr (message error));
        ("type", JStr (constructor_name error));
        ("stack", match NODE_ENV (common x) with
                  | Some env => if String.eqb env "development"
                                then JStr (stack error) else JUndefined
                  | None => JUndefined
                  end)].

Definition scrape_catch (x : oracle) (error : error) : M unit :=
  res_status_json 500 (error_document x error).

(** The [finally] block; [.catch] on the promise of a close swallows its
    rejection. *)
Definition scrape_finally (x : oracle) : M unit :=
  let w := common x in
  p <- Proc.read page ;;
  match p with
  | Some p => Proc.try_catch (Proc.call (PageClose p) (page_closed w))
                             (fun e => Proc.ret tt)
  | None => Proc.ret tt
  end ;;
  b <- Proc.read browser ;;
  match b with
  | Some b => Proc.try_catch (Proc.call (BrowserClose b) (browser_closed w))
                             (fun e => Proc.ret tt)
  | None => Proc.ret tt
  end ;;
  d <- Proc.read userDataDir ;;
  match d with
  | Some dir =>
      if negb (String.eqb dir EmptyString)
      then Proc.try_catch (Proc.call (RmSync dir) (dir_removed w))
                          (fun err => Proc.ret tt)
      else Proc.ret tt
  | None => Proc.ret tt
  end.

Definition scrape (x : oracle) (req : request) : M unit :=
  let url := lookup "url" (body req) in
  let selector := lookup "selector" (body req) in
  let method := or_default (lookup "method" (body req)) (JStr "css") in
  Proc.try_catch_finally
    (scrape_try x url selector method)
    (scrape_catch x)
    (scrape_finally x).

Definition handle (x : oracle) (req : request) : Proc.run event unit :=
  scrape x req null_vars.

Definition trace (x : oracle) (req : request) : list event :=
  Proc.emitted (handle x req).

Definition failure_response (x : oracle) (err : error) : response :=
  {| status := 500; content_type := "application/json";
     sent := Json (json (error_document x err)) |}.

(** Everything up to and including navigation went well. *)
Definition loaded (x : oracle) : Prop :=
  let w := common x in
  (exists suffix, mkdtemp w = Resolve suffix) /\
  (exists b, launched w = Resolve b) /\
  (exists p, opened w = Resolve p) /\
  viewport w = Resolve tt /\
  navigation w = Puppeteer.Loaded.

End Plain.

(** *** The server with one browser for all requests *)

Module Shared.
Import Early.
Local Open Scope proc_scope.

(** [err.toString()], by [Error.prototype.toString]. *)
Definition error_to_string (err : error) : string :=
  if String.eqb (name err) EmptyString then message err
  else if String.eqb (message err) EmptyString then name err
  else name err ++ ": " ++ message err.

(** [browser.newPage()] on the module's variable. *)
Definition newPage (x : oracle) : M Page :=
  match shared_browser x with
  | Some _ => Proc.call NewPage (opened (common x))
  | None =>
      Proc.throw
        (TypeError "Cannot read properties of undefined (reading 'newPage')")
  end.

(** [page.goto] is given no timeout here: puppeteer's default of 30000 ms
    is in force. *)
Definition scrape_try (x : oracle) (url selector : value) : M unit :=
  let w := common x in
  p <- newPage x ;;
  Proc.set_page p ;;
  Proc.call (Goto url 30000) (Puppeteer.goto (navigation w) url 30000) ;;
  Proc.call (WaitForSelector selector 10000)
    (Puppeteer.waitForSelector (selector_wait w) selector 10000) ;;
  el <- Proc.call (EvalOuterHTML selector) (eval_outer x) ;;
  let html := outerHTML el in
  res_status_send 200 html.

Definition scrape_catch (err : error) : M unit :=
  res_status_send 500 (error_to_string err).

Definition scrape_finally (x : oracle) : M unit :=
  Proc.try_catch
    (p <- Proc.read page ;;
     match p with
     | Some p => Proc.call (PageClose p) (page_closed (common x))
     | None => Proc.ret tt
     end)
    (fun e => Proc.ret tt).

(** The two log lines before the validation convert [url] and [selector]
    to strings. *)
Definition loggable (req : request) : bool :=
  convertible (lookup "url" (body req))
  && convertible (lookup "selector" (body req)).

Definition scrape (x : oracle) (req : request) : M unit :=
  let url := lookup "url" (body req) in
  let selector := lookup "selector" (body req) in
  Proc.interpolate [url] ;;
  Proc.interpolate [selector] ;;
  if negb (truthy url) || negb (truthy selector) then
    res_status_send 400 "Missing url or selector" ;;
    Proc.return_
  else
    Proc.try_catch_finally
      (scrape_try x url selector)
      scrape_catch
      (scrape_finally x).

Definition handle (x : oracle) (req : request) : Proc.run event unit :=
  scrape x req null_vars.

Definition trace (x : oracle) (req : request) : list event :=
  Proc.emitted (handle x req).

End Shared.

(** Sample oracles for the first two servers. *)
Module Scene.

Definition of_world (w : world) : Early.oracle :=
  {| Early.common := w;
     Early.xpath_wait := Resolve tt;
     Early.xpath_query := Resolve [{| element := Sample.h1 |}];
     Early.eval_outer := Resolve Sample.h1;
     Early.shared_browser := Some {| browser_id := 1 |} |}.

Definition calm : Early.oracle := of_world Sample.calm.


(** A request that arrives before the browser is up. *)
Definition starting : Early.oracle :=
  {| Early.common := Sample.calm;
     Early.xpath_wait := Resolve tt;
     Early.xpath_query := Resolve [];
     Early.eval_outer := Resolve Sample.h1;
     Early.shared_browser := None |}.

End Scene.

(* ===================================================================== *)
(** * Properties *)

(** ** The monad: how a composed run is made of its parts *)

Lemma bind_run {A B} (m : M A) (k : A -> M B) (v : vars) :
  bind m k v =
  match outcome (m v) with
  | Normal a =>
      Run (outcome (k a (final (m v)))) (final (k a (final (m v))))
          (emitted (m v) ++ emitted (k a (final (m v))))%list
  | Return => Run Return (final (m v)) (emitted (m v))
  | Throw e => Run (Throw e) (final (m v)) (emitted (m v))
  end.
Proof.
  unfold bind. destruct (m v) as [[a | | e] v' l]; cbn; trivial.
  now destruct (k a v').
Qed.

Lemma try_catch_run {A} (body : M A) (handler : error -> M A) (v : vars) :
  try_catch body handler v =
  match outcome (body v) with
  | Throw e =>
      Run (outcome (handler e (final (body v))))
          (final (handler e (final (body v))))
          (emitted (body v) ++ emitted (handler e (final (body v))))%list
  | _ => body v
  end.
Proof.
  unfold try_catch. destruct (body v) as [[a | | e] v' l]; cbn; trivial.
  now destruct (handler e v').
Qed.

Lemma try_catch_finally_run {A} (body : M A) (handler : error -> M A)
    (finalizer : M unit) (v : vars) :
  let r := try_catch body handler v in
  let f := finalizer (final r) in
  try_catch_finally body handler finalizer v =
  Run match outcome f with
      | Normal _ => outcome r
      | Return => Return
      | Throw e => Throw e
      end
      (final f) (emitted r ++ emitted f)%list.
Proof.
  cbn. unfold try_catch_finally.
  destruct (try_catch body handler v) as [o v' l]; cbn.
  now destruct (finalizer v') as [[[] | | e] v'' l'].
Qed.

(** ** What programs emit, and that they leave the variables alone *)

Section Emits.
Context {A B : Type} (P : event -> bool).

Lemma emits_ret (a : A) : emits P (ret a).
Proof. now intros v. Qed.

Lemma emits_throw (e : error) : emits P (@throw A e).
Proof. now intros v. Qed.

Lemma emits_return : emits P (@return_ A).
Proof. now intros v. Qed.

Lemma emits_read (f : vars -> A) : emits P (read f).
Proof. now intros v. Qed.

Lemma emits_emit (e : event) : P e = true -> emits P (emit e).
Proof. intros H v. cbn. now rewrite H. Qed.

Lemma emits_call (e : event) (s : settled A) : P e = true -> emits P (call e s).
Proof. intros H v. destruct s; cbn; now rewrite H. Qed.

Lemma emits_bind (m : M A) (k : A -> M B) :
  emits P m -> (forall a, emits P (k a)) -> emits P (bind m k).
Proof.
  intros Hm Hk v. rewrite bind_run. specialize (Hm v).
  destruct (outcome (m v)); cbn; trivial.
  rewrite forallb_app, Hm. apply Hk.
Qed.

Lemma emits_try_catch (body : M A) (handler : error -> M A) :
  emits P body -> (forall e, emits P (handler e)) ->
  emits P (try_catch body handler).
Proof.
  intros Hb Hh v. rewrite try_catch_run. specialize (Hb v).
  destruct (outcome (body v)); cbn; trivial.
  rewrite forallb_app, Hb. apply Hh.
Qed.
End Emits.

Lemma emits_set_userDataDir P d : emits P (set_userDataDir d).
Proof. now intros v. Qed.
Lemma emits_set_browser P b : emits P (set_browser b).
Proof. now intros v. Qed.
Lemma emits_set_page P p : emits P (set_page p).
Proof. now intros v. Qed.

Section Keeps.
Context {A B : Type}.

Lemma keeps_ret (a : A) : keeps (ret a).
Proof. now intros v. Qed.

Lemma keeps_throw (e : error) : keeps (@throw A e).
Proof. now intros v. Qed.

Lemma keeps_return : keeps (@return_ A).
Proof. now intros v. Qed.

Lemma keeps_read (f : vars -> A) : keeps (read f).
Proof. now intros v. Qed.

Lemma keeps_call (e : event) (s : settled A) : keeps (call e s).
Proof. intros v. now destruct s. Qed.

Lemma keeps_bind (m : M A) (k : A -> M B) :
  keeps m -> (forall a, keeps (k a)) -> keeps (bind m k).
Proof.
  intros Hm Hk v. rewrite bind_run. specialize (Hm v).
  destruct (outcome (m v)); cbn; trivial.
  now rewrite Hk.
Qed.

Lemma keeps_try_catch (body : M A) (handler : error -> M A) :
  keeps body -> (forall e, keeps (handler e)) -> keeps (try_catch body handler).
Proof.
  intros Hb Hh v. rewrite try_catch_run. specialize (Hb v).
  destruct (outcome (body v)); cbn; trivial.
  now rewrite Hh.
Qed.
End Keeps.

Lemma keeps_emit (e : event) : keeps (emit e).
Proof. now intros v. Qed.

(** Solves [emits P m] and [keeps m] for a program [m] built from the
    primitives, once its case distinctions are made. *)
Ltac step_through :=
  repeat first
    [ progress intros
    | apply emits_bind | apply emits_try_catch | apply emits_call
    | apply emits_emit | apply emits_ret | apply emits_throw
    | apply emits_return | apply emits_read | apply emits_set_userDataDir
    | apply emits_set_browser | apply emits_set_page
    | apply keeps_bind | apply keeps_try_catch | apply keeps_call
    | apply keeps_emit | apply keeps_ret | apply keeps_throw
    | apply keeps_return | apply keeps_read
    | reflexivity ].

(* ===================================================================== *)
(** ** Strings *)

Lemma prefix_app (b c : string) : String.prefix b (b ++ c) = true.
Proof.
  induction b as [| ch b IH]; cbn.
  - now destruct c.
  - destruct (Ascii.ascii_dec ch ch) as [_ | n]; [exact IH | now destruct n].
Qed.

Lemma includes_unfold (s sub : string) :
  includes s sub =
  String.prefix sub s ||
  match s with
  | EmptyString => false
  | String _ rest => includes rest sub
  end.
Proof. now destruct s. Qed.

Lemma includes_app (a b c : string) : includes (a ++ b ++ c) b = true.
Proof.
  induction a as [| ch a IH].
  - cbn [append]. now rewrite includes_unfold, prefix_app.
  - cbn [append]. rewrite includes_unfold, IH. apply orb_true_r.
Qed.

Lemma includes_prefix (b c : string) : includes (b ++ c) b = true.
Proof. exact (includes_app EmptyString b c). Qed.




Lemma nonempty_append (a b : string) (ch : ascii) :
  String.eqb (a ++ String ch b) EmptyString = false.
Proof. now destruct a. Qed.

(* ===================================================================== *)
(** ** The identity loop *)

(** A template literal for a log line either goes through unnoticed or
    throws the TypeError of the first conversion that fails. *)
Lemma interpolate_run (l : list value) (v : vars) :
  interpolate l v =
  if forallb convertible l then Run (Normal tt) v []
  else Run (Throw (TypeError "Cannot convert object to primitive value")) v [].
Proof.
  induction l as [| x l IH]; [reflexivity |].
  cbn [interpolate forallb]. unfold ToString.
  destruct (convertible x); [exact IH | reflexivity].
Qed.

(** An identity that cannot be shown in the log line is not the wanted
    one either. *)
Lemma shown_identity_convertible (identity : value) :
  convertible (shown_identity identity) = false ->
  is_tab_duplicator identity = false.
Proof.
  unfold shown_identity, is_tab_duplicator.
  destruct (get identity "identity") as [id |]; [| discriminate].
  destruct (truthy id); [| discriminate].
  destruct id; try discriminate; intros _; apply andb_false_r.
Qed.

Lemma check_identity_run (t : Target) (v : vars) :
  check_identity t v = Run (Normal (confirms t)) v (probe t).
Proof.
  unfold check_identity, confirms, probe.
  rewrite try_catch_run, bind_run. unfold call at 1.
  destruct (worker t); [| reflexivity].
  cbn [outcome final emitted]. rewrite bind_run.
  cbn [emit outcome final emitted]. rewrite bind_run, interpolate_run.
  cbn [forallb]. rewrite andb_true_r.
  destruct (convertible (shown_identity _)) eqn:E; [reflexivity |].
  cbn. now rewrite (shown_identity_convertible _ E).
Qed.

Lemma identity_loop_run (l : list Target) (v : vars) :
  identity_loop l v =
  Run (Normal (find confirms l)) v (flat_map probe (visited l)).
Proof.
  induction l as [| t l IH]; [reflexivity |].
  cbn [identity_loop find visited]. rewrite bind_run, check_identity_run.
  cbn [outcome final emitted]. destruct (confirms t).
  - cbn. now rewrite app_nil_r.
  - rewrite IH. reflexivity.
Qed.


Lemma visited_all (l : list Target) :
  find confirms l = None -> visited l = l.
Proof.
  induction l as [| x l IH]; [reflexivity |].
  cbn [find visited]. destruct (confirms x); [discriminate |].
  intros H. now rewrite IH.
Qed.

(* ===================================================================== *)
(** ** The side effect is invisible to the rest of the request *)

Lemma emits_weaken {A} (P Q : event -> bool) (m : M A) :
  (forall e, P e = true -> Q e = true) -> emits P m -> emits Q m.
Proof.
  intros HPQ Hm v. specialize (Hm v).
  rewrite forallb_forall in *. auto.
Qed.

(** The helper, run: the identity loop, then either the not-found error or
    the command to the worker found, and the log line that shows the new
    tab's id. *)
Lemma duplicateTabViaExtension_run (w : world) (v : vars) :
  let serviceWorkers := filter is_extension_service_worker (targets w) in
  duplicateTabViaExtension w v =
  match find confirms serviceWorkers with
  | None =>
      Run (Throw (Error (not_found_message serviceWorkers))) v
          (Targets :: flat_map probe serviceWorkers)
  | Some found =>
      match worker_again found with
      | Reject e =>
          Run (Throw e) v
              (Targets :: flat_map probe (visited serviceWorkers)
               ++ [Worker (target_url found)])%list
      | Resolve _ =>
          Run match send_duplicateTab found with
              | Resolve result =>
                  match get result "newTabId" with
                  | Some newTabId =>
                      if convertible newTabId then Normal result
                      else Throw (TypeError
                                    "Cannot convert object to primitive value")
                  | None => Throw (reading_of result "newTabId")
                  end
              | Reject e => Throw e
              end v
              (Targets :: flat_map probe (visited serviceWorkers)
               ++ [Worker (target_url found);
                   SendDuplicateTab (target_url found)])%list
      end
  end.
Proof.
  cbn zeta. unfold duplicateTabViaExtension.
  rewrite try_catch_run, bind_run. cbn [emit outcome final emitted].
  rewrite bind_run, identity_loop_run. cbn [outcome final emitted].
  destruct (find confirms _) as [found |] eqn:F.
  - unfold bind, call, throw, ret.
    destruct (worker_again found) as [[] | e]; cbn;
      [| rewrite ?app_nil_r, <- ?app_assoc; reflexivity].
    destruct (send_duplicateTab found) as [result | e]; cbn;
      [| rewrite ?app_nil_r, <- ?app_assoc; reflexivity].
    destruct (get result "newTabId") as [newTabId |]; cbn;
      [| rewrite ?app_nil_r, <- ?app_assoc; reflexivity].
    unfold ToString. destruct (convertible newTabId); cbn;
      rewrite ?app_nil_r, <- ?app_assoc; reflexivity.
  - rewrite (visited_all _ F). cbn. now rewrite !app_nil_r.
Qed.

Lemma duplicateTabViaExtension_keeps (w : world) :
  keeps (duplicateTabViaExtension w).
Proof.
  intros v. rewrite duplicateTabViaExtension_run. cbn zeta.
  destruct (find confirms _) as [found |]; [destruct (worker_again found) |];
    reflexivity.
Qed.

Lemma flat_map_probe_side (l : list Target) :
  forallb is_side_effect (flat_map probe l) = true.
Proof.
  induction l as [| t ts IH]; [reflexivity |].
  cbn [flat_map]. rewrite forallb_app, IH, andb_true_r.
  unfold probe. now destruct (worker t).
Qed.

Lemma duplicateTabViaExtension_emits (w : world) :
  emits is_side_effect (duplicateTabViaExtension w).
Proof.
  intros v. rewrite duplicateTabViaExtension_run. cbn zeta.
  destruct (find confirms _) as [found |]; [destruct (worker_again found) |];
    cbn [emitted forallb is_side_effect andb];
    rewrite ?forallb_app, flat_map_probe_side; reflexivity.
Qed.

Lemma duplicateTabViaExtension_outcome (w : world) (v : vars) :
  outcome (duplicateTabViaExtension w v) <> Return.
Proof.
  rewrite duplicateTabViaExtension_run. cbn zeta.
  destruct (find confirms _) as [found |]; [destruct (worker_again found) |];
    cbn; try discriminate.
  destruct (send_duplicateTab found) as [result | e]; [| discriminate].
  destruct (get result "newTabId") as [newTabId |]; [| discriminate].
  destruct (convertible newTabId); discriminate.
Qed.

Lemma maybe_duplicate_tab_keeps (w : world) (url : value) :
  keeps (maybe_duplicate_tab w url).
Proof.
  unfold maybe_duplicate_tab. destruct (url_includes url "wsj.com/") as [[] |].
  - apply keeps_try_catch; [| step_through].
    apply keeps_bind; [apply duplicateTabViaExtension_keeps | step_through].
  - step_through.
  - step_through.
Qed.

Lemma maybe_duplicate_tab_emits (w : world) (url : value) :
  emits is_side_effect (maybe_duplicate_tab w url).
Proof.
  unfold maybe_duplicate_tab. destruct (url_includes url "wsj.com/") as [[] |].
  - apply emits_try_catch; [| step_through].
    apply emits_bind; [apply duplicateTabViaExtension_emits | step_through].
  - step_through.
  - step_through.
Qed.

(** Whatever the helper does, the [try]/[catch] around it completes
    normally; only a url without [includes] makes the statement throw. *)
Lemma maybe_duplicate_tab_outcome (w : world) (url : value) (v : vars) :
  outcome (maybe_duplicate_tab w url v) =
  match url_includes url "wsj.com/" with
  | None => Throw (TypeError "url.includes is not a function")
  | Some _ => Normal tt
  end.
Proof.
  unfold maybe_duplicate_tab. destruct (url_includes url "wsj.com/") as [[] |];
    trivial.
  rewrite try_catch_run, bind_run.
  pose proof (duplicateTabViaExtension_outcome w v) as NR.
  destruct (outcome (duplicateTabViaExtension w v)); [reflexivity | | reflexivity].
  now destruct NR.
Qed.

(* ===================================================================== *)
(** ** The blocks of the handler *)

Lemma side_effect_try_event (method : value) (e : event) :
  is_side_effect e = true -> try_event method e = true.
Proof. now destruct e. Qed.

Lemma extract_emits (w : world) (selector method : value) :
  emits (try_event method) (extract w selector method).
Proof.
  unfold extract, extract_xpath, extract_css, res_json, res_type_send,
    res_status_json.
  destruct (is_string method "xpath") eqn:E.
  - step_through; cbn; now rewrite E.
  - apply emits_bind; [apply emits_call; cbn; now rewrite E |].
    intros [handle |]; step_through; cbn; now rewrite E.
Qed.

Lemma scrape_try_emits (w : world) (url selector method : value) :
  emits (try_event method) (scrape_try w url selector method).
Proof.
  unfold scrape_try, launch_browser, navigate, settle.
  repeat (apply emits_bind; [| intros ?]).
  all: try (step_through; fail).
  - eapply emits_weaken; [| apply maybe_duplicate_tab_emits].
    apply side_effect_try_event.
  - apply extract_emits.
Qed.

Lemma extract_keeps (w : world) (selector method : value) :
  keeps (extract w selector method).
Proof.
  unfold extract, extract_xpath, extract_css, res_json, res_type_send,
    res_status_json.
  destruct (is_string method "xpath").
  - step_through.
  - apply keeps_bind; [step_through |]. intros [handle |]; step_through.
Qed.

Lemma settle_keeps (w : world) (method : value) : keeps (settle w method).
Proof. unfold settle. step_through. Qed.

Lemma scrape_catch_keeps (w : world) (debug : value) (e : error) :
  keeps (scrape_catch w debug e).
Proof. now intros v. Qed.

Lemma scrape_try_final (w : world) (url selector method : value)
    (suffix : string) (b : Browser) :
  mkdtemp w = Resolve suffix -> launched w = Resolve b ->
  final (scrape_try w url selector method null_vars) = session_vars w suffix b.
Proof.
  intros Hdir Hlaunch. unfold scrape_try, session_vars.
  rewrite bind_run.
  assert (L : launch_browser w null_vars =
              Run (Normal tt)
                  {| browser := Some b; page := None;
                     userDataDir := Some (tmp_prefix w ++ suffix) |}
                  [MkdtempSync (tmp_prefix w);
                   Launch (tmp_prefix w ++ suffix) 60000; Targets]).
  { unfold launch_browser, bind, call. now rewrite Hdir, Hlaunch. }
  rewrite L. cbn [outcome final emitted].
  rewrite bind_run.
  set (v0 := {| browser := Some b; page := None;
                userDataDir := Some (tmp_prefix w ++ suffix) |}).
  assert (N : final (navigate w url v0) =
              {| browser := Some b;
                 page := match opened w with
                         | Resolve p => Some p
                         | Reject _ => None
                         end;
                 userDataDir := Some (tmp_prefix w ++ suffix) |}).
  { unfold navigate, bind, call, emit, set_page, Puppeteer.goto.
    destruct (opened w), (viewport w), (user_agent w), (navigation w);
      reflexivity. }
  destruct (outcome (navigate w url v0)); cbn [final]; trivial.
  rewrite bind_run, maybe_duplicate_tab_keeps.
  destruct (outcome (maybe_duplicate_tab w url _)); cbn [final]; trivial.
  rewrite bind_run, settle_keeps.
  destruct (outcome (settle w method _)); cbn [final]; trivial.
  now rewrite extract_keeps.
Qed.

(** The handler after its first log line. *)
Lemma interpolate_bind {A} (l : list value) (k : M A) (v : vars) :
  (interpolate l ;; k) v =
  if forallb convertible l then k v
  else Run (Throw (TypeError "Cannot convert object to primitive value")) v [].
Proof.
  unfold bind. rewrite interpolate_run.
  destruct (forallb convertible l); [| reflexivity].
  now destruct (k v).
Qed.

Lemma loggable_fields (req : request) :
  forallb convertible
    [url_of req; selector_of req; method_of req; debug_of req]
  = loggable req.
Proof.
  unfold loggable. cbn. now rewrite andb_true_r, !andb_assoc.
Qed.

(** A request with a field that cannot be converted to a string ends at
    the log line: the handler throws, with nothing done and nothing
    sent. *)
Lemma handle_unloggable (w : world) (req : request) :
  loggable req = false ->
  handle w req =
  Run (Throw (TypeError "Cannot convert object to primitive value"))
      null_vars [].
Proof.
  intros H. unfold handle, scrape.
  fold (url_of req) (selector_of req) (method_of req) (debug_of req).
  now rewrite interpolate_bind, loggable_fields, H.
Qed.

(** For a request that passes validation the handler is its
    [try]/[catch]/[finally]. *)
Lemma handle_valid (w : world) (req : request) :
  valid req ->
  handle w req =
  try_catch_finally
    (scrape_try w (url_of req) (selector_of req) (method_of req))
    (scrape_catch w (debug_of req))
    (scrape_finally w) null_vars.
Proof.
  intros (Hl & Hu & Hs). unfold handle, scrape.
  fold (url_of req) (selector_of req) (method_of req) (debug_of req).
  now rewrite interpolate_bind, loggable_fields, Hl, Hu, Hs.
Qed.

(** The [finally] block never completes abruptly, and what it attempts is
    decided by the three variables alone. *)
Lemma scrape_finally_run (w : world) (v : vars) :
  scrape_finally w v = Run (Normal tt) v (cleanup_calls v).
Proof.
  unfold scrape_finally, cleanup_calls, bind, read, try_catch, call, ret.
  destruct v as [[b |] [p |] [dir |]];
    destruct (page_closed w) as [[] |], (browser_closed w) as [[] |],
      (dir_removed w) as [[] |];
    cbn; try destruct (String.eqb dir EmptyString); reflexivity.
Qed.

(* ===================================================================== *)
(** ** The run of a whole request *)

Lemma handle_invalid (w : world) (req : request) :
  loggable req = true ->
  truthy (url_of req) = false \/ truthy (selector_of req) = false ->
  handle w req = Run Return null_vars [Respond validation_response].
Proof.
  intros Hl H. unfold handle, scrape.
  fold (url_of req) (selector_of req) (method_of req) (debug_of req).
  rewrite interpolate_bind, loggable_fields, Hl.
  assert (E : negb (truthy (url_of req)) || negb (truthy (selector_of req)) = true).
  { destruct H as [-> | ->]; [reflexivity | apply orb_true_r]. }
  now rewrite E.
Qed.

(** The three ways of a request: it ends at the log line, it fails
    validation, or it reaches the [try] block. *)
Lemma valid_dec (req : request) :
  valid req \/
  (loggable req = true /\
   (truthy (url_of req) = false \/ truthy (selector_of req) = false)) \/
  loggable req = false.
Proof.
  unfold valid.
  destruct (loggable req), (truthy (url_of req)), (truthy (selector_of req));
    auto.
Qed.

(** A valid request runs the [try] block, answers a thrown error from the
    [catch] block, and ends with the cleanup calls; nothing is thrown past
    the handler. *)
Lemma handle_run (w : world) (req : request) :
  valid req ->
  let T := scrape_try w (url_of req) (selector_of req) (method_of req) null_vars in
  handle w req =
  Run match outcome T with Throw _ => Normal tt | o => o end
      (final T)
      (emitted T
       ++ match outcome T with
          | Throw err => [Respond (failure_response w req err)]
          | _ => []
          end
       ++ cleanup_calls (final T)).
Proof.
  intros V T. rewrite (handle_valid w req V).
  rewrite try_catch_finally_run, scrape_finally_run, try_catch_run.
  fold T. cbn [outcome final emitted].
  destruct (outcome T) eqn:E; cbn [outcome final emitted];
    rewrite ?scrape_finally_run; cbn [outcome final emitted].
  - destruct (T) as [o f l]; cbn in *; subst. reflexivity.
  - destruct (T) as [o f l]; cbn in *; subst. reflexivity.
  - unfold scrape_catch, res_status_json, emit. cbn [outcome final emitted].
    now rewrite <- app_assoc.
Qed.

Lemma responses_app (l l' : list event) :
  responses (l ++ l') = (responses l ++ responses l')%list.
Proof.
  induction l as [| e l IH]; [reflexivity |].
  destruct e; cbn; now rewrite ?IH.
Qed.

Lemma responses_In (l : list event) (r : response) :
  In r (responses l) <-> In (Respond r) l.
Proof.
  induction l as [| e l IH]; [reflexivity |].
  destruct e; cbn; rewrite IH; split; intros H;
    try (destruct H as [H | H]);
    first [discriminate H | now auto | left; congruence].
Qed.

Lemma responses_cleanup (v : vars) : responses (cleanup_calls v) = [].
Proof.
  unfold cleanup_calls.
  destruct (page v), (browser v), (userDataDir v) as [d |];
    try destruct (String.eqb d EmptyString); reflexivity.
Qed.

Lemma statusCode_values (e : error) :
  statusCode e = 504 \/ statusCode e = 404 \/ statusCode e = 502 \/
  statusCode e = 400 \/ statusCode e = 500.
Proof.
  unfold statusCode.
  repeat match goal with |- context [if ?c then _ else _] => destruct c end;
    auto.
Qed.

(** Where a response of a request can come from. *)
Lemma response_cases (w : world) (req : request) (r : response) :
  In r (responses (trace w req)) ->
  (r = validation_response /\ ~ valid req) \/
  (valid req /\ try_event (method_of req) (Respond r) = true) \/
  (valid req /\
   exists err,
     outcome (scrape_try w (url_of req) (selector_of req) (method_of req)
                null_vars) = Throw err /\
     r = failure_response w req err).
Proof.
  unfold trace. destruct (valid_dec req) as [V | [[Hl NV] | NL]].
  - rewrite (handle_run w req V). cbn [emitted].
    rewrite !responses_app, responses_cleanup, app_nil_r.
    intros H. apply in_app_or in H. destruct H as [H | H].
    + right; left. split; [exact V |].
      apply responses_In in H.
      pose proof (scrape_try_emits w (url_of req) (selector_of req)
                    (method_of req) null_vars) as F.
      rewrite forallb_forall in F. now apply F.
    + right; right. split; [exact V |].
      destruct (outcome _) as [a | | err]; [destruct H | destruct H |].
      cbn in H. destruct H as [<- | []]. now exists err.
  - rewrite (handle_invalid w req Hl NV). cbn. intros [<- | []].
    left. split; [reflexivity |]. intros (_ & Hu & Hs).
    destruct NV as [E | E]; congruence.
  - rewrite (handle_unloggable w req NL). intros [].
Qed.

(** The run of the [try] block when all goes well up to extraction. *)
Lemma scrape_try_ready (w : world) (req : request) (suffix : string)
    (b : Browser) :
  ready_to_extract w req ->
  mkdtemp w = Resolve suffix -> launched w = Resolve b ->
  let v := session_vars w suffix b in
  let X := extract w (selector_of req) (method_of req) v in
  scrape_try w (url_of req) (selector_of req) (method_of req) null_vars =
  Run (outcome X) v (lead_up w req v ++ emitted X).
Proof.
  intros [[_ [[p Hp] [Hv [Ha [Hn Hu]]]]] [Hm Hs]] Hd Hl v X.
  unfold scrape_try. rewrite bind_run.
  assert (L : launch_browser w null_vars =
              Run (Normal tt)
                  {| browser := Some b; page := None;
                     userDataDir := Some (tmp_prefix w ++ suffix) |}
                  [MkdtempSync (tmp_prefix w);
                   Launch (tmp_prefix w ++ suffix) 60000; Targets]).
  { unfold launch_browser, bind, call. now rewrite Hd, Hl. }
  rewrite L. cbn [outcome final emitted]. rewrite bind_run.
  assert (N : navigate w (url_of req)
                {| browser := Some b; page := None;
                   userDataDir := Some (tmp_prefix w ++ suffix) |} =
              Run (Normal tt) v
                  [NewPage; SetViewport 1280 720;
                   SetUserAgent user_agent_string; Delay 3000;
                   Goto (url_of req) 45000]).
  { unfold navigate, bind, call, emit, set_page, v, session_vars.
    now rewrite Hp, Hv, Ha, Hn. }
  rewrite N. cbn [outcome final emitted]. rewrite bind_run.
  rewrite maybe_duplicate_tab_outcome, maybe_duplicate_tab_keeps.
  destruct (url_includes (url_of req) "wsj.com/") as [i |] eqn:U;
    [| now destruct Hu].
  rewrite bind_run.
  assert (S : settle w (method_of req) v =
              Run (Normal tt) v
                  [MouseMove 100 100; ScrollBy 0 200;
                   Delay (if is_string (method_of req) "xpath"
                          then 5000%N else 2000%N)]).
  { unfold settle, bind, call, emit. now rewrite Hm, Hs. }
  rewrite S. cbn [outcome final emitted].
  pose proof (extract_keeps w (selector_of req) (method_of req) v) as K.
  fold X in K |- *. rewrite K.
  f_equal. unfold lead_up, v, session_vars. cbn [userDataDir app].
  now rewrite <- !app_assoc.
Qed.

(* ===================================================================== *)
(** ** Validation *)

Lemma missing_or_empty_falsy (v : value) : missing_or_empty v -> truthy v = false.
Proof. now intros [-> | [-> | ->]]. Qed.

(** C3.  The log line before the validation converts the four fields to
    strings, outside any [try].  For the body [{"selector": {"toString": 1}}]
    the url is missing, yet no 400 is sent: the conversion of the selector
    throws, the handler ends with that TypeError, and the request has no
    event at all, neither a response nor a call. *)
Theorem log_line_precedes_validation (w : world) :
  missing_or_empty (url_of Sample.unprintable) /\
  handle w Sample.unprintable =
  Run (Throw (TypeError "Cannot convert object to primitive value"))
      null_vars [] /\
  responses (trace w Sample.unprintable) = [].
Proof.
  split; [now left |].
  assert (H : handle w Sample.unprintable =
              Run (Throw (TypeError "Cannot convert object to primitive value"))
                  null_vars []).
  { now apply handle_unloggable. }
  split; [exact H |]. unfold trace. now rewrite H.
Qed.

(** X25.  A request whose four fields can be converted to strings and whose
    [url] or [selector] is missing or empty is answered with status 400 and
    the handler returns at once: the response is the only event of the
    request, so no profile directory is created and no browser is launched,
    and the three variables are still [null]. *)
Theorem validation_before_allocation (w : world) (req : request) :
  loggable req = true ->
  missing_or_empty (url_of req) \/ missing_or_empty (selector_of req) ->
  handle w req =
  Run Return null_vars
    [Respond {| status := 400; content_type := "application/json";
                sent := Json (JObj [("error",
                                     JStr "Missing required fields: url and selector")]) |}].
Proof.
  intros Hl H. apply handle_invalid; [exact Hl |].
  destruct H as [H | H]; [left | right]; now apply missing_or_empty_falsy.
Qed.

Lemma validation_before_allocation_witness :
  (missing_or_empty (url_of Sample.no_selector) \/
   missing_or_empty (selector_of Sample.no_selector)) /\
  handle Sample.calm Sample.no_selector =
  Run Return null_vars
    [Respond {| status := 400; content_type := "application/json";
                sent := Json (JObj [("error",
                                     JStr "Missing required fields: url and selector")]) |}].
Proof.
  assert (H : missing_or_empty (url_of Sample.no_selector) \/
              missing_or_empty (selector_of Sample.no_selector)).
  { right. left. reflexivity. }
  split; [exact H |].
  exact (validation_before_allocation Sample.calm Sample.no_selector
           eq_refl H).
Defined.

(* ===================================================================== *)
(** ** The extension's listener *)

Lemma is_string_eq (v : value) (lit : string) :
  is_string v lit = true <-> v = JStr lit.
Proof.
  destruct v; cbn; try (split; [discriminate | discriminate]).
  rewrite String.eqb_eq. split; [now intros -> | now intros [= ->]].
Qed.

(** C10.  The listener of the tab-duplicator answers only the message whose
    [action] is ["duplicateTab"]: for any other message, [sendResponse] is
    never called and the listener returns [undefined], so the sender gets no
    reply. *)
Theorem listener_replies_only_to_duplicateTab
    (c : Background.chrome) (request : value) :
  get request "action" <> Some (JStr "duplicateTab") ->
  Background.sendResponse (Background.onMessage c request) = [] /\
  Background.returned (Background.onMessage c request) = JUndefined.
Proof.
  intros H. unfold Background.onMessage.
  destruct (get request "action") as [action |]; [| now split].
  destruct (is_string action "duplicateTab") eqn:E; [| now split].
  apply is_string_eq in E. now subst.
Qed.

(** The identify message of the handshake gets no reply. *)
Lemma listener_ignores_identify :
  get (JObj [("action", JStr "identify")]) "action"
    <> Some (JStr "duplicateTab") /\
  Background.sendResponse
    (Background.onMessage Sample.tabs (JObj [("action", JStr "identify")])) = [] /\
  Background.returned
    (Background.onMessage Sample.tabs (JObj [("action", JStr "identify")]))
    = JUndefined.
Proof.
  assert (H : get (JObj [("action", JStr "identify")]) "action"
              <> Some (JStr "duplicateTab")) by discriminate.
  split; [exact H |].
  exact (listener_replies_only_to_duplicateTab Sample.tabs _ H).
Defined.

(* ===================================================================== *)
(** ** XPath extraction *)

Lemma iterate_map (pending : list Node) (results : list value) :
  iterate pending results =
  (results ++ map (fun node => processNode (Some node)) pending)%list.
Proof.
  revert results. induction pending as [| node rest IH]; intros results; cbn.
  - now rewrite app_nil_r.
  - now rewrite IH, <- app_assoc.
Qed.

Lemma skipn_next {A} (l : list A) (i : nat) :
  i < List.length l ->
  exists x, nth_error l i = Some x /\ skipn i l = x :: skipn (S i) l.
Proof.
  revert i. induction l as [| y l IH]; intros i H; [inversion H |].
  destruct i as [| i]; [now exists y |].
  apply IH. cbn in H. lia.
Qed.

Lemma snapshot_loop_map (result : XPathResult) (todo i : nat)
    (results : list value) :
  i + todo = snapshotLength result ->
  snapshot_loop result todo i results =
  (results ++ map (fun node => processNode (Some node))
                  (skipn i (matched result)))%list.
Proof.
  unfold snapshotLength.
  revert i results. induction todo as [| todo IH]; intros i results H; cbn.
  - rewrite skipn_all2 by lia. now rewrite app_nil_r.
  - destruct (skipn_next (matched result) i) as (x & Hx & Hs); [lia |].
    rewrite IH by lia. unfold snapshotItem. rewrite Hx, Hs. cbn.
    now rewrite <- app_assoc.
Qed.

Lemma xpath_switch_node_set (result : XPathResult) :
  resultType result = UNORDERED_NODE_ITERATOR_TYPE \/
  resultType result = ORDERED_NODE_ITERATOR_TYPE \/
  resultType result = UNORDERED_NODE_SNAPSHOT_TYPE \/
  resultType result = ORDERED_NODE_SNAPSHOT_TYPE ->
  xpath_switch result =
  map (fun node => processNode (Some node)) (matched result).
Proof.
  unfold xpath_switch.
  intros [-> | [-> | [-> | ->]]]; cbn;
    rewrite ?iterate_map, ?snapshot_loop_map; reflexivity.
Qed.

Lemma cleanup_calls_teardown (v : vars) :
  forallb is_teardown (cleanup_calls v) = true.
Proof.
  unfold cleanup_calls.
  destruct (page v), (browser v), (userDataDir v) as [d |];
    try destruct (String.eqb d EmptyString); reflexivity.
Qed.

(** Where an event of a request can come from. *)
Lemma trace_cases (w : world) (req : request) (e : event) :
  In e (trace w req) ->
  e = Respond validation_response \/
  try_event (method_of req) e = true \/
  (exists err, e = Respond (failure_response w req err)) \/
  is_teardown e = true.
Proof.
  unfold trace. destruct (valid_dec req) as [V | [[Hl NV] | NL]].
  - rewrite (handle_run w req V). cbn [emitted].
    intros H. apply in_app_or in H. destruct H as [H | H].
    + right; left.
      pose proof (scrape_try_emits w (url_of req) (selector_of req)
                    (method_of req) null_vars) as F.
      rewrite forallb_forall in F. now apply F.
    + apply in_app_or in H. destruct H as [H | H].
      * right; right; left.
        destruct (outcome _) as [a | | err]; [destruct H | destruct H |].
        destruct H as [<- | []]. now exists err.
      * right; right; right.
        pose proof (cleanup_calls_teardown (final
          (scrape_try w (url_of req) (selector_of req) (method_of req)
             null_vars))) as F.
        rewrite forallb_forall in F. now apply F.
  - rewrite (handle_invalid w req Hl NV). cbn. intros [<- | []]. now left.
  - rewrite (handle_unloggable w req NL). intros [].
Qed.

Lemma no_responses (P : event -> bool) (l : list event) :
  (forall r, P (Respond r) = false) -> forallb P l = true -> responses l = [].
Proof.
  intros HP. induction l as [| e l IH]; [reflexivity |].
  cbn [forallb]. intros H. apply andb_prop in H. destruct H as [He Hl].
  destruct e; cbn; auto. now rewrite HP in He.
Qed.

Lemma responses_lead_up (w : world) (req : request) (v : vars) :
  responses (lead_up w req v) = [].
Proof.
  unfold lead_up. rewrite !responses_app.
  rewrite (no_responses is_side_effect _ (fun _ => eq_refl)
             (maybe_duplicate_tab_emits w (url_of req) v)).
  reflexivity.
Qed.

(** The whole trace of an XPath request whose evaluation returns. *)
Lemma xpath_trace (w : world) (req : request) (suffix : string) (b : Browser)
    (result : XPathResult) :
  is_string (method_of req) "xpath" = true ->
  ready_to_extract w req ->
  mkdtemp w = Resolve suffix -> launched w = Resolve b ->
  document_evaluate w = Resolve (Resolve result) ->
  let v := session_vars w suffix b in
  trace w req =
  (lead_up w req v
   ++ [EvaluateXPath (selector_of req);
       Respond {| status := 200; content_type := "application/json";
                  sent := Json (json (JArr (xpath_switch result))) |}]
   ++ cleanup_calls v)%list.
Proof.
  intros Hx R Hd Hl He v. unfold trace.
  assert (V : valid req) by apply R.
  rewrite (handle_run w req V), (scrape_try_ready w req suffix b R Hd Hl).
  fold v. cbn [outcome final emitted].
  assert (X : extract w (selector_of req) (method_of req) v =
              Run (Normal tt) v
                [EvaluateXPath (selector_of req);
                 Respond {| status := 200; content_type := "application/json";
                            sent := Json (json (JArr (xpath_switch result))) |}]).
  { unfold extract. rewrite Hx. unfold extract_xpath, bind, call. now rewrite He. }
  rewrite X. cbn [outcome final emitted]. now rewrite <- app_assoc.
Qed.

Lemma document_order_ascending (nodes : list Node) :
  ascending nodes = true -> document_order nodes = nodes.
Proof.
  induction nodes as [| x rest IH]; [reflexivity |].
  destruct rest as [| y rest]; [reflexivity |].
  cbn [ascending]. intros H. apply andb_prop in H. destruct H as [Hxy Hr].
  cbn [document_order] in *. rewrite (IH Hr). cbn. now rewrite Hxy.
Qed.

(** C4, as the handler has it.  The function evaluated in the page branches
    on the type of the XPath result: a number, string or boolean result
    gives the one-element sequence of that scalar; an iterator or snapshot
    result gives the projections of the matched nodes in the order in which
    the result hands them out, which is document order whenever the result
    hands them out in document order; a single-node result gives the
    one-element sequence of the projection of its node.  A node is
    projected to its outer markup if it is an element, to its node value if
    it is an attribute or a text node, to a comment-delimited string if it
    is a comment, and to an unsupported-node-type marker otherwise.  The
    function's value is a sequence in every case, that sequence is what a
    successful request sends, and every success response of an XPath
    request is a JSON array. *)
Theorem xpath_payload_by_result_type (result : XPathResult) :
  (resultType result = NUMBER_TYPE ->
   xpath_switch result = [JNum (numberValue result)]) /\
  (resultType result = STRING_TYPE ->
   xpath_switch result = [JStr (stringValue result)]) /\
  (resultType result = BOOLEAN_TYPE ->
   xpath_switch result = [JBool (booleanValue result)]) /\
  (resultType result = UNORDERED_NODE_ITERATOR_TYPE \/
   resultType result = ORDERED_NODE_ITERATOR_TYPE \/
   resultType result = UNORDERED_NODE_SNAPSHOT_TYPE \/
   resultType result = ORDERED_NODE_SNAPSHOT_TYPE ->
   xpath_switch result =
   map (fun node => processNode (Some node)) (matched result) /\
   (ascending (matched result) = true -> payload_in_document_order result)) /\
  (resultType result = ANY_UNORDERED_NODE_TYPE \/
   resultType result = FIRST_ORDERED_NODE_TYPE ->
   xpath_switch result = [processNode (singleNodeValue result)]) /\
  (forall node : Node,
     (nodeType node = ELEMENT_NODE ->
      processNode (Some node) = JStr (outerHTML node)) /\
     (nodeType node = ATTRIBUTE_NODE \/ nodeType node = TEXT_NODE ->
      processNode (Some node) = node_value node) /\
     (nodeType node = COMMENT_NODE ->
      processNode (Some node) =
      JStr ("<!-- " ++ to_string (node_value node) ++ " -->")) /\
     (nodeType node <> ELEMENT_NODE -> nodeType node <> ATTRIBUTE_NODE ->
      nodeType node <> TEXT_NODE -> nodeType node <> COMMENT_NODE ->
      processNode (Some node) =
      JStr ("Unsupported node type: " ++ of_nat (nodeType node)))) /\
  (forall (w : world) (req : request),
     is_string (method_of req) "xpath" = true ->
     ready_to_extract w req ->
     document_evaluate w = Resolve (Resolve result) ->
     responses (trace w req) =
     [{| status := 200; content_type := "application/json";
         sent := Json (json (JArr (xpath_switch result))) |}]) /\
  (forall (w : world) (req : request) (r : response),
     is_string (method_of req) "xpath" = true ->
     In r (responses (trace w req)) -> status r = 200 ->
     exists items, sent r = Json (JArr items)).
Proof.
  repeat split.
  - unfold xpath_switch. now intros ->.
  - unfold xpath_switch. now intros ->.
  - unfold xpath_switch. now intros ->.
  - now apply xpath_switch_node_set.
  - intros Hs. unfold payload_in_document_order.
    rewrite (document_order_ascending _ Hs). now apply xpath_switch_node_set.
  - unfold xpath_switch. now intros [-> | ->].
  - unfold processNode. now intros ->.
  - unfold processNode. now intros [-> | ->].
  - unfold processNode. now intros ->.
  - unfold processNode. intros H1 H2 H3 H8.
    apply Nat.eqb_neq in H1, H2, H3, H8. now rewrite H1, H2, H3, H8.
  - intros w req Hx R He.
    pose proof R as [[[V [[suffix Hd] [b Hl]]] _] _].
    rewrite (xpath_trace w req suffix b result Hx R Hd Hl He).
    rewrite !responses_app, responses_lead_up, responses_cleanup. reflexivity.
  - intros w req r Hx Hin Hs.
    destruct (response_cases w req r Hin) as [[-> _] | [[_ H] | [_ [err [_ ->]]]]].
    + discriminate Hs.
    + cbn in H. rewrite Hx in H. apply andb_prop in H. destruct H as [_ H].
      destruct (sent r) as [markup | [| | | | | items |]]; try discriminate H.
      now exists items.
    + cbn in Hs. destruct (statusCode_values err) as [E | [E | [E | [E | E]]]];
        rewrite E in Hs; discriminate Hs.
Qed.

(** An expression that matches three text nodes gives their three values,
    in order. *)
Lemma xpath_three_text_nodes :
  xpath_switch
    (Sample.node_set [Sample.text 1 "a"; Sample.text 2 "b"; Sample.text 3 "c"])
  = [JStr "a"; JStr "b"; JStr "c"].
Proof.
  destruct (xpath_payload_by_result_type
              (Sample.node_set [Sample.text 1 "a"; Sample.text 2 "b";
                                Sample.text 3 "c"]))
    as (_ & _ & _ & H & _).
  rewrite (proj1 (H (or_introl eq_refl))). reflexivity.
Defined.

(** C4, as stated, fails for a result that hands out its nodes in another
    order than that of the document, as the unordered iterator that
    [ANY_TYPE] yields may: the payload follows the result, not the
    document. *)
Lemma payload_follows_the_result :
  resultType Sample.last_first = UNORDERED_NODE_ITERATOR_TYPE /\
  xpath_switch Sample.last_first = [JStr "second"; JStr "first"] /\
  ~ payload_in_document_order Sample.last_first.
Proof.
  split; [reflexivity |]. split; [reflexivity |].
  unfold payload_in_document_order. discriminate.
Qed.

(** An XPath request never waits for a selector, whatever happens. *)
Lemma xpath_never_waits (w : world) (req : request) :
  is_string (method_of req) "xpath" = true ->
  forallb (fun e => negb (is_wait e)) (trace w req) = true.
Proof.
  intros Hx. apply forallb_forall. intros e Hin.
  destruct (trace_cases w req e Hin) as [-> | [H | [[err ->] | H]]];
    try reflexivity.
  - destruct e; try reflexivity. cbn in H. now rewrite Hx in H.
  - now destruct e.
Qed.

(** C9.  An XPath request never waits for its expression to match; when the
    expression evaluates without error to a node-set result with no node,
    the request succeeds and its payload is the empty JSON array. *)
Theorem xpath_no_match_is_empty_success (w : world) (req : request) :
  is_string (method_of req) "xpath" = true ->
  forallb (fun e => negb (is_wait e)) (trace w req) = true /\
  (forall result : XPathResult,
     ready_to_extract w req ->
     document_evaluate w = Resolve (Resolve result) ->
     resultType result = UNORDERED_NODE_ITERATOR_TYPE \/
     resultType result = ORDERED_NODE_ITERATOR_TYPE \/
     resultType result = UNORDERED_NODE_SNAPSHOT_TYPE \/
     resultType result = ORDERED_NODE_SNAPSHOT_TYPE ->
     matched result = [] ->
     outcome (handle w req) = Normal tt /\
     responses (trace w req) =
     [{| status := 200; content_type := "application/json";
         sent := Json (JArr []) |}]).
Proof.
  intros Hx. split; [now apply xpath_never_waits |].
  intros result R He Ht Hm.
  pose proof R as [[[V [[suffix Hd] [b Hl]]] _] _].
  split.
  - unfold handle. fold (handle w req).
    rewrite (handle_run w req V), (scrape_try_ready w req suffix b R Hd Hl).
    cbn [outcome]. unfold extract. rewrite Hx.
    unfold extract_xpath, bind, call. now rewrite He.
  - rewrite (xpath_trace w req suffix b result Hx R Hd Hl He).
    rewrite !responses_app, responses_lead_up, responses_cleanup.
    rewrite (xpath_switch_node_set result Ht), Hm. reflexivity.
Qed.

Lemma xpath_no_match_witness :
  is_string (method_of Sample.xpath_request) "xpath" = true /\
  forallb (fun e => negb (is_wait e)) (trace Sample.calm Sample.xpath_request)
  = true /\
  responses (trace Sample.calm Sample.xpath_request) =
  [{| status := 200; content_type := "application/json";
      sent := Json (JArr []) |}].
Proof.
  assert (Hx : is_string (method_of Sample.xpath_request) "xpath" = true)
    by reflexivity.
  destruct (xpath_no_match_is_empty_success Sample.calm Sample.xpath_request Hx)
    as [Hw Hr].
  split; [exact Hx |]. split; [exact Hw |].
  apply (Hr (Sample.node_set [])).
  - repeat split; try reflexivity; try (now eexists); discriminate.
  - reflexivity.
  - now left.
  - reflexivity.
Defined.

(* ===================================================================== *)
(** ** CSS extraction *)

(** C5.  A CSS request (any method other than ["xpath"]) waits for the
    selector with the 15000 ms bound; when the wait yields an element, the
    handler reads the outer markup of that element, the first match, then
    disposes of the handle, then sends the markup as [text/html] with status
    200, and that is the only response of the request. *)
Theorem css_extraction (w : world) (req : request) (first : Node)
    (others : list Node) :
  is_string (method_of req) "xpath" = false ->
  ready_to_extract w req ->
  selector_wait w = Puppeteer.Appears first others ->
  outer_html w = Resolve tt ->
  disposed w = Resolve tt ->
  responses (trace w req) =
  [{| status := 200; content_type := "text/html";
      sent := Text (outerHTML first) |}] /\
  exists before after,
    trace w req =
    (before
     ++ [WaitForSelector (selector_of req) 15000;
         ReadOuterHTML {| element := first |};
         Dispose {| element := first |};
         Respond {| status := 200; content_type := "text/html";
                    sent := Text (outerHTML first) |}]
     ++ after)%list /\
    responses before = [] /\ responses after = [] /\
    forallb (fun e => negb (is_wait e)) before = true.
Proof.
  intros Hx R Hw Ho Hd.
  pose proof R as [[[V [[suffix Hm] [b Hl]]] _] _].
  set (v := session_vars w suffix b).
  assert (T : trace w req =
              (lead_up w req v
               ++ [WaitForSelector (selector_of req) 15000;
                   ReadOuterHTML {| element := first |};
                   Dispose {| element := first |};
                   Respond {| status := 200; content_type := "text/html";
                              sent := Text (outerHTML first) |}]
               ++ cleanup_calls v)%list).
  { unfold trace.
    rewrite (handle_run w req V), (scrape_try_ready w req suffix b R Hm Hl).
    fold v. cbn [outcome final emitted].
    assert (X : extract w (selector_of req) (method_of req) v =
                Run Return v
                  [WaitForSelector (selector_of req) 15000;
                   ReadOuterHTML {| element := first |};
                   Dispose {| element := first |};
                   Respond {| status := 200; content_type := "text/html";
                              sent := Text (outerHTML first) |}]).
    { unfold extract. rewrite Hx.
      unfold extract_css, bind, call, Puppeteer.waitForSelector.
      now rewrite Hw, Ho, Hd. }
    rewrite X. cbn [outcome final emitted]. now rewrite <- app_assoc. }
  split.
  - rewrite T, !responses_app, responses_lead_up, responses_cleanup.
    reflexivity.
  - exists (lead_up w req v), (cleanup_calls v).
    split; [exact T |].
    split; [apply responses_lead_up |].
    split; [apply responses_cleanup |].
    unfold lead_up. rewrite !forallb_app.
    assert (S : forallb (fun e => negb (is_wait e))
                  (emitted (maybe_duplicate_tab w (url_of req) v)) = true).
    { pose proof (maybe_duplicate_tab_emits w (url_of req) v) as F.
      rewrite forallb_forall in *. intros e He. specialize (F e He).
      now destruct e. }
    now rewrite S.
Qed.

(** Selector [h1] on a page that holds [<h1>Example Domain</h1>]. *)
Lemma css_extraction_example :
  is_string (method_of Sample.css_request) "xpath" = false /\
  ready_to_extract Sample.calm Sample.css_request /\
  responses (trace Sample.calm Sample.css_request) =
  [{| status := 200; content_type := "text/html";
      sent := Text "<h1>Example Domain</h1>" |}].
Proof.
  assert (Hx : is_string (method_of Sample.css_request) "xpath" = false)
    by reflexivity.
  assert (R : ready_to_extract Sample.calm Sample.css_request).
  { repeat split; try reflexivity; try (now eexists); discriminate. }
  split; [exact Hx |]. split; [exact R |].
  exact (proj1 (css_extraction Sample.calm Sample.css_request Sample.h1 []
                  Hx R eq_refl eq_refl eq_refl)).
Defined.

(* ===================================================================== *)
(** ** Cleanup *)

Lemma teardown_app (l l' : list event) :
  teardown (l ++ l') = (teardown l ++ teardown l')%list.
Proof. apply filter_app. Qed.

Lemma teardown_none (l : list event) :
  forallb (fun e => negb (is_teardown e)) l = true -> teardown l = [].
Proof.
  induction l as [| e l IH]; [reflexivity |].
  cbn. destruct (is_teardown e); [discriminate | exact IH].
Qed.

Lemma teardown_all (l : list event) :
  forallb is_teardown l = true -> teardown l = l.
Proof.
  unfold teardown. induction l as [| e l IH]; [reflexivity |].
  cbn. destruct (is_teardown e); [| discriminate].
  intros H. now rewrite IH.
Qed.

Lemma try_event_not_teardown (method : value) (e : event) :
  try_event method e = true -> negb (is_teardown e) = true.
Proof. now destruct e. Qed.

Lemma normalize_nonempty (path : string) :
  String.eqb (Path.normalize path) EmptyString = false.
Proof.
  unfold Path.normalize.
  destruct (String.eqb path EmptyString); [reflexivity |].
  cbn zeta.
  destruct (String.eqb (join "/" _) EmptyString) eqn:E.
  - destruct (String.prefix "/" path); [reflexivity |].
    now destruct (Path.ends_with_slash path).
  - destruct (join "/" _) as [| c inner]; [discriminate E |].
    now destruct (String.prefix "/" path).
Qed.

Lemma profile_dir_nonempty (w : world) (suffix : string) :
  String.eqb (tmp_prefix w ++ suffix) EmptyString = false.
Proof.
  unfold tmp_prefix, Path.join. cbn zeta.
  assert (N : forall a, String.eqb a EmptyString = false ->
                        String.eqb (a ++ suffix) EmptyString = false).
  { intros [| c a]; [discriminate | reflexivity]. }
  apply N. destruct (String.eqb (join "/" _) EmptyString); [reflexivity |].
  apply normalize_nonempty.
Qed.

(** C1, as the handler has it.  Once the profile directory exists and the
    browser is launched, the [finally] block attempts, in this order and
    once each: the close of the page if [newPage] had resolved (and no page
    close otherwise), the close of the browser, the removal of the profile
    directory.  This holds in every world, so however the [try] block ends
    and however each of the three cleanup calls settles: a cleanup call that
    rejects does not keep the next from being attempted, and the handler
    completes without throwing. *)
Theorem cleanup_after_session (w : world) (req : request) (suffix : string)
    (b : Browser) :
  valid req -> mkdtemp w = Resolve suffix -> launched w = Resolve b ->
  teardown (trace w req) =
  (match opened w with Resolve p => [PageClose p] | Reject _ => [] end
   ++ [BrowserClose b; RemoveDir (tmp_prefix w ++ suffix)])%list /\
  (forall e, outcome (handle w req) <> Throw e).
Proof.
  intros V Hd Hl. unfold trace. rewrite (handle_run w req V).
  cbn [outcome final emitted]. split.
  - rewrite !teardown_app.
    rewrite (teardown_none (emitted _)).
    2:{ eapply (emits_weaken (try_event (method_of req)));
          [apply try_event_not_teardown | apply scrape_try_emits]. }
    rewrite (scrape_try_final w _ _ _ suffix b Hd Hl).
    rewrite (teardown_all (cleanup_calls _)) by apply cleanup_calls_teardown.
    assert (C : teardown
                  match outcome (scrape_try w (url_of req) (selector_of req)
                                   (method_of req) null_vars) with
                  | Throw err => [Respond (failure_response w req err)]
                  | _ => []
                  end = []) by now destruct (outcome _).
    rewrite C. unfold cleanup_calls, session_vars.
    cbn [page browser userDataDir]. rewrite profile_dir_nonempty.
    now destruct (opened w).
  - intros e. now destruct (outcome _).
Qed.

Lemma cleanup_after_session_witness :
  valid Sample.css_request /\
  teardown (trace Sample.calm Sample.css_request) =
  [PageClose {| page_id := 1 |}; BrowserClose {| browser_id := 1 |};
   RemoveDir "/tmp/puppeteer-user-data-Xk3p9Q"].
Proof.
  assert (V : valid Sample.css_request) by (repeat split; reflexivity).
  split; [exact V |].
  exact (proj1 (cleanup_after_session Sample.calm Sample.css_request
                  "Xk3p9Q" {| browser_id := 1 |} V eq_refl eq_refl)).
Defined.

(** C1, as stated, fails when the browser is launched but [newPage]
    rejects: the session exists, yet no page close is attempted. *)
Lemma page_never_opened :
  session_created Sample.no_page Sample.css_request /\
  teardown (trace Sample.no_page Sample.css_request) =
  [BrowserClose {| browser_id := 1 |};
   RemoveDir "/tmp/puppeteer-user-data-Xk3p9Q"] /\
  ~ cleans_page_browser_dir Sample.no_page Sample.css_request.
Proof.
  split; [| split].
  - repeat split; try reflexivity; now eexists.
  - reflexivity.
  - intros (p & b & dir & H). discriminate H.
Qed.

(* ===================================================================== *)
(** ** The failure response *)

Lemma stack_field (w : world) (req : request) (err : error) :
  has_field "stack" (json (error_document w (debug_of req) err))
  = verbose w (debug_of req).
Proof.
  unfold error_document. now destruct (verbose w (debug_of req)).
Qed.

Lemma error_document_json (w : world) (debug : value) (err : error) :
  json (error_document w debug err) =
  JObj ([("error", JStr "Scraping failed");
         ("details", JStr (message err));
         ("type", JStr (constructor_name err))]
        ++ if verbose w debug then [("stack", JStr (stack err))] else []).
Proof. unfold error_document. now destruct (verbose w debug). Qed.

Lemma verbose_iff (w : world) (debug : value) :
  verbose w debug = true <->
  truthy debug = true \/ NODE_ENV w = Some "development".
Proof.
  unfold verbose. split.
  - intros H. apply orb_prop in H. destruct H as [H | H]; [now left | right].
    destruct (NODE_ENV w) as [env |]; [| discriminate].
    apply String.eqb_eq in H. now subst.
  - intros [-> | ->]; [reflexivity | apply orb_true_r].
Qed.

(** C7, as the handler has it.  The failure response of a request that
    passed validation is a document of the short message, the details and
    the type of the error, in this order, followed by the [stack] field if
    and only if the request set [debug] or the service runs with NODE_ENV
    set to development; the document has no other field. *)
Theorem stack_follows_debug_or_development (w : world) (req : request)
    (r : response) :
  valid req -> In r (responses (trace w req)) -> status r <> 200 ->
  exists doc err,
    sent r = Json doc /\
    has_field "error" doc = true /\
    has_field "details" doc = true /\
    has_field "type" doc = true /\
    (has_field "stack" doc = true <->
     truthy (debug_of req) = true \/ NODE_ENV w = Some "development") /\
    (truthy (debug_of req) = true \/ NODE_ENV w = Some "development" ->
     doc = JObj [("error", JStr "Scraping failed");
                 ("details", JStr (message err));
                 ("type", JStr (constructor_name err));
                 ("stack", JStr (stack err))]) /\
    (~ (truthy (debug_of req) = true \/ NODE_ENV w = Some "development") ->
     doc = JObj [("error", JStr "Scraping failed");
                 ("details", JStr (message err));
                 ("type", JStr (constructor_name err))]).
Proof.
  intros V Hin Hs.
  destruct (response_cases w req r Hin) as [[_ NV] | [[_ H] | [_ [err [_ ->]]]]].
  - now destruct NV.
  - cbn in H. apply andb_prop in H. destruct H as [H _].
    apply Nat.eqb_eq in H. now destruct Hs.
  - exists (json (error_document w (debug_of req) err)), err.
    split; [reflexivity |]. rewrite stack_field.
    pose proof (verbose_iff w (debug_of req)) as VI.
    rewrite error_document_json.
    destruct (verbose w (debug_of req)).
    + repeat split; try reflexivity; try (now apply VI).
      intros N. destruct N. now apply VI.
    + repeat split; try reflexivity; try (now apply VI).
      intros Y. apply VI in Y. discriminate Y.
Qed.

Lemma stack_follows_debug_or_development_witness :
  valid Sample.css_request /\
  exists doc,
    sent (failure_response Sample.development Sample.css_request
            (Puppeteer.net_error "ERR_NAME_NOT_RESOLVED"
               (JStr "https://example.com"))) = Json doc /\
    has_field "stack" doc = true.
Proof.
  assert (V : valid Sample.css_request) by (repeat split; reflexivity).
  split; [exact V |].
  destruct (stack_follows_debug_or_development Sample.development
              Sample.css_request
              (failure_response Sample.development Sample.css_request
                 (Puppeteer.net_error "ERR_NAME_NOT_RESOLVED"
                    (JStr "https://example.com"))) V)
    as (doc & err & Hd & _ & _ & _ & Hs & _).
  - left. reflexivity.
  - discriminate.
  - exists doc. split; [exact Hd |]. apply Hs. now right.
Defined.

(** C7, as stated, fails in a development deployment: a request that did
    not set [debug] still gets the stack. *)
Lemma stack_without_debug :
  truthy (debug_of Sample.css_request) = false /\
  ~ stack_iff_debug Sample.development Sample.css_request.
Proof.
  split; [reflexivity |]. intros H.
  destruct (H (failure_response Sample.development Sample.css_request
                 (Puppeteer.net_error "ERR_NAME_NOT_RESOLVED"
                    (JStr "https://example.com"))))
    as (doc & Hd & Hs).
  - left. reflexivity.
  - discriminate.
  - injection Hd as <-. destruct Hs as [Hs _].
    discriminate (Hs eq_refl).
Qed.

(* ===================================================================== *)
(** ** Status classification *)

Lemma statusCode_tests (e : error) :
  statusCode e =
  if timeout_like e then 504
  else if selector_like e then 404
  else if navigation_like e then 502
  else if xpath_like e then 400
  else 500.
Proof. reflexivity. Qed.

(** C2, as the handler has it.  The classifier tests the error in a fixed
    order.  An error named TimeoutError, or whose message contains
    "timeout" or "exceeded", is a 504: this is where a navigation that never
    settles lands, and also a CSS selector that never appears within its
    wait window.  Otherwise a message that contains "selector" together
    with "not found" or "failed to find element" is a 404; otherwise a
    message that contains "Navigation failed" or "net::ERR_" is a 502, which
    is where a network-level navigation failure lands unless its text (it
    quotes the url) passes an earlier test; otherwise a message that
    contains "XPath evaluation failed" is a 400, which is where an XPath
    evaluation failure lands unless its text passes an earlier test;
    everything else is a 500.  The failure response of a request carries the
    status of the error its [try] block threw. *)
Theorem statusCode_by_failure_kind :
  (forall selector timeout,
     statusCode (Puppeteer.selector_timeout selector timeout) = 504) /\
  (forall timeout, statusCode (Puppeteer.navigation_timeout timeout) = 504) /\
  (forall code url,
     timeout_like (Puppeteer.net_error ("ERR_" ++ code) url) = false ->
     selector_like (Puppeteer.net_error ("ERR_" ++ code) url) = false ->
     statusCode (Puppeteer.net_error ("ERR_" ++ code) url) = 502) /\
  (forall thrown,
     timeout_like (xpath_failure thrown) = false ->
     selector_like (xpath_failure thrown) = false ->
     navigation_like (xpath_failure thrown) = false ->
     statusCode (xpath_failure thrown) = 400) /\
  (forall e,
     (statusCode e = 504 <-> timeout_like e = true) /\
     (statusCode e = 404 <-> timeout_like e = false /\ selector_like e = true) /\
     (statusCode e = 502 <->
      timeout_like e = false /\ selector_like e = false /\
      navigation_like e = true) /\
     (statusCode e = 400 <->
      timeout_like e = false /\ selector_like e = false /\
      navigation_like e = false /\ xpath_like e = true) /\
     (statusCode e = 500 <->
      timeout_like e = false /\ selector_like e = false /\
      navigation_like e = false /\ xpath_like e = false)) /\
  (forall w req r,
     valid req -> In r (responses (trace w req)) -> status r <> 200 ->
     exists err,
       outcome (scrape_try w (url_of req) (selector_of req) (method_of req)
                  null_vars) = Throw err /\
       status r = statusCode err).
Proof.
  split; [reflexivity |]. split; [reflexivity |].
  split; [| split; [| split]].
  - intros code url Ht Hs. rewrite statusCode_tests, Ht, Hs.
    assert (N : navigation_like (Puppeteer.net_error ("ERR_" ++ code) url)
                = true).
    { unfold navigation_like.
      replace (includes (message (Puppeteer.net_error ("ERR_" ++ code) url))
                 "net::ERR_") with true; [apply orb_true_r |].
      symmetry.
      exact (includes_prefix "net::ERR_" (code ++ " at " ++ to_string url)). }
    now rewrite N.
  - intros thrown Ht Hs Hn. rewrite statusCode_tests, Ht, Hs, Hn.
    assert (X : xpath_like (xpath_failure thrown) = true).
    { unfold xpath_like, xpath_failure, Error. cbn [message].
      exact (includes_prefix "XPath evaluation failed"
               (" in browser: " ++ message thrown)). }
    now rewrite X.
  - intros e. rewrite statusCode_tests.
    destruct (timeout_like e), (selector_like e), (navigation_like e),
      (xpath_like e); repeat split; intros; try discriminate;
      repeat match goal with H : _ /\ _ |- _ => destruct H end;
      try discriminate; reflexivity.
  - intros w req r V Hin Hs.
    destruct (response_cases w req r Hin)
      as [[_ NV] | [[_ H] | [_ [err [Ho ->]]]]].
    + now destruct NV.
    + cbn in H. apply andb_prop in H. destruct H as [H _].
      apply Nat.eqb_eq in H. now destruct Hs.
    + now exists err.
Qed.

(** C2, as stated, fails for the CSS selector that never appears: the
    request is answered with the timeout status 504, not with 404. *)
Lemma selector_wait_timeout_is_504 :
  selector_wait Sample.absent = Puppeteer.NeverAppears /\
  map status (responses (trace Sample.absent Sample.css_request)) = [504] /\
  statusCode (Puppeteer.selector_timeout (JStr "h1") 15000) <> 404.
Proof. repeat split. discriminate. Qed.

(** A name that does not resolve is a 502. *)
Lemma name_not_resolved_is_502 :
  statusCode (Puppeteer.net_error "ERR_NAME_NOT_RESOLVED"
                (JStr "https://example.com")) = 502.
Proof.
  destruct statusCode_by_failure_kind as (_ & _ & H & _).
  exact (H "NAME_NOT_RESOLVED" (JStr "https://example.com") eq_refl eq_refl).
Defined.

(** The tests read the whole message, and the message quotes the url or the
    expression of the request: a name that does not resolve, for a url that
    contains "timeout", is a 504, and so is an invalid expression that
    contains it. *)
Example net_error_quoting_timeout :
  statusCode (Puppeteer.net_error "ERR_NAME_NOT_RESOLVED"
                (JStr "https://example.com/timeout")) = 504.
Proof. reflexivity. Qed.

Example xpath_failure_quoting_timeout :
  statusCode
    (xpath_failure
       (Error "Failed to execute 'evaluate' on 'Document': The string '//div[@class=timeout]' is not a valid XPath expression."))
  = 504.
Proof. reflexivity. Qed.

(* ===================================================================== *)
(** ** The wsj.com side effect *)

Lemma main_path_app (l l' : list event) :
  main_path (l ++ l') = (main_path l ++ main_path l')%list.
Proof. apply filter_app. Qed.

Lemma main_path_side (l : list event) :
  forallb is_side_effect l = true -> main_path l = [].
Proof.
  unfold main_path. induction l as [| e l IH]; [reflexivity |].
  cbn. destruct (is_side_effect e); [exact IH | discriminate].
Qed.

Lemma responses_main_path (l : list event) :
  responses (main_path l) = responses l.
Proof.
  unfold main_path. induction l as [| e l IH]; [reflexivity |].
  destruct e; cbn; now rewrite ?IH.
Qed.

Lemma alike_refl {A} (r : run A) : alike r r.
Proof. now repeat split. Qed.

Lemma alike_bind {A B} (m m' : M A) (k k' : A -> M B) (v : vars) :
  alike (m v) (m' v) -> (forall a u, alike (k a u) (k' a u)) ->
  alike (bind m k v) (bind m' k' v).
Proof.
  intros (Ho & Hf & He) Hk. rewrite !bind_run, Ho, Hf.
  destruct (outcome (m' v)) as [a | | e]; unfold alike;
    cbn [outcome final emitted].
  - destruct (Hk a (final (m' v))) as (Ho' & Hf' & He').
    split; [exact Ho' | split; [exact Hf' |]].
    now rewrite !main_path_app, He, He'.
  - split; [reflexivity | split; [reflexivity | exact He]].
  - split; [reflexivity | split; [reflexivity | exact He]].
Qed.

Lemma alike_try_catch {A} (body body' : M A) (handler handler' : error -> M A)
    (v : vars) :
  alike (body v) (body' v) ->
  (forall e u, alike (handler e u) (handler' e u)) ->
  alike (try_catch body handler v) (try_catch body' handler' v).
Proof.
  intros H Hh. pose proof H as (Ho & Hf & He).
  rewrite !try_catch_run, Ho, Hf.
  destruct (outcome (body' v)) as [a | | e]; trivial.
  destruct (Hh e (final (body' v))) as (Ho' & Hf' & He').
  unfold alike. cbn [outcome final emitted].
  split; [exact Ho' | split; [exact Hf' |]].
  now rewrite !main_path_app, He, He'.
Qed.

Lemma alike_try_catch_finally {A} (body body' : M A)
    (handler handler' : error -> M A) (finalizer finalizer' : M unit)
    (v : vars) :
  alike (body v) (body' v) ->
  (forall e u, alike (handler e u) (handler' e u)) ->
  (forall u, alike (finalizer u) (finalizer' u)) ->
  alike (try_catch_finally body handler finalizer v)
        (try_catch_finally body' handler' finalizer' v).
Proof.
  intros H Hh Hfin.
  destruct (alike_try_catch body body' handler handler' v H Hh)
    as (Ho & Hf & He).
  rewrite !try_catch_finally_run. rewrite Ho, Hf.
  destruct (Hfin (final (try_catch body' handler' v))) as (Ho' & Hf' & He').
  unfold alike. cbn [outcome final emitted].
  rewrite Ho', Hf', !main_path_app, He, He'.
  split; [reflexivity | split; reflexivity].
Qed.

Lemma maybe_duplicate_tab_alike (w : world) (ts : list Target) (url : value)
    (v : vars) :
  alike (maybe_duplicate_tab (with_targets w ts) url v)
        (maybe_duplicate_tab w url v).
Proof.
  repeat split.
  - now rewrite !maybe_duplicate_tab_outcome.
  - now rewrite !maybe_duplicate_tab_keeps.
  - now rewrite !main_path_side by apply maybe_duplicate_tab_emits.
Qed.

(** A request runs alike in two worlds that differ in the browser's
    targets only. *)
Lemma handle_alike (w : world) (ts : list Target) (req : request) :
  alike (handle (with_targets w ts) req) (handle w req).
Proof.
  unfold handle, scrape. rewrite !interpolate_bind.
  destruct (forallb convertible _); [| apply alike_refl].
  destruct (negb (truthy (lookup "url" (body req)))
            || negb (truthy (lookup "selector" (body req))));
    [apply alike_refl |].
  apply alike_try_catch_finally.
  - unfold scrape_try.
    apply (alike_bind (launch_browser w)); [apply alike_refl | intros _ u1].
    apply (alike_bind (navigate w _)); [apply alike_refl | intros _ u2].
    apply alike_bind; [apply maybe_duplicate_tab_alike | intros _ u3].
    apply alike_refl.
  - intros e u. apply alike_refl.
  - intros u. apply alike_refl.
Qed.

Lemma side_effect_calls_any (w : world) (v : vars) :
  emitted (duplicateTabViaExtension w v) = side_effect_calls w.
Proof.
  unfold side_effect_calls. rewrite !duplicateTabViaExtension_run. cbn zeta.
  destruct (find confirms _) as [found |]; [destruct (worker_again found) |];
    reflexivity.
Qed.

Lemma maybe_duplicate_tab_matching (w : world) (url : value) (v : vars) :
  url_includes url "wsj.com/" = Some true ->
  emitted (maybe_duplicate_tab w url v) = side_effect_calls w.
Proof.
  intros H. unfold maybe_duplicate_tab. rewrite H.
  rewrite try_catch_run, bind_run, <- (side_effect_calls_any w v).
  destruct (outcome (duplicateTabViaExtension w v));
    cbn [outcome final emitted ret]; now rewrite ?app_nil_r.
Qed.

(** The first call of the helper is [browser.targets()]. *)
Lemma side_effect_calls_start (w : world) :
  exists rest, side_effect_calls w = Targets :: rest.
Proof.
  unfold side_effect_calls. rewrite duplicateTabViaExtension_run. cbn zeta.
  destruct (find confirms _) as [found |]; [destruct (worker_again found) |];
    now eexists.
Qed.

(** The run of the [try] block when all goes well up to navigation. *)
Lemma scrape_try_navigated (w : world) (req : request) (suffix : string)
    (b : Browser) :
  navigated w req ->
  mkdtemp w = Resolve suffix -> launched w = Resolve b ->
  let v := session_vars w suffix b in
  let R := (maybe_duplicate_tab w (url_of req) ;;
            settle w (method_of req) ;;
            extract w (selector_of req) (method_of req)) v in
  scrape_try w (url_of req) (selector_of req) (method_of req) null_vars =
  Run (outcome R) (final R)
      ([MkdtempSync (tmp_prefix w); Launch (tmp_prefix w ++ suffix) 60000;
        Targets; NewPage; SetViewport 1280 720;
        SetUserAgent user_agent_string; Delay 3000]
       ++ [Goto (url_of req) 45000] ++ emitted R).
Proof.
  intros [_ [[p Hp] [Hv [Ha [Hn Hu]]]]] Hd Hl v R.
  unfold scrape_try. rewrite bind_run.
  assert (L : launch_browser w null_vars =
              Run (Normal tt)
                  {| browser := Some b; page := None;
                     userDataDir := Some (tmp_prefix w ++ suffix) |}
                  [MkdtempSync (tmp_prefix w);
                   Launch (tmp_prefix w ++ suffix) 60000; Targets]).
  { unfold launch_browser, bind, call. now rewrite Hd, Hl. }
  rewrite L. cbn [outcome final emitted]. rewrite bind_run.
  assert (N : navigate w (url_of req)
                {| browser := Some b; page := None;
                   userDataDir := Some (tmp_prefix w ++ suffix) |} =
              Run (Normal tt) v
                  [NewPage; SetViewport 1280 720;
                   SetUserAgent user_agent_string; Delay 3000;
                   Goto (url_of req) 45000]).
  { unfold navigate, bind, call, emit, set_page, v, session_vars.
    now rewrite Hp, Hv, Ha, Hn. }
  rewrite N. cbn [outcome final emitted]. fold R. reflexivity.
Qed.

(** C6.  When the url contains "wsj.com/" and navigation succeeded, the
    handler runs the tab-duplication helper right after navigation: the
    helper lists the browser's targets, probes the extension service
    workers one after the other up to the first that confirms the identity,
    and, when one does, attaches to it again and sends it the
    [duplicateTab] command.  These calls are in the trace of the request,
    between the navigation and the settle delay.  Whatever the helper does
    (extension not found, worker error, refused command, success), the
    statement around it completes normally and the handler goes on, with
    its variables unchanged, to the settle delay and the extraction.  The
    request runs exactly as it would with any other set of browser targets:
    same completion, same response, same calls apart from those of the
    helper itself. *)
Theorem side_effect_is_not_fatal (w : world) (req : request) (u : string)
    (suffix : string) (b : Browser) :
  navigated w req ->
  mkdtemp w = Resolve suffix -> launched w = Resolve b ->
  url_of req = JStr u -> includes u "wsj.com/" = true ->
  let onwards :=
    (settle w (method_of req) ;;
     extract w (selector_of req) (method_of req)) (session_vars w suffix b) in
  let candidates := filter is_extension_service_worker (targets w) in
  (forall v, outcome (maybe_duplicate_tab w (url_of req) v) = Normal tt) /\
  side_effect_calls w =
  (Targets :: flat_map probe (visited candidates)
   ++ match find confirms candidates with
      | Some found =>
          Worker (target_url found)
          :: match worker_again found with
             | Resolve _ => [SendDuplicateTab (target_url found)]
             | Reject _ => []
             end
      | None => []
      end)%list /\
  (exists before after,
     trace w req =
     (before ++ [Goto (JStr u) 45000] ++ side_effect_calls w
      ++ emitted onwards ++ after)%list /\
     responses before = []) /\
  (forall ts,
     outcome (handle (with_targets w ts) req) = outcome (handle w req) /\
     responses (trace (with_targets w ts) req) = responses (trace w req) /\
     main_path (trace (with_targets w ts) req) = main_path (trace w req)).
Proof.
  intros Nv Hd Hl Hu Hi onwards candidates.
  assert (I : url_includes (url_of req) "wsj.com/" = Some true).
  { rewrite Hu. cbn. now rewrite Hi. }
  split; [| split; [| split]].
  - intros v. now rewrite maybe_duplicate_tab_outcome, I.
  - unfold side_effect_calls. rewrite duplicateTabViaExtension_run. cbn zeta.
    fold candidates.
    destruct (find confirms candidates) as [found |] eqn:F.
    + destruct (worker_again found); reflexivity.
    + rewrite (visited_all _ F). cbn [emitted]. now rewrite app_nil_r.
  - pose proof Nv as [[V _] _].
    unfold trace.
    rewrite (handle_run w req V), (scrape_try_navigated w req suffix b Nv Hd Hl).
    cbn [outcome final emitted].
    set (v := session_vars w suffix b) in *.
    rewrite (bind_run (maybe_duplicate_tab w (url_of req))).
    rewrite maybe_duplicate_tab_outcome, I, maybe_duplicate_tab_keeps,
      (maybe_duplicate_tab_matching w _ v I).
    fold onwards. cbn [outcome final emitted]. rewrite Hu.
    rewrite <- !app_assoc.
    eexists _, _. split; reflexivity.
  - intros ts. destruct (handle_alike w ts req) as (Ho & _ & He).
    split; [exact Ho |]. split; [| exact He].
    unfold trace. now rewrite <- responses_main_path, He, responses_main_path.
Qed.

(** wsj.com with the tab-duplicator among two extensions: the first
    extension is probed and passed over, the tab-duplicator is probed and
    sent the command.  With no extension loaded the helper fails with the
    not-found error, and the request answers as it does when the
    tab-duplicator is there, with its success payload. *)
Lemma side_effect_is_not_fatal_witness :
  navigated Sample.wsj_two Sample.wsj_request /\
  side_effect_calls Sample.wsj_two =
  [Targets;
   Worker "chrome-extension://aaaa/background.js";
   SendIdentify "chrome-extension://aaaa/background.js" 1000;
   Worker "chrome-extension://cccc/background.js";
   SendIdentify "chrome-extension://cccc/background.js" 1000;
   Worker "chrome-extension://cccc/background.js";
   SendDuplicateTab "chrome-extension://cccc/background.js"] /\
  outcome (duplicateTabViaExtension Sample.wsj_bare null_vars) =
  Throw (Error (not_found_message [])) /\
  responses (trace Sample.wsj_bare Sample.wsj_request) =
  responses (trace Sample.wsj_two Sample.wsj_request) /\
  responses (trace Sample.wsj_two Sample.wsj_request) =
  [{| status := 200; content_type := "text/html";
      sent := Text "<h1>Example Domain</h1>" |}].
Proof.
  assert (Nv : navigated Sample.wsj_two Sample.wsj_request).
  { repeat split; try reflexivity; try (now eexists); discriminate. }
  destruct (side_effect_is_not_fatal Sample.wsj_two Sample.wsj_request
              "https://www.wsj.com/articles/a" "Xk3p9Q" {| browser_id := 1 |}
              Nv eq_refl eq_refl eq_refl eq_refl)
    as (_ & S & _ & H).
  split; [exact Nv |]. split; [exact S |]. split; [reflexivity |].
  split; [| reflexivity].
  exact (proj1 (proj2 (H []))).
Defined.

(* ===================================================================== *)
(** ** The identity handshake *)






(* ===================================================================== *)
(** * Further properties *)

(** ** One response per request, sent before cleanup *)

Lemma answered_bind {A B} (m : M A) (k : A -> M B) (v : vars) :
  silent m -> (forall a u, answered (k a u)) -> answered (bind m k v).
Proof.
  intros Hm Hk. destruct (Hm v) as [Hr Ho]. unfold answered.
  rewrite bind_run. destruct (outcome (m v)) as [a | | e] eqn:E.
  - specialize (Hk a (final (m v))). unfold answered in Hk.
    cbn [outcome emitted].
    destruct (outcome (k a (final (m v)))) as [x | | e].
    + destruct Hk as (calls & resp & -> & Hc).
      exists (emitted (m v) ++ calls)%list, resp.
      now rewrite app_assoc, responses_app, Hr, Hc.
    + destruct Hk as (calls & resp & -> & Hc).
      exists (emitted (m v) ++ calls)%list, resp.
      now rewrite app_assoc, responses_app, Hr, Hc.
    + now rewrite responses_app, Hr, Hk.
  - now destruct Ho.
  - exact Hr.
Qed.

Lemma silent_bind {A B} (m : M A) (k : A -> M B) :
  silent m -> (forall a, silent (k a)) -> silent (bind m k).
Proof.
  intros Hm Hk v. destruct (Hm v) as [Hr Ho]. rewrite bind_run.
  destruct (outcome (m v)) as [a | | e].
  - destruct (Hk a (final (m v))) as [Hr' Ho']. cbn [outcome emitted].
    split; [now rewrite responses_app, Hr, Hr' | exact Ho'].
  - now destruct Ho.
  - split; [exact Hr | discriminate].
Qed.

Lemma launch_browser_silent (w : world) : silent (launch_browser w).
Proof.
  intros v. unfold launch_browser, bind, call, set_userDataDir, set_browser, emit.
  destruct (mkdtemp w), (launched w); cbn; split; try reflexivity; discriminate.
Qed.

Lemma navigate_silent (w : world) (url : value) : silent (navigate w url).
Proof.
  intros v. unfold navigate, bind, call, set_page, emit, Puppeteer.goto.
  destruct (opened w), (viewport w), (user_agent w), (navigation w); cbn;
    split; try reflexivity; discriminate.
Qed.

Lemma maybe_duplicate_tab_silent (w : world) (url : value) :
  silent (maybe_duplicate_tab w url).
Proof.
  intros v. split.
  - apply (no_responses is_side_effect); [reflexivity |].
    apply maybe_duplicate_tab_emits.
  - rewrite maybe_duplicate_tab_outcome.
    now destruct (url_includes url "wsj.com/").
Qed.

Lemma settle_silent (w : world) (method : value) : silent (settle w method).
Proof.
  intros v. unfold settle, bind, call, emit.
  destruct (mouse w), (scroll w); cbn; split; try reflexivity; discriminate.
Qed.

Lemma extract_answered (w : world) (selector method : value) (v : vars) :
  answered (extract w selector method v).
Proof.
  unfold extract, extract_xpath, extract_css, answered.
  destruct (is_string method "xpath").
  - unfold bind, call, res_json, res_status_json, emit, Puppeteer.evaluate.
    destruct (document_evaluate w) as [[result | e] | e]; cbn; trivial.
    now exists [EvaluateXPath selector], 
      {| status := 200; content_type := "application/json";
         sent := Json (json (JArr (xpath_switch result))) |}.
  - unfold bind, call, res_type_send, emit, throw, return_,
      Puppeteer.waitForSelector.
    destruct (selector_wait w) as [first others | | | e]; cbn; trivial.
    destruct (outer_html w) as [[] | e]; cbn; trivial.
    destruct (disposed w) as [[] | e]; cbn; trivial.
    now exists [WaitForSelector selector 15000;
                ReadOuterHTML {| element := first |};
                Dispose {| element := first |}],
      {| status := 200; content_type := "text/html";
         sent := Text (outerHTML first) |}.
Qed.

Lemma scrape_try_answered (w : world) (url selector method : value) (v : vars) :
  answered (scrape_try w url selector method v).
Proof.
  unfold scrape_try.
  apply answered_bind; [apply launch_browser_silent | intros _ v1].
  apply answered_bind; [apply navigate_silent | intros _ v2].
  apply answered_bind; [apply maybe_duplicate_tab_silent | intros _ v3].
  apply answered_bind; [apply settle_silent | intros _ v4].
  apply extract_answered.
Qed.

Lemma teardown_responses_free (calls : list event) (r : response) :
  teardown (calls ++ [Respond r]) = teardown calls.
Proof. rewrite teardown_app. cbn. apply app_nil_r. Qed.

(** X1.  A request whose four fields can be converted to strings is
    answered exactly once.  If it also passes validation, its trace is: the
    browser work, which holds no response and no cleanup call; then the one
    response; then the cleanup calls that the variables at that point call
    for.  So the response never waits for the cleanup, and the cleanup
    never changes what was answered.  A request with a field that cannot be
    converted ends at the first log line: the handler throws, and the
    request has no response and no call. *)
Theorem one_response_then_cleanup (w : world) (req : request) :
  (loggable req = true -> exists r, responses (trace w req) = [r]) /\
  (loggable req = false ->
   trace w req = [] /\
   outcome (handle w req)
   = Throw (TypeError "Cannot convert object to primitive value")) /\
  (valid req ->
   exists calls r,
     trace w req =
     (calls ++ [Respond r] ++ cleanup_calls (final (handle w req)))%list /\
     responses calls = [] /\ teardown calls = []).
Proof.
  assert (S : valid req ->
              exists calls r,
                trace w req =
                (calls ++ [Respond r]
                 ++ cleanup_calls (final (handle w req)))%list /\
                responses calls = [] /\ teardown calls = []).
  { intros V. unfold trace. rewrite (handle_run w req V).
    cbn [outcome final emitted].
    set (T := scrape_try w (url_of req) (selector_of req) (method_of req)
                null_vars).
    pose proof (scrape_try_answered w (url_of req) (selector_of req)
                  (method_of req) null_vars) as An.
    pose proof (scrape_try_emits w (url_of req) (selector_of req)
                  (method_of req)) as Em.
    apply (emits_weaken _ (fun e => negb (is_teardown e)))
      in Em; [| apply try_event_not_teardown].
    specialize (Em null_vars). apply teardown_none in Em.
    fold T in An, Em. unfold answered in An.
    destruct (outcome T) as [x | | err].
    - destruct An as (calls & r & E & Hc). rewrite E in *.
      exists calls, r. rewrite teardown_responses_free in Em.
      cbn [app]. now rewrite <- app_assoc.
    - destruct An as (calls & r & E & Hc). rewrite E in *.
      exists calls, r. rewrite teardown_responses_free in Em.
      cbn [app]. now rewrite <- app_assoc.
    - exists (emitted T), (failure_response w req err). now repeat split. }
  split; [| split; [| exact S]].
  - intros Hl. destruct (valid_dec req) as [V | [[_ NV] | NL]].
    + destruct (S V) as (calls & r & -> & Hc & _). exists r.
      now rewrite !responses_app, Hc, responses_cleanup.
    + unfold trace. rewrite (handle_invalid w req Hl NV). now eexists.
    + congruence.
  - intros NL. unfold trace. now rewrite (handle_unloggable w req NL).
Qed.

Lemma one_response_then_cleanup_witness :
  (valid Sample.css_request /\
   exists calls r,
     trace Sample.calm Sample.css_request =
     (calls ++ [Respond r]
      ++ cleanup_calls (final (handle Sample.calm Sample.css_request)))%list /\
     responses calls = [] /\ teardown calls = []) /\
  (loggable Sample.unprintable = false /\
   trace Sample.calm Sample.unprintable = []).
Proof.
  assert (V : valid Sample.css_request) by (repeat split; reflexivity).
  assert (NL : loggable Sample.unprintable = false) by reflexivity.
  destruct (one_response_then_cleanup Sample.calm Sample.css_request)
    as (_ & _ & H).
  destruct (one_response_then_cleanup Sample.calm Sample.unprintable)
    as (_ & U & _).
  split; [split; [exact V | exact (H V)] |].
  split; [exact NL | exact (proj1 (U NL))].
Defined.

(* ===================================================================== *)
(** ** Failures on the way *)

(** X2.  When the profile directory is created but the browser does not
    launch, the request is answered with the failure response for the launch
    error and the directory is removed again; no page or browser close is
    attempted.  When the directory cannot be created, the request is
    answered with that error and there is nothing to clean up. *)
Theorem cleanup_when_launch_fails (w : world) (req : request) :
  valid req ->
  (forall suffix e,
     mkdtemp w = Resolve suffix -> launched w = Reject e ->
     trace w req =
     [MkdtempSync (tmp_prefix w); Launch (tmp_prefix w ++ suffix) 60000;
      Respond (failure_response w req e);
      RemoveDir (tmp_prefix w ++ suffix)]) /\
  (forall e,
     mkdtemp w = Reject e ->
     trace w req =
     [MkdtempSync (tmp_prefix w); Respond (failure_response w req e)]).
Proof.
  intros V. unfold trace. rewrite (handle_run w req V). split.
  - intros suffix e Hd Hl.
    assert (T : scrape_try w (url_of req) (selector_of req) (method_of req)
                  null_vars =
                Run (Throw e)
                    {| browser := None; page := None;
                       userDataDir := Some (tmp_prefix w ++ suffix) |}
                    [MkdtempSync (tmp_prefix w);
                     Launch (tmp_prefix w ++ suffix) 60000]).
    { unfold scrape_try. rewrite bind_run.
      unfold launch_browser, bind, call. now rewrite Hd, Hl. }
    rewrite T. cbn [outcome final emitted]. unfold cleanup_calls.
    cbn [page browser userDataDir]. now rewrite profile_dir_nonempty.
  - intros e Hd.
    assert (T : scrape_try w (url_of req) (selector_of req) (method_of req)
                  null_vars =
                Run (Throw e) null_vars [MkdtempSync (tmp_prefix w)]).
    { unfold scrape_try. rewrite bind_run.
      unfold launch_browser, bind, call. now rewrite Hd. }
    rewrite T. reflexivity.
Qed.

Lemma cleanup_when_launch_fails_witness :
  valid Sample.css_request /\
  teardown (trace Scenario.no_browser Sample.css_request) =
  [RemoveDir "/tmp/puppeteer-user-data-Xk3p9Q"].
Proof.
  assert (V : valid Sample.css_request) by (repeat split; reflexivity).
  split; [exact V |].
  rewrite (proj1 (cleanup_when_launch_fails Scenario.no_browser
                    Sample.css_request V)
             "Xk3p9Q" _ eq_refl eq_refl).
  reflexivity.
Defined.

Lemma lead_up_side_or_known (w : world) (req : request) (v : vars)
    (P : event -> bool) :
  (forall e, is_side_effect e = true -> P e = true) ->
  P (MkdtempSync (tmp_prefix w)) = true ->
  (forall d, P (Launch d 60000) = true) ->
  P NewPage = true -> P (SetViewport 1280 720) = true ->
  P (SetUserAgent user_agent_string) = true ->
  (forall ms, P (Delay ms) = true) ->
  P (Goto (url_of req) 45000) = true ->
  P (MouseMove 100 100) = true -> P (ScrollBy 0 200) = true ->
  forallb P (lead_up w req v) = true.
Proof.
  intros Hs H1 H2 H3 H4 H5 H6 H7 H8 H9. unfold lead_up.
  rewrite !forallb_app. cbn [forallb].
  rewrite H1, H2, (Hs Targets eq_refl), H3, H4, H5, !H6, H7, H8, H9.
  cbn. rewrite andb_true_r.
  pose proof (maybe_duplicate_tab_emits w (url_of req) v) as F.
  rewrite forallb_forall in *. intros e He. apply Hs. now apply F.
Qed.

(** X3.  When waiting for the CSS selector yields an element but reading
    its outer markup fails, the request is answered with the failure
    response for that error, and the handler never disposes of the element
    handle: only the closing of the page and the browser lets go of it. *)
Theorem handle_not_disposed_when_read_fails (w : world) (req : request)
    (first : Node) (others : list Node) (e : error) :
  is_string (method_of req) "xpath" = false ->
  ready_to_extract w req ->
  selector_wait w = Puppeteer.Appears first others ->
  outer_html w = Reject e ->
  responses (trace w req) = [failure_response w req e] /\
  In (ReadOuterHTML {| element := first |}) (trace w req) /\
  forallb (fun ev => negb (is_dispose ev)) (trace w req) = true.
Proof.
  intros Hx R Hw Ho.
  pose proof R as [[[V [[suffix Hm] [b Hl]]] _] _].
  set (v := session_vars w suffix b).
  assert (T : trace w req =
              (lead_up w req v
               ++ [WaitForSelector (selector_of req) 15000;
                   ReadOuterHTML {| element := first |};
                   Respond (failure_response w req e)]
               ++ cleanup_calls v)%list).
  { unfold trace.
    rewrite (handle_run w req V), (scrape_try_ready w req suffix b R Hm Hl).
    fold v. cbn [outcome final emitted].
    assert (X : extract w (selector_of req) (method_of req) v =
                Run (Throw e) v
                  [WaitForSelector (selector_of req) 15000;
                   ReadOuterHTML {| element := first |}]).
    { unfold extract. rewrite Hx.
      unfold extract_css, bind, call, Puppeteer.waitForSelector.
      now rewrite Hw, Ho. }
    rewrite X. cbn [outcome final emitted]. now rewrite <- app_assoc. }
  rewrite T. split; [| split].
  - now rewrite !responses_app, responses_lead_up, responses_cleanup.
  - apply in_or_app. right. cbn. auto.
  - rewrite !forallb_app. rewrite lead_up_side_or_known; try reflexivity.
    + cbn. apply forallb_forall. intros ev Hev.
      pose proof (cleanup_calls_teardown v) as F.
      rewrite forallb_forall in F. specialize (F ev Hev). now destruct ev.
    + intros ev. now destruct ev.
Qed.

Lemma handle_not_disposed_witness :
  ready_to_extract Scenario.detached Sample.css_request /\
  map status (responses (trace Scenario.detached Sample.css_request)) = [500] /\
  forallb (fun ev => negb (is_dispose ev))
    (trace Scenario.detached Sample.css_request) = true.
Proof.
  assert (R : ready_to_extract Scenario.detached Sample.css_request).
  { repeat split; try reflexivity; try (now eexists); discriminate. }
  split; [exact R |].
  destruct (handle_not_disposed_when_read_fails Scenario.detached
              Sample.css_request Sample.h1 [] _ eq_refl R eq_refl eq_refl)
    as (Hr & _ & Hd).
  split; [now rewrite Hr | exact Hd].
Defined.

(** X4.  The extraction method is chosen by strict comparison with the
    string "xpath": an XPath evaluation happens only for that exact value,
    and a selector wait only for any other value (none given, "css",
    another spelling, a value that is not a string).  A request that gets
    as far as extraction starts the one that its method selects, on its own
    selector. *)
Theorem extraction_method_dispatch (w : world) (req : request) :
  (forall s, In (EvaluateXPath s) (trace w req) ->
             method_of req = JStr "xpath") /\
  (forall s t, In (WaitForSelector s t) (trace w req) ->
               method_of req <> JStr "xpath") /\
  (ready_to_extract w req ->
   if is_string (method_of req) "xpath"
   then In (EvaluateXPath (selector_of req)) (trace w req)
   else In (WaitForSelector (selector_of req) 15000) (trace w req)).
Proof.
  split; [| split].
  - intros s Hin.
    destruct (trace_cases w req _ Hin) as [H | [H | [[err H] | H]]];
      try discriminate H.
    now apply is_string_eq.
  - intros s t Hin Hm.
    destruct (trace_cases w req _ Hin) as [H | [H | [[err H] | H]]];
      try discriminate H.
    cbn in H. apply is_string_eq in Hm. now rewrite Hm in H.
  - intros R. pose proof R as [[[V [[suffix Hm] [b Hl]]] _] _].
    unfold trace.
    rewrite (handle_run w req V), (scrape_try_ready w req suffix b R Hm Hl).
    cbn [outcome final emitted]. unfold extract.
    destruct (is_string (method_of req) "xpath").
    + apply in_or_app. left. apply in_or_app. right.
      unfold extract_xpath. rewrite bind_run.
      destruct (Puppeteer.evaluate _); cbn; auto.
    + apply in_or_app. left. apply in_or_app. right.
      unfold extract_css. rewrite bind_run.
      destruct (Puppeteer.waitForSelector _ _ _); cbn; auto.
Qed.

(** A method spelled "XPATH" selects the CSS path. *)
Lemma extraction_method_dispatch_witness :
  ready_to_extract Sample.calm Scenario.capitals /\
  In (WaitForSelector (JStr "h1") 15000) (trace Sample.calm Scenario.capitals).
Proof.
  assert (R : ready_to_extract Sample.calm Scenario.capitals).
  { repeat split; try reflexivity; try (now eexists); discriminate. }
  split; [exact R |].
  exact (proj2 (proj2 (extraction_method_dispatch Sample.calm
                         Scenario.capitals)) R).
Defined.

(* ===================================================================== *)
(** ** Fixed delays *)

Lemma total_delay_app (l l' : list event) :
  total_delay (l ++ l') = (total_delay l + total_delay l')%N.
Proof.
  induction l as [| e l IH]; [reflexivity |].
  destruct e; cbn [app total_delay]; rewrite ?IH; trivial.
  now rewrite N.add_assoc.
Qed.

Lemma total_delay_none (l : list event) :
  forallb (fun e => negb (is_delay e)) l = true -> total_delay l = 0%N.
Proof.
  induction l as [| e l IH]; [reflexivity |].
  cbn [forallb]. intros H. apply andb_prop in H. destruct H as [He Hl].
  destruct e; cbn; auto. discriminate He.
Qed.

Lemma extract_no_delay (w : world) (selector method : value) :
  emits (fun e => negb (is_delay e)) (extract w selector method).
Proof.
  unfold extract, extract_xpath, extract_css, res_json, res_type_send,
    res_status_json.
  destruct (is_string method "xpath").
  - step_through.
  - apply emits_bind; [step_through |]. intros [handle |]; step_through.
Qed.

(** X5.  A request that gets as far as extraction has spent, besides the
    browser's own time, the fixed delays of the handler: 3 seconds before
    navigation and 2 seconds after it for a CSS request, 5 seconds after it
    for an XPath request.  The side effect, the extraction, the failure
    response and the cleanup add no fixed delay. *)
Theorem fixed_delays (w : world) (req : request) :
  ready_to_extract w req ->
  total_delay (trace w req) =
  if is_string (method_of req) "xpath" then 8000%N else 5000%N.
Proof.
  intros R. pose proof R as [[[V [[suffix Hm] [b Hl]]] _] _].
  unfold trace.
  rewrite (handle_run w req V), (scrape_try_ready w req suffix b R Hm Hl).
  cbn [outcome final emitted]. set (v := session_vars w suffix b).
  rewrite !total_delay_app.
  rewrite (total_delay_none (emitted (extract _ _ _ _)))
    by apply extract_no_delay.
  rewrite (total_delay_none (cleanup_calls v)).
  2:{ apply forallb_forall. intros e He.
      pose proof (cleanup_calls_teardown v) as F.
      rewrite forallb_forall in F. specialize (F e He). now destruct e. }
  assert (C : total_delay
                match outcome (extract w (selector_of req) (method_of req) v) with
                | Throw err => [Respond (failure_response w req err)]
                | _ => []
                end = 0%N) by now destruct (outcome _).
  rewrite C. unfold lead_up. rewrite !total_delay_app.
  rewrite (total_delay_none (emitted (maybe_duplicate_tab _ _ _))).
  2:{ pose proof (maybe_duplicate_tab_emits w (url_of req) v) as F.
      rewrite forallb_forall in *. intros e He. specialize (F e He).
      now destruct e. }
  now destruct (is_string (method_of req) "xpath").
Qed.

Lemma fixed_delays_witness :
  ready_to_extract Sample.calm Sample.xpath_request /\
  total_delay (trace Sample.calm Sample.xpath_request) = 8000%N.
Proof.
  assert (R : ready_to_extract Sample.calm Sample.xpath_request).
  { repeat split; try reflexivity; try (now eexists); discriminate. }
  split; [exact R |].
  exact (fixed_delays Sample.calm Sample.xpath_request R).
Defined.

(* ===================================================================== *)
(** ** An exception in the page *)

(** X6.  When [document.evaluate] throws in the page (an expression that is
    not valid XPath, for one), the request sends no payload: its one
    response is the failure response, whose details are the message of the
    exception behind the words "XPath evaluation failed in browser: ", and
    whose type is Error whatever the exception was. *)
Theorem xpath_exception_is_reported (w : world) (req : request)
    (thrown : error) :
  is_string (method_of req) "xpath" = true ->
  ready_to_extract w req ->
  document_evaluate w = Resolve (Reject thrown) ->
  responses (trace w req) =
  [{| status := statusCode (xpath_failure thrown);
      content_type := "application/json";
      sent := Json (json (JObj
                [("error", JStr "Scraping failed");
                 ("details", JStr ("XPath evaluation failed in browser: "
                                   ++ message thrown));
                 ("type", JStr "Error");
                 ("stack", if verbose w (debug_of req)
                           then JStr (stack (xpath_failure thrown))
                           else JUndefined)])) |}].
Proof.
  intros Hx R He. pose proof R as [[[V [[suffix Hm] [b Hl]]] _] _].
  unfold trace.
  rewrite (handle_run w req V), (scrape_try_ready w req suffix b R Hm Hl).
  cbn [outcome final emitted]. set (v := session_vars w suffix b).
  assert (X : extract w (selector_of req) (method_of req) v =
              Run (Throw (xpath_failure thrown)) v
                [EvaluateXPath (selector_of req)]).
  { unfold extract. rewrite Hx. unfold extract_xpath, bind, call.
    now rewrite He. }
  rewrite X. cbn [outcome final emitted].
  now rewrite !responses_app, responses_lead_up, responses_cleanup.
Qed.

Lemma xpath_exception_witness :
  ready_to_extract Scenario.bad_expression Sample.xpath_request /\
  map status (responses (trace Scenario.bad_expression Sample.xpath_request))
  = [400].
Proof.
  assert (R : ready_to_extract Scenario.bad_expression Sample.xpath_request).
  { repeat split; try reflexivity; try (now eexists); discriminate. }
  split; [exact R |].
  now rewrite (xpath_exception_is_reported Scenario.bad_expression
                 Sample.xpath_request _ eq_refl R eq_refl).
Defined.

(* ===================================================================== *)
(** ** The command to the extension *)

Lemma duplicate_callback_object (r : reply) (props : list (string * value)) :
  lastError r = None -> responded r = JObj props ->
  duplicate_callback r =
  if truthy (lookup "success" props) then Some (Resolve (JObj props))
  else
    let reason := if truthy (lookup "error" props) then lookup "error" props
                  else JStr "Unknown error" in
    if convertible reason then Some (Reject (Error (to_string reason)))
    else None.
Proof.
  unfold duplicate_callback, ToString. intros -> ->. cbn.
  destruct (truthy (lookup "success" props)); [reflexivity |].
  now destruct (convertible _).
Qed.

Lemma duplicate_callback_falsy (r : reply) :
  lastError r = None -> truthy (responded r) = false ->
  duplicate_callback r = Some (Reject (Error "No response from extension")).
Proof.
  unfold duplicate_callback.
  intros -> Hf. destruct (responded r); try discriminate Hf; try reflexivity.
  - cbn in Hf. now rewrite Hf.
  - cbn in *.
    destruct (String.eqb (num_text n) "0" || String.eqb (num_text n) "NaN");
      [reflexivity | discriminate].
  - cbn in *. destruct (String.eqb s EmptyString); [reflexivity | discriminate].
Qed.

(** What a response that is neither an object nor falsy leads to: it has
    no [success] and no [error]. *)
Lemma duplicate_callback_primitive (r : reply) :
  lastError r = None ->
  (forall props, responded r <> JObj props) ->
  exists msg, duplicate_callback r = Some (Reject (Error msg)).
Proof.
  unfold duplicate_callback, ToString. intros -> H.
  destruct (responded r) as [| | b | n | s | items | props]; cbn;
    try (eexists; reflexivity).
  - destruct b; eexists; reflexivity.
  - destruct (negb _); eexists; reflexivity.
  - destruct (negb _); eexists; reflexivity.
  - now destruct (H props).
Qed.

Lemma duplicate_callback_resolves (r : reply) (result : value) :
  duplicate_callback r = Some (Resolve result) ->
  lastError r = None /\ responded r = result /\
  exists props, result = JObj props /\ truthy (lookup "success" props) = true.
Proof.
  intros H. destruct (lastError r) as [msg |] eqn:Hl.
  { unfold duplicate_callback in H. rewrite Hl in H. discriminate H. }
  split; [reflexivity |].
  destruct (responded r) as [| | b | n | s | items | props] eqn:Hr;
    try (destruct (duplicate_callback_primitive r Hl) as [msg E];
         [intros props; rewrite Hr; discriminate | congruence]).
  rewrite (duplicate_callback_object r props Hl Hr) in H. cbn zeta in H.
  destruct (truthy (lookup "success" props)) eqn:Hs.
  - injection H as <-. split; [reflexivity |]. now exists props.
  - destruct (convertible _); discriminate H.
Qed.

Lemma duplicate_callback_pending (r : reply) :
  duplicate_callback r = None ->
  lastError r = None /\
  exists props,
    responded r = JObj props /\ truthy (lookup "success" props) = false /\
    convertible (lookup "error" props) = false.
Proof.
  intros H. destruct (lastError r) as [msg |] eqn:Hl.
  { unfold duplicate_callback in H. rewrite Hl in H. discriminate H. }
  split; [reflexivity |].
  destruct (responded r) as [| | b | n | s | items | props] eqn:Hr;
    try (destruct (duplicate_callback_primitive r Hl) as [msg E];
         [intros props; rewrite Hr; discriminate | congruence]).
  rewrite (duplicate_callback_object r props Hl Hr) in H. cbn zeta in H.
  exists props. split; [reflexivity |].
  destruct (truthy (lookup "success" props)); [discriminate H |].
  split; [reflexivity |].
  destruct (truthy (lookup "error" props)); [| discriminate H].
  now destruct (convertible (lookup "error" props)).
Qed.

(** X7.  The callback of the [duplicateTab] message reports the most
    specific failure: a channel error ([chrome.runtime.lastError]) wins over
    whatever the response holds; without one, a missing or falsy response is
    "No response from extension"; an object whose [success] is falsy is
    rejected with its [error] text, or with "Unknown error" when it has
    none; and only an object whose [success] is truthy resolves, to that
    object.  The callback settles the promise in every case but one: when
    the [error] of a refusal cannot be converted to a string, the [Error]
    constructor throws and the promise is left pending. *)
Theorem command_reply_classification (r : reply) :
  (forall msg, lastError r = Some msg ->
               duplicate_callback r = Some (Reject (Error msg))) /\
  (lastError r = None -> truthy (responded r) = false ->
   duplicate_callback r = Some (Reject (Error "No response from extension"))) /\
  (forall props,
     lastError r = None -> responded r = JObj props ->
     duplicate_callback r =
     if truthy (lookup "success" props) then Some (Resolve (JObj props))
     else
       let reason := if truthy (lookup "error" props) then lookup "error" props
                     else JStr "Unknown error" in
       if convertible reason then Some (Reject (Error (to_string reason)))
       else None) /\
  (forall result,
     duplicate_callback r = Some (Resolve result) ->
     lastError r = None /\ responded r = result /\
     exists props, result = JObj props /\
                   truthy (lookup "success" props) = true) /\
  (duplicate_callback r = None ->
   lastError r = None /\
   exists props,
     responded r = JObj props /\ truthy (lookup "success" props) = false /\
     convertible (lookup "error" props) = false).
Proof.
  split; [| split; [| split; [| split]]].
  - unfold duplicate_callback. now intros msg ->.
  - apply duplicate_callback_falsy.
  - intros props. apply duplicate_callback_object.
  - intros result. apply duplicate_callback_resolves.
  - apply duplicate_callback_pending.
Qed.

(** A refusal that carries a reason is rejected with that reason; one whose
    reason is an object with a property [toString] leaves the promise
    pending. *)
Lemma command_reply_refused :
  duplicate_callback Scenario.refused = Some (Reject (Error "No active tab")) /\
  duplicate_callback Scenario.refused_unprintable = None.
Proof.
  destruct (command_reply_classification Scenario.refused) as (_ & _ & H & _).
  destruct (command_reply_classification Scenario.refused_unprintable)
    as (_ & _ & U & _).
  split; [exact (H _ eq_refl eq_refl) | exact (U _ eq_refl eq_refl)].
Defined.

Lemma visited_incl (l : list Target) (t : Target) :
  In t (visited l) -> In t l.
Proof.
  induction l as [| x l IH]; [intros [] |].
  cbn [visited]. destruct (confirms x).
  - intros [<- | []]. now left.
  - intros [<- | H]; [now left | right; auto].
Qed.

Lemma probe_urls (t : Target) (e : event) (u : string) :
  In e (probe t) -> helper_call_url e = Some u -> u = target_url t.
Proof.
  intros H Hu. unfold probe in H.
  destruct (worker t); cbn in H; repeat (destruct H as [<- | H]);
    try contradiction; cbn in Hu; now injection Hu.
Qed.

Lemma probe_no_command (l : list Target) :
  filter is_command (flat_map probe l) = [].
Proof.
  induction l as [| t l IH]; [reflexivity |].
  cbn [flat_map]. rewrite filter_app, IH, app_nil_r.
  unfold probe. now destruct (worker t).
Qed.

(** X8.  The helper resolves only in one way: some candidate confirmed the
    identity, its worker context attached a second time, the command came
    back without a channel error with an object whose [success] is truthy,
    and the [newTabId] of that object can be converted to a string for the
    log line; the helper then resolves to that object.  In every other
    case it throws. *)
Theorem helper_resolves_only_on_success (w : world) (v : vars) (result : value) :
  outcome (duplicateTabViaExtension w v) = Normal result <->
  exists found r props,
    find confirms (filter is_extension_service_worker (targets w)) = Some found /\
    worker_again found = Resolve tt /\
    duplicateTab found = Resolve r /\
    lastError r = None /\ responded r = result /\
    result = JObj props /\ truthy (lookup "success" props) = true /\
    convertible (lookup "newTabId" props) = true.
Proof.
  rewrite duplicateTabViaExtension_run. cbn zeta.
  destruct (find confirms _) as [found |] eqn:F.
  - destruct (worker_again found) as [[] | e] eqn:Wa; cbn [outcome].
    + unfold send_duplicateTab.
      destruct (duplicateTab found) as [r | e] eqn:Dt.
      * destruct (duplicate_callback r) as [[res | e] |] eqn:D.
        -- destruct (duplicate_callback_resolves r res D)
             as (Hl & Hr & props & Hp & Hs).
           subst res. rewrite Hp. cbn [get].
           destruct (convertible (lookup "newTabId" props)) eqn:C.
           ++ split.
              ** intros [= <-]. exists found, r, props.
                 repeat split; assumption.
              ** intros (f & r' & props' & [= <-] & _ & Hd & _ & Hr' & _).
                 rewrite Dt in Hd. injection Hd as <-. congruence.
           ++ split; [discriminate |].
              intros (f & r' & props' & [= <-] & _ & Hd & _ & Hr' & Hp' & _ & C').
              rewrite Dt in Hd. injection Hd as <-.
              rewrite Hr' in Hp. rewrite Hp' in Hp. injection Hp as <-.
              congruence.
        -- split; [discriminate |].
           intros (f & r' & props' & [= <-] & _ & Hd & Hl & Hr' & Hp & Hs & _).
           rewrite Dt in Hd. injection Hd as <-.
           rewrite Hp in Hr'.
           rewrite (duplicate_callback_object r props' Hl Hr'), Hs in D.
           discriminate D.
        -- split; [discriminate |].
           intros (f & r' & props' & [= <-] & _ & Hd & Hl & Hr' & Hp & Hs & _).
           rewrite Dt in Hd. injection Hd as <-.
           rewrite Hp in Hr'.
           rewrite (duplicate_callback_object r props' Hl Hr'), Hs in D.
           discriminate D.
      * split; [discriminate |].
        intros (f & r' & props' & [= <-] & _ & H & _).
        rewrite Dt in H. discriminate H.
    + split; [discriminate |].
      intros (f & r' & props' & [= <-] & H & _).
      rewrite Wa in H. discriminate H.
  - split; [discriminate |].
    intros (f & r' & props' & H & _). discriminate H.
Qed.

Lemma helper_resolves_witness :
  outcome (duplicateTabViaExtension Sample.wsj_two null_vars) =
  Normal (JObj [("success", JBool true); ("newTabId", JNum (Number "7"))]).
Proof.
  apply (helper_resolves_only_on_success Sample.wsj_two null_vars).
  exists Sample.tab_duplicator, 
    {| responded := JObj [("success", JBool true);
                          ("newTabId", JNum (Number "7"))];
       lastError := None |},
    [("success", JBool true); ("newTabId", JNum (Number "7"))].
  repeat split.
Defined.

(** X9.  The helper talks to extension service workers only: every worker
    it attaches to and every message it sends goes to a target of type
    service_worker whose url contains "chrome-extension://".  It sends the
    [duplicateTab] command at most once per request, and only to the first
    candidate that confirmed the identity. *)
Theorem helper_calls_only_candidates (w : world) :
  (forall e u,
     In e (side_effect_calls w) -> helper_call_url e = Some u ->
     exists t, In t (targets w) /\ is_extension_service_worker t = true /\
               target_url t = u) /\
  List.length (filter is_command (side_effect_calls w)) <= 1 /\
  (forall u,
     In (SendDuplicateTab u) (side_effect_calls w) ->
     exists found,
       find confirms (filter is_extension_service_worker (targets w))
       = Some found /\ target_url found = u).
Proof.
  unfold side_effect_calls. rewrite duplicateTabViaExtension_run. cbn zeta.
  set (sws := filter is_extension_service_worker (targets w)).
  assert (C : forall t, In t sws ->
              exists t', In t' (targets w) /\
                         is_extension_service_worker t' = true /\
                         target_url t' = target_url t).
  { intros t Ht. apply filter_In in Ht. now exists t. }
  assert (P : forall l e u,
              (forall t, In t l -> In t sws) ->
              In e (flat_map probe l) -> helper_call_url e = Some u ->
              exists t, In t (targets w) /\
                        is_extension_service_worker t = true /\
                        target_url t = u).
  { intros l e u Hl He Hu. apply in_flat_map in He.
    destruct He as (t & Ht & He).
    rewrite (probe_urls t e u He Hu). apply C. now apply Hl. }
  assert (N : forall l u, ~ In (SendDuplicateTab u) (flat_map probe l)).
  { intros l u H. apply in_flat_map in H. destruct H as (t & _ & H).
    unfold probe in H. destruct (worker t); cbn in H;
      repeat (destruct H as [H | H]; try discriminate H); assumption. }
  destruct (find confirms sws) as [found |] eqn:F.
  - pose proof (find_some _ _ F) as [Hin _].
    destruct (worker_again found) as [[] | err]; cbn [emitted];
      (split; [| split]).
    + intros e u [<- | He] Hu; [discriminate Hu |].
      apply in_app_or in He. destruct He as [He | He].
      * apply (P (visited sws) e u); trivial. intros t. apply visited_incl.
      * destruct He as [<- | [<- | []]]; injection Hu as <-; now apply C.
    + cbn [filter is_command]. rewrite filter_app, probe_no_command. cbn. lia.
    + intros u [H | H]; [discriminate H |].
      apply in_app_or in H. destruct H as [H | H]; [now destruct (N _ _ H) |].
      destruct H as [H | [[= <-] | []]]; [discriminate H |]. now exists found.
    + intros e u [<- | He] Hu; [discriminate Hu |].
      apply in_app_or in He. destruct He as [He | He].
      * apply (P (visited sws) e u); trivial. intros t. apply visited_incl.
      * destruct He as [<- | []]; injection Hu as <-; now apply C.
    + cbn [filter is_command]. rewrite filter_app, probe_no_command. cbn. lia.
    + intros u [H | H]; [discriminate H |].
      apply in_app_or in H. destruct H as [H | H]; [now destruct (N _ _ H) |].
      destruct H as [H | []]. discriminate H.
  - cbn [emitted]. split; [| split].
    + intros e u [<- | He] Hu; [discriminate Hu |].
      now apply (P sws e u).
    + cbn [filter is_command]. rewrite probe_no_command. cbn. lia.
    + intros u [H | H]; [discriminate H | now destruct (N _ _ H)].
Qed.

Lemma helper_calls_only_candidates_witness :
  In (SendDuplicateTab "chrome-extension://cccc/background.js")
     (side_effect_calls Sample.wsj_two) /\
  exists found,
    find confirms (filter is_extension_service_worker (targets Sample.wsj_two))
    = Some found /\
    target_url found = "chrome-extension://cccc/background.js".
Proof.
  assert (I : In (SendDuplicateTab "chrome-extension://cccc/background.js")
                 (side_effect_calls Sample.wsj_two)).
  { vm_compute. do 6 right. now left. }
  split; [exact I |].
  destruct (helper_calls_only_candidates Sample.wsj_two) as (_ & _ & H).
  exact (H _ I).
Defined.

(* ===================================================================== *)
(** ** The extension: listener and popup *)

(** X10.  The listener calls [sendResponse] at most once, and only with
    [{success: true, newTabId}] where [newTabId] is the id of the tab that
    [chrome.tabs.duplicate] handed back for the first active tab: it never
    reports a failure.  It returns [true], which keeps the message channel
    open, exactly for the [duplicateTab] action, also when no reply will
    come: with no active tab, or when duplication hands back no tab, the
    callback ends in a TypeError and nothing is sent. *)
Theorem listener_reply_shape (c : Background.chrome) (request : value) :
  List.length (Background.sendResponse (Background.onMessage c request)) <= 1 /\
  (forall reply,
     In reply (Background.sendResponse (Background.onMessage c request)) ->
     exists tabId newTabId,
       get (nth 0 (Background.query c) JUndefined) "id" = Some tabId /\
       get (Background.duplicate c tabId) "id" = Some newTabId /\
       reply = JObj [("success", JBool true); ("newTabId", newTabId)]) /\
  (Background.returned (Background.onMessage c request) = JBool true <->
   get request "action" = Some (JStr "duplicateTab")) /\
  (get request "action" = Some (JStr "duplicateTab") ->
   Background.query c = [] \/
   (forall tabId, Background.duplicate c tabId = JUndefined) ->
   Background.sendResponse (Background.onMessage c request) = [] /\
   Background.uncaught (Background.onMessage c request)
   = Some (Background.reading "id")).
Proof.
  unfold Background.onMessage.
  destruct (get request "action") as [action |] eqn:A.
  2:{ cbn. repeat split; try lia; try discriminate; now intros. }
  destruct (is_string action "duplicateTab") eqn:E.
  - apply is_string_eq in E. subst action.
    destruct (get (nth 0 (Background.query c) JUndefined) "id") as [tabId |] eqn:T.
    + destruct (get (Background.duplicate c tabId) "id") as [newTabId |] eqn:D.
      * cbn. split; [lia |]. split; [| split; [now split |]].
        -- intros reply [<- | []]. now exists tabId, newTabId.
        -- intros _ [Q | Q].
           ++ rewrite Q in T. discriminate T.
           ++ rewrite Q in D. discriminate D.
      * cbn. split; [lia |]. split; [now intros |]. split; [now split |].
        intros _ [Q | Q]; [rewrite Q in T; discriminate T |].
        now rewrite Q.
    + cbn. split; [lia |]. split; [now intros |]. split; [now split |].
      intros _ _. split; [reflexivity |].
      unfold Background.query in *.
      destruct (Background.active_tabs c); [reflexivity | discriminate T].
  - cbn. split; [lia |]. split; [now intros |]. split.
    + split; [discriminate |]. intros [= ->]. discriminate E.
    + intros [= ->]. discriminate E.
Qed.

Lemma listener_reply_shape_witness :
  get Popup.message "action" = Some (JStr "duplicateTab") /\
  Background.sendResponse
    (Background.onMessage
       {| Background.active_tabs := []; Background.duplicate := fun _ => JUndefined |}
       Popup.message) = [] /\
  Background.returned
    (Background.onMessage
       {| Background.active_tabs := []; Background.duplicate := fun _ => JUndefined |}
       Popup.message) = JBool true.
Proof.
  assert (A : get Popup.message "action" = Some (JStr "duplicateTab"))
    by reflexivity.
  split; [exact A |].
  destruct (listener_reply_shape
              {| Background.active_tabs := [];
                 Background.duplicate := fun _ => JUndefined |}
              Popup.message) as (_ & _ & R & N).
  split; [exact (proj1 (N A (or_introl eq_refl))) | now apply R].
Defined.

(** X11.  Both senders of the [duplicateTab] message accept every reply the
    listener sends: the callback in the server resolves to the reply, so
    the helper never fails with the reply's [error] text or with "Unknown
    error" against this extension, and the callback of the popup logs the
    new tab's id. *)
Theorem listener_replies_are_accepted (c : Background.chrome)
    (request reply : value) :
  In reply (Background.sendResponse (Background.onMessage c request)) ->
  duplicate_callback {| responded := reply; lastError := None |}
  = Some (Resolve reply) /\
  exists newTabId,
    get reply "newTabId" = Some newTabId /\
    Popup.callback reply = Resolve [JStr "Duplicated tab ID:"; newTabId].
Proof.
  intros H. unfold Background.onMessage in H.
  destruct (get request "action") as [action |]; [| destruct H].
  destruct (is_string action "duplicateTab"); [| destruct H].
  destruct (get (nth 0 (Background.query c) JUndefined) "id") as [tabId |];
    [| destruct H].
  destruct (get (Background.duplicate c tabId) "id") as [newTabId |];
    [| destruct H].
  destruct H as [<- | []].
  split; [reflexivity |]. now exists newTabId.
Qed.

Lemma listener_replies_are_accepted_witness :
  In (JObj [("success", JBool true); ("newTabId", JNum (Number "4"))])
     (Background.sendResponse (Background.onMessage Sample.tabs Popup.message))
  /\
  Popup.callback (JObj [("success", JBool true);
                        ("newTabId", JNum (Number "4"))])
  = Resolve [JStr "Duplicated tab ID:"; JNum (Number "4")].
Proof.
  assert (H : In (JObj [("success", JBool true);
                        ("newTabId", JNum (Number "4"))])
                (Background.sendResponse
                   (Background.onMessage Sample.tabs Popup.message))).
  { left. reflexivity. }
  split; [exact H |].
  destruct (listener_replies_are_accepted Sample.tabs Popup.message _ H)
    as (_ & id & G & C).
  injection G as <-. exact C.
Defined.

(** X12.  The popup's message is one the listener acts on.  Its callback
    reads [response.success] unguarded: a response that is [undefined] or
    [null] (what the callback gets when no reply came) makes it throw the
    TypeError of reading a property of that value, where the server's
    callback reports "No response from extension"; any other response
    without a truthy [success] is passed over in silence. *)
Theorem popup_callback_unguarded (c : Background.chrome) (response : value) :
  Background.returned (Background.onMessage c Popup.message) = JBool true /\
  Popup.callback JUndefined
  = Reject (TypeError "Cannot read properties of undefined (reading 'success')") /\
  Popup.callback JNull
  = Reject (TypeError "Cannot read properties of null (reading 'success')") /\
  (response = JUndefined \/ response = JNull ->
   duplicate_callback {| responded := response; lastError := None |}
   = Some (Reject (Error "No response from extension"))) /\
  (response <> JUndefined -> response <> JNull ->
   forall success, get response "success" = Some success ->
                   truthy success = false ->
   Popup.callback response = Resolve []).
Proof.
  split; [| split; [| split; [| split]]].
  - unfold Background.onMessage. cbn.
    destruct (get (nth 0 (Background.query c) JUndefined) "id") as [tabId |];
      [| reflexivity].
    now destruct (get (Background.duplicate c tabId) "id").
  - reflexivity.
  - reflexivity.
  - now intros [-> | ->].
  - intros Hu Hn success G Hs. unfold Popup.callback. rewrite G.
    destruct response; try (now destruct Hu); try (now destruct Hn);
      cbn; now rewrite Hs.
Qed.

Lemma popup_callback_unguarded_witness :
  duplicate_callback {| responded := JNull; lastError := None |}
  = Some (Reject (Error "No response from extension")) /\
  Popup.callback (JObj [("success", JBool false)]) = Resolve [].
Proof.
  destruct (popup_callback_unguarded Sample.tabs JNull) as (_ & _ & _ & H & _).
  destruct (popup_callback_unguarded Sample.tabs
              (JObj [("success", JBool false)])) as (_ & _ & _ & _ & K).
  split; [exact (H (or_intror eq_refl)) |].
  assert (Nu : JObj [("success", JBool false)] <> JUndefined) by discriminate.
  assert (Nn : JObj [("success", JBool false)] <> JNull) by discriminate.
  exact (K Nu Nn (JBool false) eq_refl eq_refl).
Defined.

(* ===================================================================== *)
(** ** The extension arguments *)

Lemma split_not_nil (sep : ascii) (s : string) : Args.split sep s <> [].
Proof.
  induction s as [| c s IH]; [discriminate |].
  cbn. destruct (Ascii.eqb c sep); [discriminate |].
  now destruct (Args.split sep s).
Qed.

Lemma split_pieces (sep : ascii) (s p : string) :
  In p (Args.split sep s) -> Args.has_char sep p = false.
Proof.
  revert p. induction s as [| c s IH]; intros p.
  - intros [<- | []]. reflexivity.
  - cbn. destruct (Ascii.eqb c sep) eqn:E.
    + intros [<- | H]; [reflexivity | now apply IH].
    + destruct (Args.split sep s) as [| piece pieces].
      * intros [<- | []]. cbn. now rewrite E.
      * intros [<- | H].
        -- cbn. rewrite E. apply IH. now left.
        -- apply IH. now right.
Qed.

Lemma split_one (sep : ascii) (a : string) :
  Args.has_char sep a = false -> Args.split sep a = [a].
Proof.
  induction a as [| c a IH]; [reflexivity |].
  cbn. intros H. apply orb_false_elim in H. destruct H as [E H].
  now rewrite E, (IH H).
Qed.

Lemma split_app (sep : ascii) (a rest : string) :
  Args.has_char sep a = false ->
  Args.split sep (a ++ String sep rest) = a :: Args.split sep rest.
Proof.
  induction a as [| c a IH]; cbn.
  - intros _. now rewrite Ascii.eqb_refl.
  - intros H. apply orb_false_elim in H. destruct H as [E H].
    now rewrite E, (IH H).
Qed.

Lemma split_join (sep : ascii) (l : list string) :
  l <> [] -> (forall p, In p l -> Args.has_char sep p = false) ->
  Args.split sep (join (String sep EmptyString) l) = l.
Proof.
  unfold join. induction l as [| a l IH]; [now intros [] |].
  intros _ H. destruct l as [| b l].
  - cbn. apply split_one. apply H. now left.
  - change (String.concat (String sep EmptyString) (a :: b :: l))
      with (a ++ String sep (String.concat (String sep EmptyString) (b :: l))).
    rewrite split_app by (apply H; now left).
    f_equal. apply IH; [discriminate |]. intros p Hp. apply H. now right.
Qed.

Lemma trimStart_clean (s : string) : Args.starts_clean (Args.trimStart s) = true.
Proof.
  induction s as [| c s IH]; [reflexivity |].
  cbn. destruct (Args.is_white_space c) eqn:E; [exact IH |].
  cbn. now rewrite E.
Qed.

Lemma trimStart_id (s : string) :
  Args.starts_clean s = true -> Args.trimStart s = s.
Proof.
  destruct s as [| c s]; [reflexivity |].
  cbn. now destruct (Args.is_white_space c).
Qed.

Lemma trimEnd_clean (s : string) : Args.ends_clean (Args.trimEnd s) = true.
Proof.
  induction s as [| c s IH]; [reflexivity |].
  cbn [Args.trimEnd]. destruct (Args.trimEnd s) as [| k ks].
  - destruct (Args.is_white_space c) eqn:E; [reflexivity |].
    cbn. now rewrite E.
  - exact IH.
Qed.

Lemma trimEnd_id (s : string) :
  Args.ends_clean s = true -> Args.trimEnd s = s.
Proof.
  induction s as [| c s IH]; [reflexivity |].
  destruct s as [| d s].
  - cbn. now destruct (Args.is_white_space c).
  - intros H. change (Args.ends_clean (String d s) = true) in H.
    cbn [Args.trimEnd] in *. now rewrite (IH H).
Qed.

Lemma trimEnd_starts (s : string) :
  Args.starts_clean s = true -> Args.starts_clean (Args.trimEnd s) = true.
Proof.
  destruct s as [| c s]; [reflexivity |].
  cbn [Args.starts_clean Args.trimEnd]. intros H.
  destruct (Args.trimEnd s); [| exact H].
  destruct (Args.is_white_space c) eqn:E; [discriminate H |].
  cbn. now rewrite E.
Qed.

Lemma trimStart_chars (c : ascii) (s : string) :
  Args.has_char c s = false -> Args.has_char c (Args.trimStart s) = false.
Proof.
  induction s as [| x s IH]; [reflexivity |].
  cbn. intros H. destruct (Args.is_white_space x); [| exact H].
  apply orb_false_elim in H. now apply IH.
Qed.

Lemma trimEnd_chars (c : ascii) (s : string) :
  Args.has_char c s = false -> Args.has_char c (Args.trimEnd s) = false.
Proof.
  induction s as [| x s IH]; [reflexivity |].
  cbn [Args.has_char Args.trimEnd]. intros H.
  apply orb_false_elim in H. destruct H as [E H]. specialize (IH H).
  assert (G : forall k, Args.has_char c k = false ->
                        Args.has_char c (String x k) = false).
  { intros k Hk. cbn. now rewrite E, Hk. }
  destruct (Args.trimEnd s).
  - destruct (Args.is_white_space x); [reflexivity |]. cbn. now rewrite E.
  - now apply G.
Qed.

Lemma trim_clean_id (p : string) : Args.clean p = true -> Args.trim p = p.
Proof.
  unfold Args.clean, Args.trim. intros H.
  apply andb_prop in H. destruct H as [H He].
  apply andb_prop in H. destruct H as [_ Hs].
  now rewrite (trimStart_id p Hs), (trimEnd_id p He).
Qed.

Lemma extensionPaths_of_clean (l : list string) :
  (forall p, In p l -> Args.clean p = true) ->
  Args.extensionPaths (join "," l) = l.
Proof.
  intros H. unfold Args.extensionPaths.
  destruct l as [| a l]; [reflexivity |].
  change "," with (String Args.comma EmptyString).
  rewrite split_join; [| discriminate |].
  2:{ intros p Hp. specialize (H p Hp). unfold Args.clean in H.
      apply andb_prop in H. destruct H as [H _].
      apply andb_prop in H. destruct H as [H _].
      apply andb_prop in H. destruct H as [_ H].
      now apply negb_true_iff in H. }
  assert (M : map Args.trim (a :: l) = a :: l).
  { clear -H. induction (a :: l) as [| x xs IH]; [reflexivity |].
    cbn. rewrite trim_clean_id by (apply H; now left).
    f_equal. apply IH. intros p Hp. apply H. now right. }
  rewrite M. clear M.
  induction (a :: l) as [| x xs IH]; [reflexivity |].
  cbn. assert (Hx : Args.clean x = true) by (apply H; now left).
  unfold Args.clean in Hx. apply andb_prop in Hx. destruct Hx as [Hx _].
  apply andb_prop in Hx. destruct Hx as [Hx _].
  apply andb_prop in Hx. destruct Hx as [Hx _].
  rewrite Hx. f_equal. apply IH. intros p Hp. apply H. now right.
Qed.

Lemma extensionPaths_clean (env p : string) :
  In p (Args.extensionPaths env) -> Args.clean p = true.
Proof.
  unfold Args.extensionPaths. intros H. apply filter_In in H.
  destruct H as [H Hn]. apply in_map_iff in H. destruct H as (q & <- & Hq).
  unfold Args.clean. rewrite Hn. cbn [andb].
  pose proof (split_pieces _ _ _ Hq) as Hc.
  unfold Args.trim.
  rewrite (trimEnd_chars _ _ (trimStart_chars _ _ Hc)).
  rewrite (trimEnd_starts _ (trimStart_clean q)).
  now rewrite trimEnd_clean.
Qed.

(** X13.  Every extension path that reaches the launch flags is clean: not
    empty, without a comma, without white space at either end; blank
    entries and stray commas of EXTENSION_PATHS are dropped.  The flags are a
    fixed point of the reading: reading the comma-joined paths again gives
    the same paths, in the same order. *)
Theorem extension_paths_are_normalised (env : string) :
  (forall p, In p (Args.extensionPaths env) -> Args.clean p = true) /\
  Args.extensionPaths (join "," (Args.extensionPaths env))
  = Args.extensionPaths env.
Proof.
  split.
  - intros p. apply extensionPaths_clean.
  - apply extensionPaths_of_clean. intros p. apply extensionPaths_clean.
Qed.

Lemma extension_paths_are_normalised_witness :
  Args.extensionPaths " /opt/a , ,/opt/b," = ["/opt/a"; "/opt/b"] /\
  Args.clean "/opt/b" = true.
Proof.
  split; [reflexivity |].
  apply (proj1 (extension_paths_are_normalised " /opt/a , ,/opt/b,")).
  right. now left.
Defined.

(** X14.  Joining and reading are inverse on clean paths: a list of clean
    paths, written with commas between them, is read back as itself.  On
    such a variable the current launch passes the same two flags as the
    earlier handler, which copies the variable into them unread. *)
Theorem extension_paths_round_trip (l : list string) :
  (forall p, In p l -> Args.clean p = true) ->
  Args.extensionPaths (join "," l) = l /\
  Args.extensionArgs (Some (join "," l))
  = Legacy.extensionArgs (Some (join "," l)).
Proof.
  intros H. split; [now apply extensionPaths_of_clean |].
  unfold Args.extensionArgs, Legacy.extensionArgs.
  now rewrite (extensionPaths_of_clean l H).
Qed.

Lemma extension_paths_round_trip_witness :
  (forall p, In p ["/opt/ext/bypass"; "/opt/ext/cookies"] ->
             Args.clean p = true) /\
  Args.extensionPaths "/opt/ext/bypass,/opt/ext/cookies"
  = ["/opt/ext/bypass"; "/opt/ext/cookies"].
Proof.
  assert (H : forall p, In p ["/opt/ext/bypass"; "/opt/ext/cookies"] ->
                        Args.clean p = true).
  { intros p [<- | [<- | []]]; reflexivity. }
  split; [exact H |].
  exact (proj1 (extension_paths_round_trip _ H)).
Defined.

Lemma trimStart_only (s : string) :
  Args.only Args.is_white_space (Args.trimStart s)
  = Args.only Args.is_white_space s.
Proof.
  induction s as [| c s IH]; [reflexivity |].
  cbn. destruct (Args.is_white_space c) eqn:E; [exact IH |].
  cbn. now rewrite E.
Qed.

Lemma trimEnd_empty (s : string) :
  Args.trimEnd s = EmptyString <-> Args.only Args.is_white_space s = true.
Proof.
  induction s as [| c s IH]; [now split |].
  cbn [Args.trimEnd Args.only]. destruct (Args.trimEnd s) as [| k ks].
  - rewrite (proj1 IH eq_refl), andb_true_r.
    destruct (Args.is_white_space c); split; auto; discriminate.
  - split; [discriminate |]. intros H. apply andb_prop in H.
    destruct H as [_ H]. apply IH in H. discriminate H.
Qed.

Lemma trim_empty (s : string) :
  Args.trim s = EmptyString <-> Args.only Args.is_white_space s = true.
Proof.
  unfold Args.trim. rewrite trimEnd_empty. now rewrite trimStart_only.
Qed.

Lemma split_blank (s : string) :
  forallb (Args.only Args.is_white_space) (Args.split Args.comma s)
  = Args.blank s.
Proof.
  unfold Args.blank. induction s as [| c s IH]; [reflexivity |].
  cbn [Args.split Args.only]. destruct (Ascii.eqb c Args.comma) eqn:E.
  - cbn. exact IH.
  - rewrite <- IH. pose proof (split_not_nil Args.comma s) as N.
    destruct (Args.split Args.comma s) as [| piece pieces]; [now destruct N |].
    cbn. now rewrite andb_assoc.
Qed.

Lemma extensionPaths_nil (env : string) :
  Args.extensionPaths env = [] <-> Args.blank env = true.
Proof.
  rewrite <- split_blank. unfold Args.extensionPaths.
  induction (Args.split Args.comma env) as [| q qs IH]; [now split |].
  cbn [map filter forallb].
  destruct (Args.only Args.is_white_space q) eqn:E.
  - apply trim_empty in E. rewrite E. cbn. exact IH.
  - destruct (Args.trim q) eqn:T.
    + apply trim_empty in T. congruence.
    + cbn. split; discriminate.
Qed.

Lemma join_clean_empty (l : list string) :
  (forall p, In p l -> Args.clean p = true) ->
  join "," l = EmptyString -> l = [].
Proof.
  destruct l as [| a l]; [reflexivity |]. intros H.
  assert (Ha : Args.clean a = true) by (apply H; now left).
  destruct a as [| c a]; [discriminate Ha |].
  unfold join. destruct l; discriminate.
Qed.

(** X15.  The launch arguments are the fixed ones exactly when
    EXTENSION_PATHS is unset or empty.  Any other value adds the two
    extension flags, and they carry an empty list exactly when the variable
    holds nothing but commas and white space: such a value is not treated
    as unset. *)
Theorem extension_args_of_blank_variable (env : string) :
  env <> EmptyString ->
  Args.launchArgs (Some env) <> Args.launchArgs None /\
  Args.launchArgs (Some EmptyString) = Args.launchArgs None /\
  (Args.extensionArgs (Some env)
   = ["--disable-extensions-except="; "--load-extension="]
   <-> Args.blank env = true).
Proof.
  intros Hne. apply String.eqb_neq in Hne.
  split; [| split].
  - unfold Args.launchArgs, Args.extensionArgs. rewrite Hne.
    intros H. apply app_inv_head in H. discriminate H.
  - reflexivity.
  - unfold Args.extensionArgs. rewrite Hne.
    rewrite <- extensionPaths_nil. split.
    + intros H. injection H as H _. apply join_clean_empty; [| exact H].
      intros p. apply extensionPaths_clean.
    + now intros ->.
Qed.

Lemma extension_args_of_blank_variable_witness :
  " , ," <> EmptyString /\
  Args.extensionArgs (Some " , ,")
  = ["--disable-extensions-except="; "--load-extension="].
Proof.
  assert (N : " , ," <> EmptyString) by discriminate.
  split; [exact N |].
  destruct (extension_args_of_blank_variable " , ," N) as (_ & _ & H).
  now apply H.
Defined.

(* ===================================================================== *)
(** ** The earlier handler *)

Lemma legacy_handle_unloggable (w : world) (req : request) :
  loggable req = false ->
  Legacy.handle w req =
  Run (Throw (TypeError "Cannot convert object to primitive value"))
      null_vars [].
Proof.
  intros H. unfold Legacy.handle, Legacy.scrape.
  fold (url_of req) (selector_of req) (method_of req) (debug_of req).
  now rewrite interpolate_bind, loggable_fields, H.
Qed.

Lemma legacy_handle_invalid (w : world) (req : request) :
  loggable req = true ->
  truthy (url_of req) = false \/ truthy (selector_of req) = false ->
  Legacy.handle w req = Run Return null_vars [Respond validation_response].
Proof.
  intros Hl H. unfold Legacy.handle, Legacy.scrape.
  fold (url_of req) (selector_of req) (method_of req) (debug_of req).
  rewrite interpolate_bind, loggable_fields, Hl.
  assert (E : negb (truthy (url_of req)) || negb (truthy (selector_of req)) = true).
  { destruct H as [-> | ->]; [reflexivity | apply orb_true_r]. }
  now rewrite E.
Qed.

Lemma legacy_handle_run (w : world) (req : request) :
  valid req ->
  let T := Legacy.scrape_try w (url_of req) (selector_of req) (method_of req)
             null_vars in
  Legacy.handle w req =
  Run match outcome T with Throw _ => Normal tt | o => o end
      (final T)
      (emitted T
       ++ match outcome T with
          | Throw err => [Respond (failure_response w req err)]
          | _ => []
          end
       ++ cleanup_calls (final T)).
Proof.
  intros (Hl & Hu & Hs) T. unfold Legacy.handle, Legacy.scrape.
  fold (url_of req) (selector_of req) (method_of req) (debug_of req).
  rewrite interpolate_bind, loggable_fields, Hl, Hu, Hs. cbn [negb orb].
  rewrite try_catch_finally_run, scrape_finally_run, try_catch_run.
  fold T. cbn [outcome final emitted].
  destruct (outcome T) eqn:E; cbn [outcome final emitted];
    rewrite ?scrape_finally_run; cbn [outcome final emitted].
  - destruct (T) as [o f l]; cbn in *; subst. reflexivity.
  - destruct (T) as [o f l]; cbn in *; subst. reflexivity.
  - unfold scrape_catch, res_status_json, emit. cbn [outcome final emitted].
    now rewrite <- app_assoc.
Qed.

Lemma legacy_launch_same (w : world) (v : vars) :
  outcome (Legacy.launch_browser w v) = outcome (launch_browser w v) /\
  final (Legacy.launch_browser w v) = final (launch_browser w v).
Proof.
  unfold Legacy.launch_browser, launch_browser, bind, call, set_userDataDir,
    set_browser, emit.
  destruct (mkdtemp w), (launched w); cbn; now split.
Qed.

Lemma legacy_navigate_same (w : world) (url : value) (v : vars) :
  outcome (Legacy.navigate w url v) = outcome (navigate w url v) /\
  final (Legacy.navigate w url v) = final (navigate w url v).
Proof.
  unfold Legacy.navigate, navigate, bind, call, set_page, emit, Puppeteer.goto.
  destruct (opened w), (viewport w), (user_agent w), (navigation w); cbn;
    now split.
Qed.

Lemma legacy_launch_silent (w : world) : silent (Legacy.launch_browser w).
Proof.
  intros v. unfold Legacy.launch_browser, bind, call, set_userDataDir,
    set_browser.
  destruct (mkdtemp w), (launched w); cbn; split; try reflexivity; discriminate.
Qed.

Lemma legacy_navigate_silent (w : world) (url : value) :
  silent (Legacy.navigate w url).
Proof.
  intros v. unfold Legacy.navigate, bind, call, set_page, emit, Puppeteer.goto.
  destruct (opened w), (viewport w), (user_agent w), (navigation w); cbn;
    split; try reflexivity; discriminate.
Qed.

Lemma legacy_extract_silent (w : world) (selector method : value) :
  silent (Legacy.extract w selector method).
Proof.
  intros v. unfold Legacy.extract, Legacy.extract_xpath, Legacy.extract_css.
  destruct (is_string method "xpath").
  - unfold call, Puppeteer.evaluate.
    destruct (document_evaluate w) as [[result | e] | e]; cbn;
      split; try reflexivity; discriminate.
  - unfold bind, call, throw, ret, Puppeteer.waitForSelector.
    destruct (selector_wait w) as [first others | | | e]; cbn;
      try (split; [reflexivity | discriminate]).
    destruct (outer_html w) as [[] | e]; cbn;
      try (split; [reflexivity | discriminate]).
    destruct (disposed w) as [[] | e]; cbn;
      split; try reflexivity; discriminate.
Qed.

Lemma legacy_extract_keeps (w : world) (selector method : value) :
  keeps (Legacy.extract w selector method).
Proof.
  unfold Legacy.extract, Legacy.extract_xpath, Legacy.extract_css.
  destruct (is_string method "xpath").
  - step_through.
  - apply keeps_bind; [step_through |]. intros [handle |]; step_through.
Qed.

Lemma res_json_answered (d : value) (v : vars) : answered (res_json d v).
Proof.
  unfold answered. cbn.
  now exists [], {| status := 200; content_type := "application/json";
                    sent := Json (json d) |}.
Qed.

Lemma legacy_scrape_try_answered (w : world) (url selector method : value)
    (v : vars) :
  answered (Legacy.scrape_try w url selector method v).
Proof.
  unfold Legacy.scrape_try.
  apply answered_bind; [apply legacy_launch_silent | intros _ v1].
  apply answered_bind; [apply legacy_navigate_silent | intros _ v2].
  apply answered_bind; [apply legacy_extract_silent | intros d v3].
  apply res_json_answered.
Qed.

Lemma legacy_scrape_try_emits (w : world) (url selector method : value) :
  emits legacy_try_event (Legacy.scrape_try w url selector method).
Proof.
  unfold Legacy.scrape_try, Legacy.launch_browser, Legacy.navigate,
    Legacy.extract, Legacy.extract_xpath, Legacy.extract_css, res_json,
    res_status_json.
  repeat (apply emits_bind; [| intros ?]).
  all: try (step_through; fail).
  destruct (is_string method "xpath"); [step_through |].
  apply emits_bind; [step_through |]. intros [handle |]; step_through.
Qed.

Lemma current_status_200 (method : value) (r : response) :
  try_event method (Respond r) = true -> status r = 200.
Proof.
  cbn. intros H. apply andb_prop in H. destruct H as [H _].
  now apply Nat.eqb_eq in H.
Qed.

(** The two extractions fail together, with the same error. *)
Lemma extract_same_failure (w : world) (selector method : value) (v : vars)
    (e : error) :
  outcome (extract w selector method v) = Throw e <->
  outcome (bind (Legacy.extract w selector method) res_json v) = Throw e.
Proof.
  unfold extract, Legacy.extract, extract_xpath, Legacy.extract_xpath,
    extract_css, Legacy.extract_css.
  destruct (is_string method "xpath").
  - unfold bind, call, res_json, res_status_json, emit, Puppeteer.evaluate,
      Legacy.xpath_in_page, xpath_in_page.
    destruct (document_evaluate w) as [[result | x] | x]; cbn; reflexivity.
  - unfold bind, call, res_json, res_status_json, res_type_send, emit, throw,
      ret, return_, Puppeteer.waitForSelector.
    destruct (selector_wait w) as [first others | | | x]; cbn;
      try reflexivity.
    destruct (outer_html w) as [[] | x]; cbn; try reflexivity.
    destruct (disposed w) as [[] | x]; cbn; try reflexivity.
    split; discriminate.
Qed.

(** Where the current handler's interaction and side effect do not fail,
    the two [try] blocks end with the same variables and fail together. *)
Lemma try_blocks_agree (w : world) (url selector method : value) :
  mouse w = Resolve tt -> scroll w = Resolve tt ->
  url_includes url "wsj.com/" <> None ->
  let T := scrape_try w url selector method null_vars in
  let L := Legacy.scrape_try w url selector method null_vars in
  final L = final T /\
  (forall e, outcome T = Throw e <-> outcome L = Throw e).
Proof.
  intros Hm Hs Hu. unfold scrape_try, Legacy.scrape_try. cbn zeta.
  rewrite (bind_run (launch_browser w)), (bind_run (Legacy.launch_browser w)).
  destruct (legacy_launch_same w null_vars) as [-> ->].
  set (v := final (launch_browser w null_vars)).
  destruct (outcome (launch_browser w null_vars)); cbn [outcome final];
    [| now split | now split].
  rewrite (bind_run (navigate w url)), (bind_run (Legacy.navigate w url)).
  destruct (legacy_navigate_same w url v) as [-> ->].
  destruct (outcome (navigate w url v)); cbn [outcome final];
    [| now split | now split].
  set (v' := final (navigate w url v)).
  rewrite (bind_run (maybe_duplicate_tab w url)).
  rewrite maybe_duplicate_tab_outcome, maybe_duplicate_tab_keeps.
  destruct (url_includes url "wsj.com/") as [hit |]; [| now destruct Hu].
  cbn [outcome final].
  rewrite (bind_run (settle w method)), settle_keeps.
  assert (So : outcome (settle w method v') = Normal tt).
  { unfold settle, bind, call, emit. now rewrite Hm, Hs. }
  rewrite So. cbn [outcome final].
  split.
  - rewrite extract_keeps.
    rewrite bind_run, legacy_extract_keeps.
    now destruct (outcome (Legacy.extract w selector method v')).
  - intros e. apply extract_same_failure.
Qed.

Lemma processNode_scalar (node : option Node) :
  as_array (processNode node) = [processNode node].
Proof.
  unfold processNode, node_value. destruct node as [node |]; [| reflexivity].
  repeat match goal with
         | |- context [if ?c then _ else _] => destruct c
         end; try reflexivity.
  all: now destruct (nodeValue node).
Qed.

Lemma processNode_not_array (node : option Node) (items : list value) :
  processNode node <> JArr items.
Proof.
  unfold processNode, node_value. destruct node as [node |]; [| discriminate].
  repeat match goal with
         | |- context [if ?c then _ else _] => destruct c
         end; try discriminate.
  all: now destruct (nodeValue node).
Qed.

(** X16.  The current handler sends what the earlier one sent, made an
    array: a node set is the same array in both, a scalar result (number,
    string, boolean, single node, unknown type) was sent bare by the earlier
    handler and is sent as a one-element array now.  The earlier payload is
    an array exactly for the four node-set result types. *)
Theorem current_payload_wraps_earlier (result : XPathResult) :
  xpath_switch result = as_array (Legacy.xpath_switch result) /\
  ((exists items, Legacy.xpath_switch result = JArr items) <->
   In (resultType result)
      [UNORDERED_NODE_ITERATOR_TYPE; ORDERED_NODE_ITERATOR_TYPE;
       UNORDERED_NODE_SNAPSHOT_TYPE; ORDERED_NODE_SNAPSHOT_TYPE]).
Proof.
  split.
  - unfold xpath_switch, Legacy.xpath_switch. cbn zeta.
    repeat match goal with
           | |- context [if ?c then _ else _] => destruct c
           end; try reflexivity.
    now rewrite processNode_scalar.
  - split.
    + intros [items H]. revert H.
      unfold Legacy.xpath_switch. cbn zeta.
      destruct (Nat.eqb (resultType result) NUMBER_TYPE); [discriminate |].
      destruct (Nat.eqb (resultType result) STRING_TYPE); [discriminate |].
      destruct (Nat.eqb (resultType result) BOOLEAN_TYPE); [discriminate |].
      destruct (Nat.eqb (resultType result) UNORDERED_NODE_ITERATOR_TYPE) eqn:E4.
      { apply Nat.eqb_eq in E4. intros _. left. now symmetry. }
      destruct (Nat.eqb (resultType result) ORDERED_NODE_ITERATOR_TYPE) eqn:E5.
      { apply Nat.eqb_eq in E5. intros _. right; left. now symmetry. }
      destruct (Nat.eqb (resultType result) UNORDERED_NODE_SNAPSHOT_TYPE) eqn:E6.
      { apply Nat.eqb_eq in E6. intros _. do 2 right; left. now symmetry. }
      destruct (Nat.eqb (resultType result) ORDERED_NODE_SNAPSHOT_TYPE) eqn:E7.
      { apply Nat.eqb_eq in E7. intros _. do 3 right; left. now symmetry. }
      cbn [orb].
      destruct (Nat.eqb (resultType result) ANY_UNORDERED_NODE_TYPE
                || Nat.eqb (resultType result) FIRST_ORDERED_NODE_TYPE);
        [| discriminate].
      intros H. now apply processNode_not_array in H.
    + unfold Legacy.xpath_switch. cbn zeta.
      intros [<- | [<- | [<- | [<- | []]]]]; cbn; eauto.
Qed.

Lemma current_payload_wraps_earlier_witness :
  Legacy.xpath_switch Scenario.three = JNum (Number "3") /\
  xpath_switch Scenario.three = [JNum (Number "3")].
Proof.
  split; [reflexivity |].
  rewrite (proj1 (current_payload_wraps_earlier Scenario.three)).
  reflexivity.
Defined.

(** What a handler's trace amounts to, given its [try] block: the cleanup
    calls are those of the [finally] block, and the one response is the
    block's own 200 or the failure response. *)
Lemma run_summary (T : run unit) (F : error -> response) :
  answered T -> teardown (emitted T) = [] ->
  (forall r, In r (responses (emitted T)) -> status r = 200) ->
  let tr := (emitted T
             ++ match outcome T with
                | Throw err => [Respond (F err)]
                | _ => []
                end
             ++ cleanup_calls (final T))%list in
  teardown tr = cleanup_calls (final T) /\
  match outcome T with
  | Throw err => responses tr = [F err]
  | _ => exists r, responses tr = [r] /\ status r = 200
  end.
Proof.
  intros An Td St tr. subst tr. split.
  - rewrite !teardown_app, Td.
    rewrite (teardown_all _ (cleanup_calls_teardown _)).
    now destruct (outcome T).
  - rewrite !responses_app, responses_cleanup, app_nil_r.
    unfold answered in An.
    destruct (outcome T) as [x | | err].
    + destruct An as (calls & r & E & Hc). exists r.
      rewrite E, responses_app, Hc in *. cbn in *. rewrite St; auto.
    + destruct An as (calls & r & E & Hc). exists r.
      rewrite E, responses_app, Hc in *. cbn in *. rewrite St; auto.
    + now rewrite An.
Qed.

Lemma current_summary (w : world) (req : request) :
  let T := scrape_try w (url_of req) (selector_of req) (method_of req)
             null_vars in
  answered T /\ teardown (emitted T) = [] /\
  (forall r, In r (responses (emitted T)) -> status r = 200).
Proof.
  intros T. subst T. split; [apply scrape_try_answered |].
  pose proof (scrape_try_emits w (url_of req) (selector_of req)
                (method_of req)) as Em.
  split.
  - apply teardown_none.
    apply (emits_weaken _ (fun e => negb (is_teardown e))) in Em;
      [apply Em | apply try_event_not_teardown].
  - intros r Hr. apply responses_In in Hr.
    specialize (Em null_vars). rewrite forallb_forall in Em.
    exact (current_status_200 _ _ (Em _ Hr)).
Qed.

Lemma earlier_summary (w : world) (req : request) :
  let T := Legacy.scrape_try w (url_of req) (selector_of req) (method_of req)
             null_vars in
  answered T /\ teardown (emitted T) = [] /\
  (forall r, In r (responses (emitted T)) -> status r = 200).
Proof.
  intros T. subst T. split; [apply legacy_scrape_try_answered |].
  pose proof (legacy_scrape_try_emits w (url_of req) (selector_of req)
                (method_of req)) as Em.
  split.
  - apply teardown_none.
    apply (emits_weaken _ (fun e => negb (is_teardown e))) in Em;
      [apply Em |].
    intros e. destruct e; cbn; trivial; discriminate.
  - intros r Hr. apply responses_In in Hr.
    specialize (Em null_vars). rewrite forallb_forall in Em.
    specialize (Em _ Hr). cbn in Em. now apply Nat.eqb_eq in Em.
Qed.

(** X17.  Where the current handler's own additions do not fail (the mouse
    move, the scroll, and the [includes] test on the url), the two handlers
    treat a request alike: they make the same cleanup calls, answer with
    the same status, and answer a failure with the same document.  They
    differ only in what a 200 carries. *)
Theorem earlier_and_current_agree (w : world) (req : request) :
  mouse w = Resolve tt -> scroll w = Resolve tt ->
  url_includes (url_of req) "wsj.com/" <> None ->
  teardown (Legacy.trace w req) = teardown (trace w req) /\
  map status (responses (Legacy.trace w req))
  = map status (responses (trace w req)) /\
  failures (responses (Legacy.trace w req))
  = failures (responses (trace w req)).
Proof.
  intros Hm Hs Hu. unfold trace, Legacy.trace.
  destruct (valid_dec req) as [V | [[Hl NV] | NL]].
  3:{ rewrite (handle_unloggable w req NL), (legacy_handle_unloggable w req NL).
      now repeat split. }
  2:{ rewrite (handle_invalid w req Hl NV), (legacy_handle_invalid w req Hl NV).
      now repeat split. }
  rewrite (handle_run w req V), (legacy_handle_run w req V). cbn [emitted].
  destruct (try_blocks_agree w (url_of req) (selector_of req) (method_of req)
              Hm Hs Hu) as [F Th].
  destruct (current_summary w req) as (AT & TT & ST).
  destruct (earlier_summary w req) as (AL & TL & SL).
  destruct (run_summary _ (failure_response w req) AT TT ST) as [CT RT].
  destruct (run_summary _ (failure_response w req) AL TL SL) as [CL RL].
  cbn zeta in *.
  set (T := scrape_try w (url_of req) (selector_of req) (method_of req)
              null_vars) in *.
  set (L := Legacy.scrape_try w (url_of req) (selector_of req) (method_of req)
              null_vars) in *.
  rewrite F in CL, RL |- *. rewrite CT, CL. split; [reflexivity |].
  destruct (outcome T) as [x | | err] eqn:OT.
  - destruct (outcome L) as [y | | err'] eqn:OL.
    + destruct RT as (r & -> & Hr), RL as (r' & -> & Hr').
      unfold failures. cbn. now rewrite Hr, Hr'.
    + destruct RT as (r & -> & Hr), RL as (r' & -> & Hr').
      unfold failures. cbn. now rewrite Hr, Hr'.
    + destruct (Th err') as [_ H]. discriminate (H eq_refl).
  - destruct (outcome L) as [y | | err'] eqn:OL.
    + destruct RT as (r & -> & Hr), RL as (r' & -> & Hr').
      unfold failures. cbn. now rewrite Hr, Hr'.
    + destruct RT as (r & -> & Hr), RL as (r' & -> & Hr').
      unfold failures. cbn. now rewrite Hr, Hr'.
    + destruct (Th err') as [_ H]. discriminate (H eq_refl).
  - assert (OL : outcome L = Throw err) by now apply Th.
    rewrite OL in RL |- *. now rewrite RT, RL.
Qed.

Lemma earlier_and_current_agree_witness :
  teardown (Legacy.trace Sample.absent Sample.css_request)
  = teardown (trace Sample.absent Sample.css_request) /\
  map status (responses (Legacy.trace Sample.absent Sample.css_request))
  = [504].
Proof.
  assert (U : url_includes (url_of Sample.css_request) "wsj.com/" <> None)
    by discriminate.
  destruct (earlier_and_current_agree Sample.absent Sample.css_request
              eq_refl eq_refl U) as (A & B & _).
  split; [exact A | reflexivity].
Defined.

(** X18.  What the earlier handler sends on success.  An XPath result goes
    out as the in-page function returned it, so a scalar result is a bare
    JSON scalar; the markup of a CSS match goes out as a JSON string, not
    as text/html.  The trace has no call beyond launch, page set-up,
    navigation, extraction and cleanup. *)
Theorem earlier_success_payload (w : world) (req : request) (suffix : string)
    (b : Browser) :
  Legacy.loaded w req ->
  mkdtemp w = Resolve suffix -> launched w = Resolve b ->
  let v := session_vars w suffix b in
  (forall result,
     is_string (method_of req) "xpath" = true ->
     document_evaluate w = Resolve (Resolve result) ->
     Legacy.trace w req =
     (Legacy.lead_up w req v
      ++ [EvaluateXPath (selector_of req);
          Respond {| status := 200; content_type := "application/json";
                     sent := Json (json (Legacy.xpath_switch result)) |}]
      ++ cleanup_calls v)%list) /\
  (forall first others,
     is_string (method_of req) "xpath" = false ->
     selector_wait w = Puppeteer.Appears first others ->
     outer_html w = Resolve tt -> disposed w = Resolve tt ->
     Legacy.trace w req =
     (Legacy.lead_up w req v
      ++ [WaitForSelector (selector_of req) 15000;
          ReadOuterHTML {| element := first |};
          Dispose {| element := first |};
          Respond {| status := 200; content_type := "application/json";
                     sent := Json (JStr (outerHTML first)) |}]
      ++ cleanup_calls v)%list).
Proof.
  intros [[V _] [[p Hp] [Hv [Ha Hn]]]] Hd Hl v.
  assert (P : forall X : M unit,
            (bind (Legacy.launch_browser w)
               (fun _ => bind (Legacy.navigate w (url_of req)) (fun _ => X)))
              null_vars
            = Run (outcome (X v)) (final (X v))
                  (Legacy.lead_up w req v ++ emitted (X v))).
  { intros X. unfold Legacy.launch_browser, Legacy.navigate, bind, call,
      set_userDataDir, set_browser, set_page, emit, Puppeteer.goto.
    rewrite Hd, Hl, Hp, Hv, Ha, Hn. cbn.
    subst v. unfold session_vars. rewrite Hp.
    now destruct (X _). }
  split.
  - intros result Hx He. unfold Legacy.trace.
    rewrite (legacy_handle_run w req V). unfold Legacy.scrape_try.
    rewrite P. unfold Legacy.extract. rewrite Hx.
    unfold Legacy.extract_xpath, bind, call, res_json, res_status_json, emit.
    rewrite He. cbn. rewrite <- ?app_assoc. reflexivity.
  - intros first others Hx Hw Ho Hdisp. unfold Legacy.trace.
    rewrite (legacy_handle_run w req V). unfold Legacy.scrape_try.
    rewrite P. unfold Legacy.extract. rewrite Hx.
    unfold Legacy.extract_css, bind, call, res_json, res_status_json, emit, ret.
    rewrite Hw. cbn. rewrite Ho, Hdisp. cbn. rewrite <- ?app_assoc. reflexivity.
Qed.

Lemma earlier_success_payload_witness :
  responses (Legacy.trace Scenario.counting Scenario.count_request)
  = [{| status := 200; content_type := "application/json";
        sent := Json (JNum (Number "3")) |}] /\
  responses (trace Scenario.counting Scenario.count_request)
  = [{| status := 200; content_type := "application/json";
        sent := Json (JArr [JNum (Number "3")]) |}].
Proof.
  assert (L : Legacy.loaded Scenario.counting Scenario.count_request).
  { repeat split; try reflexivity; eexists; reflexivity. }
  destruct (earlier_success_payload Scenario.counting Scenario.count_request
              "Xk3p9Q" {| browser_id := 1 |} L eq_refl eq_refl) as [X _].
  split; [| reflexivity].
  rewrite (X Scenario.three eq_refl eq_refl). reflexivity.
Defined.

(** X19.  The earlier handler answers exactly once every request whose
    four fields can be converted to strings; a request with a field that
    cannot be converted ends at its first log line, with the handler
    throwing and nothing sent or called.  The handler makes the cleanup
    calls its variables call for and no other, and never touches the
    browser's targets, an extension worker, the mouse or the scroll
    position. *)
Theorem earlier_handler_lifecycle (w : world) (req : request) :
  (loggable req = true -> exists r, responses (Legacy.trace w req) = [r]) /\
  (loggable req = false ->
   Legacy.trace w req = [] /\
   outcome (Legacy.handle w req)
   = Throw (TypeError "Cannot convert object to primitive value")) /\
  teardown (Legacy.trace w req) = cleanup_calls (final (Legacy.handle w req)) /\
  forallb (fun e => negb (is_side_effect e || is_interaction e))
          (Legacy.trace w req) = true.
Proof.
  unfold Legacy.trace. destruct (valid_dec req) as [V | [[Hl NV] | NL]].
  3:{ rewrite (legacy_handle_unloggable w req NL). cbn.
      split; [congruence |]. now repeat split. }
  2:{ rewrite (legacy_handle_invalid w req Hl NV). cbn.
      split; [now eexists |]. split; [congruence |]. now split. }
  assert (Hl : loggable req = true) by apply V.
  rewrite (legacy_handle_run w req V). cbn [emitted final].
  destruct (earlier_summary w req) as (AL & TL & SL).
  destruct (run_summary _ (failure_response w req) AL TL SL) as [CL RL].
  cbn zeta in *.
  set (L := Legacy.scrape_try w (url_of req) (selector_of req) (method_of req)
              null_vars) in *.
  split; [| split; [congruence | split; [exact CL |]]].
  - intros _. destruct (outcome L) as [x | | err].
    + destruct RL as (r & RL & _). now exists r.
    + destruct RL as (r & RL & _). now exists r.
    + now exists (failure_response w req err).
  - rewrite !forallb_app.
    pose proof (legacy_scrape_try_emits w (url_of req) (selector_of req)
                  (method_of req) null_vars) as Em.
    fold L in Em.
    assert (E1 : forallb (fun e => negb (is_side_effect e || is_interaction e))
                   (emitted L) = true).
    { rewrite forallb_forall in *. intros e He. specialize (Em e He).
      destruct e; cbn in *; trivial; discriminate. }
    rewrite E1. cbn [andb].
    assert (E2 : forallb (fun e => negb (is_side_effect e || is_interaction e))
                   (cleanup_calls (final L)) = true).
    { pose proof (cleanup_calls_teardown (final L)) as C.
      rewrite forallb_forall in *. intros e He. specialize (C e He).
      destruct e; cbn in *; trivial; discriminate. }
    rewrite E2, andb_true_r. now destruct (outcome L).
Qed.

Lemma earlier_handler_lifecycle_witness :
  (loggable Sample.css_request = true /\
   exists r, responses (Legacy.trace Sample.calm Sample.css_request) = [r]) /\
  (loggable Sample.unprintable = false /\
   Legacy.trace Sample.calm Sample.unprintable = []).
Proof.
  destruct (earlier_handler_lifecycle Sample.calm Sample.css_request)
    as (H & _).
  destruct (earlier_handler_lifecycle Sample.calm Sample.unprintable)
    as (_ & U & _).
  split; [split; [reflexivity | exact (H eq_refl)] |].
  split; [reflexivity | exact (proj1 (U eq_refl))].
Defined.

(* ===================================================================== *)
(** ** The first two servers *)

Lemma proc_bind_run {E A B} (m : Proc.M E A) (k : A -> Proc.M E B) (v : vars) :
  Proc.bind m k v =
  match Proc.outcome (m v) with
  | Normal a =>
      Proc.Run (Proc.outcome (k a (Proc.final (m v))))
               (Proc.final (k a (Proc.final (m v))))
               (Proc.emitted (m v) ++ Proc.emitted (k a (Proc.final (m v))))%list
  | Return => Proc.Run Return (Proc.final (m v)) (Proc.emitted (m v))
  | Throw e => Proc.Run (Throw e) (Proc.final (m v)) (Proc.emitted (m v))
  end.
Proof.
  unfold Proc.bind. destruct (m v) as [[a | | e] v' l]; cbn; trivial.
  now destruct (k a v').
Qed.

Lemma proc_try_catch_run {E A} (body : Proc.M E A)
    (handler : error -> Proc.M E A) (v : vars) :
  Proc.try_catch body handler v =
  match Proc.outcome (body v) with
  | Throw e =>
      Proc.Run (Proc.outcome (handler e (Proc.final (body v))))
               (Proc.final (handler e (Proc.final (body v))))
               (Proc.emitted (body v)
                ++ Proc.emitted (handler e (Proc.final (body v))))%list
  | _ => body v
  end.
Proof.
  unfold Proc.try_catch. destruct (body v) as [[a | | e] v' l]; cbn; trivial.
  now destruct (handler e v').
Qed.

Lemma proc_try_catch_finally_run {E A} (body : Proc.M E A)
    (handler : error -> Proc.M E A) (finalizer : Proc.M E unit) (v : vars) :
  let r := Proc.try_catch body handler v in
  let f := finalizer (Proc.final r) in
  Proc.try_catch_finally body handler finalizer v =
  Proc.Run match Proc.outcome f with
           | Normal _ => Proc.outcome r
           | Return => Return
           | Throw e => Throw e
           end
           (Proc.final f) (Proc.emitted r ++ Proc.emitted f)%list.
Proof.
  cbn. unfold Proc.try_catch_finally.
  destruct (Proc.try_catch body handler v) as [o v' l]; cbn.
  now destruct (finalizer v') as [[[] | | e] v'' l'].
Qed.

Lemma early_responses_app (l l' : list Early.event) :
  Early.responses (l ++ l')
  = (Early.responses l ++ Early.responses l')%list.
Proof.
  induction l as [| e l IH]; [reflexivity |].
  destruct e; cbn; now rewrite ?IH.
Qed.

Lemma early_teardown_app (l l' : list Early.event) :
  Early.teardown (l ++ l') = (Early.teardown l ++ Early.teardown l')%list.
Proof. apply filter_app. Qed.

Lemma early_cleanup_calls (v : vars) :
  Early.teardown (Early.cleanup_calls v) = Early.cleanup_calls v /\
  Early.responses (Early.cleanup_calls v) = [].
Proof.
  unfold Early.cleanup_calls.
  destruct (page v), (browser v), (userDataDir v) as [d |];
    try destruct (String.eqb d EmptyString); now split.
Qed.

(** *** The per-request server *)

Lemma plain_finally_run (x : Early.oracle) (v : vars) :
  Plain.scrape_finally x v = Proc.Run (Normal tt) v (Early.cleanup_calls v).
Proof.
  unfold Plain.scrape_finally, Early.cleanup_calls, Proc.bind, Proc.read,
    Proc.try_catch, Proc.call, Proc.ret.
  destruct v as [[b |] [p |] [dir |]];
    destruct (page_closed (Early.common x)) as [[] |],
      (browser_closed (Early.common x)) as [[] |],
      (dir_removed (Early.common x)) as [[] |];
    cbn; try destruct (String.eqb dir EmptyString); reflexivity.
Qed.

Lemma plain_handle_run (x : Early.oracle) (req : request) :
  let T := Plain.scrape_try x (url_of req) (selector_of req) (method_of req)
             null_vars in
  Plain.handle x req =
  Proc.Run match Proc.outcome T with Throw _ => Normal tt | o => o end
      (Proc.final T)
      (Proc.emitted T
       ++ match Proc.outcome T with
          | Throw err => [Early.Respond (Plain.failure_response x err)]
          | _ => []
          end
       ++ Early.cleanup_calls (Proc.final T)).
Proof.
  intros T. unfold Plain.handle, Plain.scrape.
  fold (url_of req) (selector_of req) (method_of req).
  rewrite proc_try_catch_finally_run, plain_finally_run, proc_try_catch_run.
  fold T. cbn [Proc.outcome Proc.final Proc.emitted].
  destruct (Proc.outcome T) eqn:E; cbn [Proc.outcome Proc.final Proc.emitted];
    rewrite ?plain_finally_run; cbn [Proc.outcome Proc.final Proc.emitted].
  - destruct (T) as [o f l]; cbn in *; subst. reflexivity.
  - destruct (T) as [o f l]; cbn in *; subst. reflexivity.
  - unfold Plain.scrape_catch, Early.res_status_json, Proc.emit.
    cbn [Proc.outcome Proc.final Proc.emitted].
    now rewrite <- app_assoc.
Qed.

(** Case analysis on how the calls of a [try] block settle. *)
Ltac settle_calls :=
  repeat (cbn;
          match goal with
          | |- context [match ?s with _ => _ end] => is_var s; destruct s
          end);
  cbn.

(** The [try] block of the per-request server: it makes no cleanup call,
    does not [return], and either throws without having answered or ends
    with its one response, a 200 of type text/html. *)
Lemma plain_try_shape (x : Early.oracle) (url selector method : value) :
  let T := Plain.scrape_try x url selector method null_vars in
  Early.teardown (Proc.emitted T) = [] /\
  match Proc.outcome T with
  | Throw _ => Early.responses (Proc.emitted T) = []
  | Return => False
  | Normal _ =>
      exists r, Early.responses (Proc.emitted T) = [r] /\
                status r = 200 /\ content_type r = "text/html"
  end.
Proof.
  destruct x as [[env tmp mk la op vp ua nav ts mo sc de sw oh di pc bc dr]
                   xw xq ev sb].
  unfold Plain.scrape_try, Plain.find_element, Proc.bind, Proc.call,
    Proc.emit, Proc.ret, Proc.throw, Proc.set_userDataDir, Proc.set_browser,
    Proc.set_page, Early.res_status_send, Puppeteer.goto,
    Puppeteer.waitForSelector.
  cbn [Early.common mkdtemp launched opened viewport navigation selector_wait
       outer_html Early.xpath_wait Early.xpath_query].
  destruct (is_string method "xpath"); settle_calls;
    try (split; [reflexivity | eexists; repeat split; reflexivity]);
    split; reflexivity.
Qed.

(** X20.  The per-request server answers every request exactly once, with a
    200 of type text/html or, whatever went wrong, with a 500: it has no
    validation and no classification of failures.  The failure document
    carries the stack in development only, whatever the request says.  Its
    cleanup calls are those its three variables call for. *)
Theorem plain_lifecycle (x : Early.oracle) (req : request) :
  (exists r,
     Early.responses (Plain.trace x req) = [r] /\
     ((status r = 200 /\ content_type r = "text/html") \/
      exists err, r = Plain.failure_response x err /\ status r = 500)) /\
  (forall err,
     has_field "stack" (json (Plain.error_document x err)) = true <->
     NODE_ENV (Early.common x) = Some "development") /\
  Early.teardown (Plain.trace x req)
  = Early.cleanup_calls (Proc.final (Plain.handle x req)).
Proof.
  unfold Plain.trace. rewrite plain_handle_run.
  cbn [Proc.emitted Proc.final].
  destruct (plain_try_shape x (url_of req) (selector_of req) (method_of req))
    as [Td Sh]. cbn zeta in *.
  set (T := Plain.scrape_try x (url_of req) (selector_of req) (method_of req)
              null_vars) in *.
  destruct (early_cleanup_calls (Proc.final T)) as [Ct Cr].
  split; [| split].
  - rewrite !early_responses_app, Cr, app_nil_r.
    destruct (Proc.outcome T) as [a | | err].
    + destruct Sh as (r & -> & Hs & Hc). exists r. split; [reflexivity |].
      now left.
    + destruct Sh.
    + rewrite Sh. exists (Plain.failure_response x err).
      split; [reflexivity |]. right. now exists err.
  - intros err. unfold Plain.error_document.
    destruct (NODE_ENV (Early.common x)) as [env |]; cbn.
    + destruct (String.eqb env "development") eqn:E; cbn.
      * apply String.eqb_eq in E. subst. now split.
      * apply String.eqb_neq in E. split; [discriminate |].
        intros [= H]. now destruct E.
    + split; discriminate.
  - rewrite !early_teardown_app, Td, Ct.
    now destruct (Proc.outcome T).
Qed.

Lemma plain_try_start (x : Early.oracle) (url selector method : value) :
  let T := Plain.scrape_try x url selector method null_vars in
  let w := Early.common x in
  match mkdtemp w with
  | Resolve suffix =>
      exists l,
        Proc.emitted T
        = Early.MkdtempSync (tmp_prefix w)
          :: Early.Launch (tmp_prefix w ++ suffix) 60000 :: l /\
        userDataDir (Proc.final T) = Some (tmp_prefix w ++ suffix)
  | Reject _ => Proc.emitted T = [Early.MkdtempSync (tmp_prefix w)]
  end.
Proof.
  destruct x as [[env tmp mk la op vp ua nav ts mo sc de sw oh di pc bc dr]
                   xw xq ev sb].
  unfold Plain.scrape_try, Plain.find_element, Proc.bind, Proc.call,
    Proc.emit, Proc.ret, Proc.throw, Proc.set_userDataDir, Proc.set_browser,
    Proc.set_page, Early.res_status_send, Puppeteer.goto,
    Puppeteer.waitForSelector.
  cbn [Early.common mkdtemp launched opened viewport navigation selector_wait
       outer_html Early.xpath_wait Early.xpath_query].
  destruct (is_string method "xpath"); settle_calls;
    try (eexists; split; reflexivity); reflexivity.
Qed.

(** X21.  Every request, also one without url or selector, makes the
    per-request server create a profile directory and, when that worked,
    launch a browser on it; the directory is removed again at the end. *)
Theorem plain_has_no_validation (x : Early.oracle) (req : request) :
  exists rest,
    Plain.trace x req
    = Early.MkdtempSync (tmp_prefix (Early.common x)) :: rest /\
    forall suffix,
      mkdtemp (Early.common x) = Resolve suffix ->
      exists rest',
        rest = Early.Launch (tmp_prefix (Early.common x) ++ suffix) 60000
               :: rest' /\
        In (Early.RmSync (tmp_prefix (Early.common x) ++ suffix)) rest'.
Proof.
  unfold Plain.trace. rewrite plain_handle_run.
  cbn [Proc.emitted Proc.final].
  pose proof (plain_try_start x (url_of req) (selector_of req) (method_of req))
    as S. cbn zeta in S.
  set (T := Plain.scrape_try x (url_of req) (selector_of req) (method_of req)
              null_vars) in *.
  set (w := Early.common x) in *.
  destruct (mkdtemp w) as [suffix | e].
  - destruct S as (l & -> & Hu).
    eexists. split; [reflexivity |].
    intros s [= <-]. eexists. split; [reflexivity |].
    apply in_or_app. right. apply in_or_app. right.
    unfold Early.cleanup_calls. rewrite Hu.
    apply in_or_app. right. apply in_or_app. right.
    rewrite profile_dir_nonempty. now left.
  - rewrite S. eexists. split; [reflexivity |]. discriminate.
Qed.

Lemma plain_has_no_validation_witness :
  exists rest,
    Plain.trace Scene.calm Sample.no_selector
    = Early.MkdtempSync "/tmp/puppeteer-user-data-"
      :: Early.Launch "/tmp/puppeteer-user-data-Xk3p9Q" 60000 :: rest /\
    In (Early.RmSync "/tmp/puppeteer-user-data-Xk3p9Q") rest.
Proof.
  destruct (plain_has_no_validation Scene.calm Sample.no_selector)
    as (rest & E & H).
  destruct (H "Xk3p9Q" eq_refl) as (rest' & -> & I).
  now exists rest'.
Defined.



(** *** The shared-browser server *)

Lemma shared_finally_run (x : Early.oracle) (v : vars) :
  Shared.scrape_finally x v =
  Proc.Run (Normal tt) v
    match page v with Some p => [Early.PageClose p] | None => [] end.
Proof.
  unfold Shared.scrape_finally, Proc.try_catch, Proc.bind, Proc.read,
    Proc.call, Proc.ret.
  destruct v as [b [p |] d]; cbn; [| reflexivity].
  now destruct (page_closed (Early.common x)) as [[] | e].
Qed.

Lemma proc_interpolate_bind {E A} (l : list value) (k : Proc.M E A)
    (v : vars) :
  Proc.bind (Proc.interpolate l) (fun _ => k) v =
  if forallb convertible l then k v
  else Proc.Run (Throw (TypeError "Cannot convert object to primitive value"))
         v [].
Proof.
  unfold Proc.bind.
  assert (R : @Proc.interpolate E l v =
              if forallb convertible l then Proc.Run (Normal tt) v []
              else Proc.Run
                     (Throw (TypeError "Cannot convert object to primitive value"))
                     v []).
  { induction l as [| x l IH]; [reflexivity |].
    cbn [Proc.interpolate forallb]. unfold ToString.
    destruct (convertible x); [exact IH | reflexivity]. }
  rewrite R. destruct (forallb convertible l); [| reflexivity].
  now destruct (k v).
Qed.

(** The shared-browser server after its two log lines. *)
Lemma shared_scrape_run (x : Early.oracle) (req : request) :
  Shared.handle x req =
  if Shared.loggable req then
    (if negb (truthy (url_of req)) || negb (truthy (selector_of req))
     then Proc.bind (Early.res_status_send 400 "Missing url or selector")
            (fun _ => Proc.return_)
     else Proc.try_catch_finally
            (Shared.scrape_try x (url_of req) (selector_of req))
            Shared.scrape_catch (Shared.scrape_finally x)) null_vars
  else Proc.Run (Throw (TypeError "Cannot convert object to primitive value"))
         null_vars [].
Proof.
  unfold Shared.handle, Shared.scrape, Shared.loggable.
  fold (url_of req) (selector_of req).
  rewrite !proc_interpolate_bind. cbn [forallb]. rewrite !andb_true_r.
  destruct (convertible (url_of req)); [| reflexivity].
  now destruct (convertible (selector_of req)).
Qed.

Lemma valid_shared_loggable (req : request) :
  valid req -> Shared.loggable req = true.
Proof.
  intros (Hl & _). unfold loggable in Hl. unfold Shared.loggable.
  fold (url_of req) (selector_of req).
  apply andb_prop in Hl. destruct Hl as [Hl _].
  apply andb_prop in Hl. destruct Hl as [Hl _]. exact Hl.
Qed.

Lemma shared_handle_run (x : Early.oracle) (req : request) :
  Shared.loggable req = true ->
  truthy (url_of req) = true -> truthy (selector_of req) = true ->
  let T := Shared.scrape_try x (url_of req) (selector_of req) null_vars in
  Shared.handle x req =
  Proc.Run match Proc.outcome T with Throw _ => Normal tt | o => o end
      (Proc.final T)
      (Proc.emitted T
       ++ match Proc.outcome T with
          | Throw err =>
              [Early.Respond {| status := 500; content_type := "text/html";
                                sent := Text (Shared.error_to_string err) |}]
          | _ => []
          end
       ++ match page (Proc.final T) with
          | Some p => [Early.PageClose p]
          | None => []
          end).
Proof.
  intros Hl Hu Hs T. rewrite shared_scrape_run, Hl, Hu, Hs. cbn [negb orb].
  rewrite proc_try_catch_finally_run, shared_finally_run, proc_try_catch_run.
  fold T. cbn [Proc.outcome Proc.final Proc.emitted].
  destruct (Proc.outcome T) eqn:E; cbn [Proc.outcome Proc.final Proc.emitted];
    rewrite ?shared_finally_run; cbn [Proc.outcome Proc.final Proc.emitted].
  - destruct (T) as [o f l]; cbn in *; subst. reflexivity.
  - destruct (T) as [o f l]; cbn in *; subst. reflexivity.
  - unfold Shared.scrape_catch, Early.res_status_send, Proc.emit.
    cbn [Proc.outcome Proc.final Proc.emitted].
    now rewrite <- app_assoc.
Qed.

(** The [try] block of the shared-browser server. *)
Lemma shared_try_shape (x : Early.oracle) (url selector : value) :
  let T := Shared.scrape_try x url selector null_vars in
  forallb (fun e => negb (Early.is_browser_lifetime e || Early.is_teardown e))
          (Proc.emitted T) = true /\
  browser (Proc.final T) = None /\ userDataDir (Proc.final T) = None /\
  match Proc.outcome T with
  | Throw _ => Early.responses (Proc.emitted T) = []
  | Return => False
  | Normal _ =>
      exists r, Early.responses (Proc.emitted T) = [r] /\
                status r = 200 /\ content_type r = "text/html"
  end.
Proof.
  destruct x as [[env tmp mk la op vp ua nav ts mo sc de sw oh di pc bc dr]
                   xw xq ev sb].
  unfold Shared.scrape_try, Shared.newPage, Proc.bind, Proc.call,
    Proc.emit, Proc.ret, Proc.throw, Proc.set_page, Early.res_status_send,
    Puppeteer.goto, Puppeteer.waitForSelector.
  cbn [Early.common opened navigation selector_wait Early.eval_outer
       Early.shared_browser].
  settle_calls;
    try (repeat split; try reflexivity; eexists; repeat split; reflexivity);
    repeat split; reflexivity.
Qed.

(** X23.  The shared-browser server answers exactly once, as text/html and
    with status 200, 400 or 500, every request whose [url] and [selector]
    can be converted to strings; a request with one that cannot be
    converted ends at the log lines before the validation, with the
    handler throwing and nothing sent or called.  A request never starts
    or ends a browser and never touches a profile directory; its only
    cleanup is to close the page it opened, if it opened one. *)
Theorem shared_lifecycle (x : Early.oracle) (req : request) :
  (Shared.loggable req = true ->
   exists r,
     Early.responses (Shared.trace x req) = [r] /\
     content_type r = "text/html" /\
     (status r = 200 \/ status r = 400 \/ status r = 500)) /\
  (Shared.loggable req = false ->
   Shared.trace x req = [] /\
   Proc.outcome (Shared.handle x req)
   = Throw (TypeError "Cannot convert object to primitive value")) /\
  forallb (fun e => negb (Early.is_browser_lifetime e)) (Shared.trace x req)
  = true /\
  Early.teardown (Shared.trace x req)
  = match page (Proc.final (Shared.handle x req)) with
    | Some p => [Early.PageClose p]
    | None => []
    end.
Proof.
  unfold Shared.trace.
  destruct (Shared.loggable req) eqn:Hl.
  2:{ rewrite shared_scrape_run, Hl. cbn.
      split; [discriminate |]. now repeat split. }
  destruct (truthy (url_of req) && truthy (selector_of req)) eqn:V.
  2:{ assert (E : Shared.handle x req =
                  Proc.Run Return null_vars
                    [Early.Respond {| status := 400; content_type := "text/html";
                                      sent := Text "Missing url or selector" |}]).
      { rewrite shared_scrape_run, Hl.
        assert (E : negb (truthy (url_of req))
                    || negb (truthy (selector_of req)) = true).
        { destruct (truthy (url_of req)), (truthy (selector_of req));
            try reflexivity; discriminate V. }
        now rewrite E. }
      rewrite E. cbn. split; [| split; [discriminate | now split]].
      intros _. eexists. split; [reflexivity |]. split; [reflexivity |].
      right. now left. }
  apply andb_prop in V. destruct V as [Hu Hs].
  rewrite (shared_handle_run x req Hl Hu Hs). cbn [Proc.emitted Proc.final].
  destruct (shared_try_shape x (url_of req) (selector_of req))
    as (Em & _ & _ & Sh). cbn zeta in *.
  set (T := Shared.scrape_try x (url_of req) (selector_of req) null_vars) in *.
  assert (Tail : forall l : list Early.event,
            l = match page (Proc.final T) with
                | Some p => [Early.PageClose p]
                | None => []
                end ->
            Early.responses l = [] /\ Early.teardown l = l /\
            forallb (fun e => negb (Early.is_browser_lifetime e)) l = true).
  { intros l ->. now destruct (page (Proc.final T)). }
  destruct (Tail _ eq_refl) as (Tr & Tt & Tb).
  split; [| split; [discriminate | split]].
  - intros _. rewrite !early_responses_app, Tr, app_nil_r.
    destruct (Proc.outcome T) as [a | | err].
    + destruct Sh as (r & -> & Hs' & Hc). exists r. cbn. auto.
    + destruct Sh.
    + rewrite Sh. eexists. split; [reflexivity |]. cbn. auto.
  - rewrite !forallb_app, Tb, andb_true_r.
    assert (E1 : forallb (fun e => negb (Early.is_browser_lifetime e))
                   (Proc.emitted T) = true).
    { rewrite forallb_forall in *. intros e He. specialize (Em e He).
      apply negb_true_iff in Em. apply orb_false_elim in Em.
      destruct Em as [Em _]. now rewrite Em. }
    rewrite E1. now destruct (Proc.outcome T).
  - rewrite !early_teardown_app, Tt.
    assert (E1 : Early.teardown (Proc.emitted T) = []).
    { unfold Early.teardown. clear -Em.
      induction (Proc.emitted T) as [| e l IH]; [reflexivity |].
      cbn in *. apply andb_prop in Em. destruct Em as [He Hl].
      apply negb_true_iff in He. apply orb_false_elim in He.
      destruct He as [_ He]. rewrite He. now apply IH. }
    rewrite E1. now destruct (Proc.outcome T).
Qed.

Lemma shared_lifecycle_witness :
  (Shared.loggable Sample.css_request = true /\
   exists r, Early.responses (Shared.trace Scene.calm Sample.css_request) = [r]
             /\ status r = 200) /\
  (Shared.loggable Sample.unprintable = false /\
   Shared.trace Scene.calm Sample.unprintable = []).
Proof.
  destruct (shared_lifecycle Scene.calm Sample.css_request) as (H & _).
  destruct (shared_lifecycle Scene.calm Sample.unprintable) as (_ & U & _).
  split.
  - split; [reflexivity |]. eexists. split; reflexivity.
  - split; [reflexivity | exact (proj1 (U eq_refl))].
Defined.

(** X24.  The shared-browser server reports a failure as the error's own
    text with status 500, without telling a timeout from anything else.  A
    selector that never appears is answered with the text of the
    TimeoutError, after which the page is closed; a request that comes in
    before the browser is up is answered with the text of a TypeError, and
    no call is made at all. *)
Theorem shared_failure_text (x : Early.oracle) (req : request) :
  valid req ->
  (Early.shared_browser x = None ->
   Shared.trace x req =
   [Early.Respond
      {| status := 500; content_type := "text/html";
         sent := Text ("TypeError: Cannot read properties of undefined "
                       ++ "(reading 'newPage')") |}]) /\
  (forall b p,
     Early.shared_browser x = Some b ->
     opened (Early.common x) = Resolve p ->
     navigation (Early.common x) = Puppeteer.Loaded ->
     selector_wait (Early.common x) = Puppeteer.NeverAppears ->
     Shared.trace x req =
     [Early.NewPage; Early.Goto (url_of req) 30000;
      Early.WaitForSelector (selector_of req) 10000;
      Early.Respond
        {| status := 500; content_type := "text/html";
           sent := Text ("TimeoutError: Waiting for selector `"
                         ++ to_string (selector_of req)
                         ++ "` failed: Waiting failed: 10000ms exceeded") |};
      Early.PageClose p]).
Proof.
  intros V. unfold Shared.trace.
  rewrite (shared_handle_run x req (valid_shared_loggable req V)
             (proj1 (proj2 V)) (proj2 (proj2 V))).
  cbn [Proc.emitted]. split.
  - intros Hb. unfold Shared.scrape_try, Shared.newPage. rewrite Hb.
    reflexivity.
  - intros b p Hb Hp Hn Hw.
    unfold Shared.scrape_try, Shared.newPage, Proc.bind, Proc.call,
      Proc.set_page, Puppeteer.goto, Puppeteer.waitForSelector.
    rewrite Hb, Hp, Hn, Hw. reflexivity.
Qed.

Lemma shared_failure_text_witness :
  Shared.trace Scene.starting Sample.css_request =
  [Early.Respond
     {| status := 500; content_type := "text/html";
        sent := Text ("TypeError: Cannot read properties of undefined "
                      ++ "(reading 'newPage')") |}].
Proof.
  assert (V : valid Sample.css_request) by (repeat split; reflexivity).
  exact (proj1 (shared_failure_text Scene.starting Sample.css_request V)
           eq_refl).
Defined.
